(** * Parquet modular encryption: key toolkit and file-level crypto binding

    A shallow embedding of the C++ sources under [cpp/src/parquet]:
    [key_material.cc], [key_metadata.cc], [two_level_cache_with_expiration.h],
    [in_memory_kms.cc], [metadata.cc], [file_reader.cc],
    [internal_file_encryptor.cc] and
    [encryption/properties_driven_crypto_factory.cc] with its older version.

    Conventions.
    - [std::string] is [string]: a sequence of 8-bit characters, which may
      contain the NUL character ["000"].
    - [std::map] and [std::unordered_map] keyed by strings are [gmap string _];
      their [insert] keeps an existing entry, which is written out below.
    - A function that may throw returns a [Result]; a function that also
      mutates an object returns the new state next to it.
    - Fixed-width integers are [Z] with the wrap-around written out. *)

From Stdlib Require Import ZArith String Ascii List Bool Lia.
From stdpp Require Import base option gmap strings list fin_maps pretty.

Local Open Scope string_scope.

(** ** Exceptions and results *)

(** The exception classes the sources throw or catch.  [std_length_error] is
    what the constructor [std::string(count, ch)] throws for a [count] above
    [max_size()].  [assertion_failure] is not a C++ exception: it stands for a
    failed [RAPIDJSON_ASSERT] or [DCHECK], kept in the same type so that a
    function has one failure channel. *)
Inductive exception : Type :=
| ParquetException (what : string)
| HiddenColumnException (what : string)
| KeyAccessDeniedException (what : string)
| std_out_of_range (what : string)
| std_invalid_argument (what : string)
| std_length_error (what : string)
| assertion_failure (what : string).

Inductive Result (A : Type) : Type :=
| Ok (a : A)
| Throw (e : exception).
Arguments Ok {A} a.
Arguments Throw {A} e.

#[global] Instance Result_ret : MRet Result := fun A a => Ok a.
#[global] Instance Result_bind : MBind Result :=
  fun A B f m => match m with Ok a => f a | Throw e => Throw e end.

Definition is_Ok {A} (r : Result A) : bool :=
  match r with Ok _ => true | Throw _ => false end.

(** ** Strings *)

Module StringUtil.

(** [v.c_str()] read back as a C string: the characters before the first NUL. *)
Fixpoint c_str (v : string) : string :=
  match v with
  | EmptyString => EmptyString
  | String c v' => if Ascii.eqb c "000" then EmptyString else String c (c_str v')
  end.

(** No character of [v] is NUL. *)
Fixpoint NoNul (v : string) : bool :=
  match v with
  | EmptyString => true
  | String c v' => negb (Ascii.eqb c "000") && NoNul v'
  end.

Definition empty (v : string) : bool :=
  match v with EmptyString => true | _ => false end.

(** [v.find(delim)]: the offset of the first [delim], [None] for [npos]. *)
Fixpoint find (v : string) (delim : ascii) : option nat :=
  match v with
  | EmptyString => None
  | String c v' => if Ascii.eqb c delim then Some 0 else S <$> find v' delim
  end.

(** [v.substr(0, n)] and [v.substr(n)]. *)
Fixpoint take (n : nat) (v : string) : string :=
  match n, v with
  | S n', String c v' => String c (take n' v')
  | _, _ => EmptyString
  end.

Fixpoint drop (n : nat) (v : string) : string :=
  match n, v with
  | S n', String _ v' => drop n' v'
  | _, _ => v
  end.

(** [SplitString] (the loop of [properties_driven_crypto_factory.cc], also
    [arrow::internal::SplitString]):
<<
    size_t start = 0, end;
    while (true) {
      end = v.find(delim, start);
      parts.push_back(v.substr(start, end - start));
      if (end == std::string::npos) break;
      start = end + 1;
    }
>>
    The cursor [start] is carried as the suffix [rest = v.substr(start)].  Each
    turn consumes at least the delimiter, so [S (length v)] turns are enough;
    [SplitString_loop_fuel] below shows the fuel is never exhausted. *)
Fixpoint SplitString_loop (fuel : nat) (rest : string) (delim : ascii)
    (parts : list string) : list string :=
  match fuel with
  | O => parts
  | S fuel' =>
      match find rest delim with
      | None => parts ++ [rest]
      | Some e => SplitString_loop fuel' (drop (S e) rest) delim (parts ++ [take e rest])
      end
  end.

Definition SplitString (v : string) (delim : ascii) : list string :=
  SplitString_loop (S (String.length v)) v delim [].

(** The same split by structural recursion, used to reason about it. *)
Fixpoint split (v : string) (delim : ascii) : list string :=
  match v with
  | EmptyString => [EmptyString]
  | String c v' =>
      if Ascii.eqb c delim then EmptyString :: split v' delim
      else match split v' delim with
           | p :: ps => String c p :: ps
           | [] => [String c EmptyString]
           end
  end.

Section Trim.

(** [arrow::internal::IsWhitespace] is not part of the sources at hand; the
    set of whitespace characters is a parameter. *)
Variable IsWhitespace : ascii -> bool.

Fixpoint ltrim (v : string) : string :=
  match v with
  | EmptyString => EmptyString
  | String c v' => if IsWhitespace c then ltrim v' else v
  end.

Fixpoint rtrim (v : string) : string :=
  match v with
  | EmptyString => EmptyString
  | String c v' =>
      let r := rtrim v' in
      if empty r && IsWhitespace c then EmptyString else String c r
  end.

(** Modelled from the spec: [arrow::internal::TrimString], called through
    [TrimString] of [properties_driven_crypto_factory.cc], is missing from the
    sources; the spec says "Trim whitespace around every token". *)
Definition TrimString (v : string) : string := rtrim (ltrim v).

End Trim.

(** The whitespace of Arrow's [IsWhitespace]: blank and horizontal tab. *)
Definition IsWhitespace_arrow (c : ascii) : bool :=
  Ascii.eqb c " " || Ascii.eqb c "009".

End StringUtil.

Import StringUtil.

(** ** rapidjson

    [key_material.cc] builds a [rapidjson::Value] object, writes it with
    [rapidjson::Writer<StringBuffer>] and reads it back with
    [rapidjson::Document::Parse].  rapidjson is a third-party library; this
    module models the part the sources use, with the default flags (UTF-8 in
    and out, no encoding validation): the value tree, the writer's escaping
    and the recursive-descent reader. *)

Module rapidjson.

#[warnings="-register-all"]
Inductive Value : Type :=
| kNull
| kBool (b : bool)
| kNumber (lexeme : string)
| kString (s : string)
| kArray (elems : list Value)
| kObject (members : list (string * Value)).

(** The double quote character. *)
Definition dq : ascii := "034"%char.
(** The reverse solidus. *)
Definition bs : ascii := "092"%char.

(** *** Writer *)

Definition hexDigits : string := "0123456789ABCDEF".

Definition hex_digit (n : nat) : ascii :=
  match String.get n hexDigits with Some c => c | None => "0"%char end.

(** [Writer::WriteString], one character: the quote and the reverse solidus
    are escaped, control characters are written as [\b \t \n \f \r] or
    [\u00XY], every other byte is copied. *)
Definition WriteChar (c : ascii) : string :=
  let n := nat_of_ascii c in
  if Ascii.eqb c dq then String bs (String dq "")
  else if Ascii.eqb c bs then String bs (String bs "")
  else if (n <? 32)%nat then
    match n with
    | 8%nat => String bs "b"
    | 9%nat => String bs "t"
    | 10%nat => String bs "n"
    | 12%nat => String bs "f"
    | 13%nat => String bs "r"
    | _ => String bs ("u00" +:+ String (hex_digit (n / 16)) (String (hex_digit (n mod 16)) ""))
    end
  else String c "".

Fixpoint WriteStringBody (s : string) : string :=
  match s with
  | EmptyString => EmptyString
  | String c s' => WriteChar c +:+ WriteStringBody s'
  end.

Definition WriteString (s : string) : string :=
  String dq (WriteStringBody s +:+ String dq "").

Section Sequences.

(** The writer's text of a value, for the members and elements of a
    container. *)
Variable Accept : Value -> string.

Fixpoint write_elements (elems : list Value) : string :=
  match elems with
  | [] => EmptyString
  | e :: elems' =>
      match elems' with
      | [] => Accept e
      | _ :: _ => Accept e +:+ "," +:+ write_elements elems'
      end
  end.

Fixpoint write_members (members : list (string * Value)) : string :=
  match members with
  | [] => EmptyString
  | m :: members' =>
      match members' with
      | [] => WriteString (fst m) +:+ ":" +:+ Accept (snd m)
      | _ :: _ => WriteString (fst m) +:+ ":" +:+ Accept (snd m) +:+ "," +:+ write_members members'
      end
  end.

End Sequences.

(** [Value::Accept(writer)]: the compact text, members and elements separated
    by a comma, in insertion order. *)
Fixpoint Accept (v : Value) : string :=
  match v with
  | kNull => "null"
  | kBool true => "true"
  | kBool false => "false"
  | kNumber lexeme => lexeme
  | kString s => WriteString s
  | kArray elems => "[" +:+ write_elements Accept elems +:+ "]"
  | kObject members => "{" +:+ write_members Accept members +:+ "}"
  end.

(** *** Reader *)

Definition is_whitespace (c : ascii) : bool :=
  Ascii.eqb c " " || Ascii.eqb c "010" || Ascii.eqb c "013" || Ascii.eqb c "009".

Fixpoint SkipWhitespace (inp : string) : string :=
  match inp with
  | String c inp' => if is_whitespace c then SkipWhitespace inp' else inp
  | EmptyString => EmptyString
  end.

Definition hexval (c : ascii) : option N :=
  let n := N_of_ascii c in
  if (48 <=? n)%N && (n <=? 57)%N then Some (n - 48)%N
  else if (65 <=? n)%N && (n <=? 70)%N then Some (n - 55)%N
  else if (97 <=? n)%N && (n <=? 102)%N then Some (n - 87)%N
  else None.

(** [ParseHex4]. *)
Definition hex4 (a b c d : ascii) : option N :=
  x ← hexval a; y ← hexval b; z ← hexval c; w ← hexval d;
  Some (((x * 16 + y) * 16 + z) * 16 + w)%N.

Definition byte (n : N) : ascii := ascii_of_N (n mod 256).

(** [UTF8<>::Encode]. *)
Definition Encode (codepoint : N) : string :=
  if (codepoint <=? 127)%N then String (byte codepoint) ""
  else if (codepoint <=? 2047)%N then
    String (byte (192 + codepoint / 64))
      (String (byte (128 + codepoint mod 64)) "")
  else if (codepoint <=? 65535)%N then
    String (byte (224 + codepoint / 4096))
      (String (byte (128 + (codepoint / 64) mod 64))
         (String (byte (128 + codepoint mod 64)) ""))
  else
    String (byte (240 + codepoint / 262144))
      (String (byte (128 + (codepoint / 4096) mod 64))
         (String (byte (128 + (codepoint / 64) mod 64))
            (String (byte (128 + codepoint mod 64)) ""))).

(** The reader's table of one-character escapes. *)
Definition escape (e : ascii) : option ascii :=
  if Ascii.eqb e dq then Some dq
  else if Ascii.eqb e "/" then Some "/"%char
  else if Ascii.eqb e bs then Some bs
  else if Ascii.eqb e "b" then Some "008"%char
  else if Ascii.eqb e "f" then Some "012"%char
  else if Ascii.eqb e "n" then Some "010"%char
  else if Ascii.eqb e "r" then Some "013"%char
  else if Ascii.eqb e "t" then Some "009"%char
  else None.

(** [ParseStringToStream], entered after the opening quote: the decoded
    string and the input after the closing quote.  The end of the input is
    the C string's terminator, where rapidjson reports a missing quotation
    mark. *)
Fixpoint ParseStringBody (inp : string) : option (string * string) :=
  match inp with
  | EmptyString => None
  | String c r =>
      if Ascii.eqb c bs then
        match r with
        | EmptyString => None
        | String e r1 =>
            match escape e with
            | Some ch => '(s, rest) ← ParseStringBody r1; Some (String ch s, rest)
            | None =>
                if Ascii.eqb e "u" then
                  match r1 with
                  | String h1 (String h2 (String h3 (String h4 r2))) =>
                      match hex4 h1 h2 h3 h4 with
                      | None => None
                      | Some codepoint =>
                          if (55296 <=? codepoint)%N && (codepoint <=? 56319)%N then
                            match r2 with
                            | String b' (String u' (String l1 (String l2 (String l3 (String l4 r3))))) =>
                                if Ascii.eqb b' bs && Ascii.eqb u' "u" then
                                  match hex4 l1 l2 l3 l4 with
                                  | None => None
                                  | Some codepoint2 =>
                                      if (codepoint2 <? 56320)%N || (57343 <? codepoint2)%N then None
                                      else
                                        '(s, rest) ← ParseStringBody r3;
                                        Some (Encode ((codepoint - 55296) * 1024 + (codepoint2 - 56320) + 65536)%N +:+ s, rest)
                                  end
                                else None
                            | _ => None
                            end
                          else '(s, rest) ← ParseStringBody r2; Some (Encode codepoint +:+ s, rest)
                      end
                  | _ => None
                  end
                else None
            end
        end
      else if Ascii.eqb c dq then Some (EmptyString, r)
      else if (nat_of_ascii c <? 32)%nat then None
      else '(s, rest) ← ParseStringBody r; Some (String c s, rest)
  end.

Definition is_digit (c : ascii) : bool :=
  (48 <=? nat_of_ascii c)%nat && (nat_of_ascii c <=? 57)%nat.

(** The longest prefix of digits, and what follows. *)
Fixpoint digits (inp : string) : string * string :=
  match inp with
  | String c inp' =>
      if is_digit c then let '(ds, rest) := digits inp' in (String c ds, rest)
      else (EmptyString, inp)
  | EmptyString => (EmptyString, EmptyString)
  end.

(** [ParseNumber], kept as the lexeme it accepts (the range checks of
    doubles aside): an optional minus, [0] or a digit run without a leading
    zero, an optional fraction and an optional exponent, each with at least
    one digit. *)
Definition ParseNumber (inp : string) : option (Value * string) :=
  let '(sign, inp1) :=
    match inp with
    | String c r => if Ascii.eqb c "-" then ("-", r) else ("", inp)
    | EmptyString => ("", inp)
    end in
  '(int, inp2) ←
    match inp1 with
    | String c r =>
        if Ascii.eqb c "0" then Some ("0", r)
        else if is_digit c then let '(ds, rest) := digits inp1 in Some (ds, rest)
        else None
    | EmptyString => None
    end;
  '(frac, inp3) ←
    match inp2 with
    | String c r =>
        if Ascii.eqb c "." then
          let '(ds, rest) := digits r in
          if empty ds then None else Some ("." +:+ ds, rest)
        else Some ("", inp2)
    | EmptyString => Some ("", inp2)
    end;
  '(exp, inp4) ←
    match inp3 with
    | String c r =>
        if Ascii.eqb c "e" || Ascii.eqb c "E" then
          let '(esign, r') :=
            match r with
            | String s r'' =>
                if Ascii.eqb s "+" || Ascii.eqb s "-" then (String s "", r'') else ("", r)
            | EmptyString => ("", r)
            end in
          let '(ds, rest) := digits r' in
          if empty ds then None else Some (String c esign +:+ ds, rest)
        else Some ("", inp3)
    | EmptyString => Some ("", inp3)
    end;
  Some (kNumber (sign +:+ int +:+ frac +:+ exp), inp4).

(** Whether [is] starts with [lit]; what follows it. *)
Fixpoint Consume (lit inp : string) : option string :=
  match lit, inp with
  | EmptyString, _ => Some inp
  | String a lit', String b inp' => if Ascii.eqb a b then Consume lit' inp' else None
  | String _ _, EmptyString => None
  end.

Section Containers.

(** [ParseValue] at the nesting depth below. *)
Variable ParseValue : string -> option (Value * string).

(** The member loop of [ParseObject], entered at a member name.  Each turn
    consumes at least the name's opening quote, so the length of the input
    bounds the turns. *)
Fixpoint ParseMembers (fuel : nat) (inp : string) (members : list (string * Value))
    : option (Value * string) :=
  match fuel with
  | O => None
  | S fuel' =>
      match inp with
      | String q r =>
          if Ascii.eqb q dq then
            '(name, inp1) ← ParseStringBody r;
            match SkipWhitespace inp1 with
            | String colon inp2 =>
                if Ascii.eqb colon ":" then
                  '(value, inp3) ← ParseValue (SkipWhitespace inp2);
                  let members' := (members ++ [(name, value)])%list in
                  match SkipWhitespace inp3 with
                  | String sep inp4 =>
                      if Ascii.eqb sep "," then ParseMembers fuel' (SkipWhitespace inp4) members'
                      else if Ascii.eqb sep "}" then Some (kObject members', inp4)
                      else None
                  | EmptyString => None
                  end
                else None
            | EmptyString => None
            end
          else None
      | EmptyString => None
      end
  end.

(** [ParseObject], entered after the opening brace. *)
Definition ParseObject (inp : string) : option (Value * string) :=
  match SkipWhitespace inp with
  | String c r =>
      if Ascii.eqb c "}" then Some (kObject [], r)
      else ParseMembers (String.length inp) (SkipWhitespace inp) []
  | EmptyString => None
  end.

(** The element loop of [ParseArray]. *)
Fixpoint ParseElements (fuel : nat) (inp : string) (elems : list Value)
    : option (Value * string) :=
  match fuel with
  | O => None
  | S fuel' =>
      '(value, inp1) ← ParseValue inp;
      let elems' := (elems ++ [value])%list in
      match SkipWhitespace inp1 with
      | String sep inp2 =>
          if Ascii.eqb sep "," then ParseElements fuel' (SkipWhitespace inp2) elems'
          else if Ascii.eqb sep "]" then Some (kArray elems', inp2)
          else None
      | EmptyString => None
      end
  end.

(** [ParseArray], entered after the opening bracket. *)
Definition ParseArray (inp : string) : option (Value * string) :=
  match SkipWhitespace inp with
  | String c r =>
      if Ascii.eqb c "]" then Some (kArray [], r)
      else ParseElements (String.length inp) (SkipWhitespace inp) []
  | EmptyString => None
  end.

End Containers.

(** [ParseValue]; [fuel] bounds the nesting depth. *)
Fixpoint ParseValue (fuel : nat) (inp : string) : option (Value * string) :=
  match fuel with
  | O => None
  | S fuel' =>
      match inp with
      | String c r =>
          if Ascii.eqb c "n" then inp' ← Consume "ull" r; Some (kNull, inp')
          else if Ascii.eqb c "t" then inp' ← Consume "rue" r; Some (kBool true, inp')
          else if Ascii.eqb c "f" then inp' ← Consume "alse" r; Some (kBool false, inp')
          else if Ascii.eqb c dq then '(s, inp') ← ParseStringBody r; Some (kString s, inp')
          else if Ascii.eqb c "{" then ParseObject (ParseValue fuel') r
          else if Ascii.eqb c "[" then ParseArray (ParseValue fuel') r
          else ParseNumber inp
      | EmptyString => None
      end
  end.

(** [Document::Parse(str)] on a C string: [None] stands for [HasParseError()].
    Every level of nesting consumes a character, so the length of the input
    bounds the depth. *)
Definition Parse (str : string) : option Value :=
  match SkipWhitespace str with
  | EmptyString => None
  | inp =>
      '(v, rest) ← ParseValue (S (String.length str)) inp;
      match SkipWhitespace rest with
      | EmptyString => Some v
      | String _ _ => None
      end
  end.

Definition IsObject (v : Value) : bool :=
  match v with kObject _ => true | _ => false end.

(** [value[name]]: the first member called [name].  A missing member, or a
    value that is no object, fails [RAPIDJSON_ASSERT]. *)
Definition member (v : Value) (name : string) : Result Value :=
  match v with
  | kObject members =>
      match List.find (fun m => String.eqb (fst m) name) members with
      | Some m => Ok (snd m)
      | None => Throw (assertion_failure ("rapidjson: no member " +:+ name))
      end
  | _ => Throw (assertion_failure "rapidjson: IsObject()")
  end.

(** [value.GetString()] copied into a [std::string]: the C string up to the
    first NUL. *)
Definition GetString (v : Value) : Result string :=
  match v with
  | kString s => Ok (c_str s)
  | _ => Throw (assertion_failure "rapidjson: IsString()")
  end.

Definition GetBool (v : Value) : Result bool :=
  match v with
  | kBool b => Ok b
  | _ => Throw (assertion_failure "rapidjson: IsBool()")
  end.

(** The values [KeyMaterial::CreateSerialized] puts in its object, and an
    object of such values. *)
Definition is_leaf (v : Value) : bool :=
  match v with
  | kString _ | kBool _ => true
  | _ => false
  end.

Definition flat (members : list (string * Value)) : Prop :=
  Forall (fun m => is_leaf (snd m) = true) members.

End rapidjson.

(** ** Key material ([key_material.cc]) *)

Module KeyMaterial.

(** Modelled from the spec: the field names and the material type are
    declared in [key_material.h] and [key_metadata.h], which are missing from
    the sources; the spec lists them ("Field names are exactly: ...",
    [keyMaterialType = "PKMT1"]). *)
Definition KEY_MATERIAL_TYPE_FIELD : string := "keyMaterialType".
Definition KEY_MATERIAL_TYPE1 : string := "PKMT1".
Definition KEY_MATERIAL_INTERNAL_STORAGE_FIELD : string := "internalStorage".
Definition IS_FOOTER_KEY_FIELD : string := "isFooterKey".
Definition KMS_INSTANCE_ID_FIELD : string := "kmsInstanceID".
Definition KMS_INSTANCE_URL_FIELD : string := "kmsInstanceURL".
Definition MASTER_KEY_ID_FIELD : string := "masterKeyID".
Definition WRAPPED_DEK_FIELD : string := "wrappedDEK".
Definition DOUBLE_WRAPPING_FIELD : string := "doubleWrapping".
Definition KEK_ID_FIELD : string := "keyEncryptionKeyID".
Definition WRAPPED_KEK_FIELD : string := "wrappedKEK".

(** The members of the class, in the order of its constructor. *)
Record KeyMaterial : Type := mkKeyMaterial {
  is_footer_key : bool;
  kms_instance_id : string;
  kms_instance_url : string;
  master_key_id : string;
  is_double_wrapped : bool;
  kek_id : string;
  encoded_wrapped_kek : string;
  encoded_wrapped_dek : string
}.

(** [KeyMaterial::Parse(const rapidjson::Document&)]. *)
Definition ParseDocument (key_material_json : rapidjson.Value) : Result KeyMaterial :=
  is_footer_key ← rapidjson.member key_material_json IS_FOOTER_KEY_FIELD ≫= rapidjson.GetBool;
  '(kms_instance_id, kms_instance_url) ←
    (if is_footer_key : bool then
       id ← rapidjson.member key_material_json KMS_INSTANCE_ID_FIELD ≫= rapidjson.GetString;
       url ← rapidjson.member key_material_json KMS_INSTANCE_URL_FIELD ≫= rapidjson.GetString;
       Ok (id, url)
     else Ok (EmptyString, EmptyString));
  master_key_id ← rapidjson.member key_material_json MASTER_KEY_ID_FIELD ≫= rapidjson.GetString;
  encoded_wrapped_dek ← rapidjson.member key_material_json WRAPPED_DEK_FIELD ≫= rapidjson.GetString;
  is_double_wrapped ← rapidjson.member key_material_json DOUBLE_WRAPPING_FIELD ≫= rapidjson.GetBool;
  '(kek_id, encoded_wrapped_kek) ←
    (if is_double_wrapped : bool then
       id ← rapidjson.member key_material_json KEK_ID_FIELD ≫= rapidjson.GetString;
       kek ← rapidjson.member key_material_json WRAPPED_KEK_FIELD ≫= rapidjson.GetString;
       Ok (id, kek)
     else Ok (EmptyString, EmptyString));
  Ok (mkKeyMaterial is_footer_key kms_instance_id kms_instance_url master_key_id
        is_double_wrapped kek_id encoded_wrapped_kek encoded_wrapped_dek).

(** [KeyMaterial::Parse(const std::string&)]. *)
Definition Parse (key_material_string : string) : Result KeyMaterial :=
  match rapidjson.Parse (c_str key_material_string) with
  | Some document =>
      if negb (rapidjson.IsObject document) then
        Throw (ParquetException ("Failed to parse key metadata " +:+ key_material_string))
      else
        key_material_type ← rapidjson.member document KEY_MATERIAL_TYPE_FIELD ≫= rapidjson.GetString;
        if negb (String.eqb KEY_MATERIAL_TYPE1 key_material_type) then
          Throw (ParquetException ("Wrong key material type: " +:+ key_material_type +:+ " vs " +:+
                                   KEY_MATERIAL_TYPE1))
        else ParseDocument document
  | None => Throw (ParquetException ("Failed to parse key metadata " +:+ key_material_string))
  end.

(** The object [KeyMaterial::CreateSerialized] builds: one [AddMember] per
    line, strings set from their [c_str()]. *)
Definition key_material_map (is_footer_key : bool) (kms_instance_id kms_instance_url
    master_key_id : string) (is_double_wrapped : bool) (kek_id encoded_wrapped_kek
    encoded_wrapped_dek : string) (is_internal_storage : bool) : rapidjson.Value :=
  rapidjson.kObject
    ([(KEY_MATERIAL_TYPE_FIELD, rapidjson.kString KEY_MATERIAL_TYPE1)] ++
     (if is_internal_storage
      then [(KEY_MATERIAL_INTERNAL_STORAGE_FIELD, rapidjson.kBool true)] else []) ++
     [(IS_FOOTER_KEY_FIELD, rapidjson.kBool is_footer_key)] ++
     (if is_footer_key
      then [(KMS_INSTANCE_ID_FIELD, rapidjson.kString (c_str kms_instance_id));
            (KMS_INSTANCE_URL_FIELD, rapidjson.kString (c_str kms_instance_url))]
      else []) ++
     [(MASTER_KEY_ID_FIELD, rapidjson.kString (c_str master_key_id));
      (WRAPPED_DEK_FIELD, rapidjson.kString (c_str encoded_wrapped_dek));
      (DOUBLE_WRAPPING_FIELD, rapidjson.kBool is_double_wrapped)] ++
     (if is_double_wrapped
      then [(KEK_ID_FIELD, rapidjson.kString (c_str kek_id));
            (WRAPPED_KEK_FIELD, rapidjson.kString (c_str encoded_wrapped_kek))]
      else []))%list.

(** [KeyMaterial::CreateSerialized]. *)
Definition CreateSerialized (is_footer_key : bool) (kms_instance_id kms_instance_url
    master_key_id : string) (is_double_wrapped : bool) (kek_id encoded_wrapped_kek
    encoded_wrapped_dek : string) (is_internal_storage : bool) : string :=
  rapidjson.Accept
    (key_material_map is_footer_key kms_instance_id kms_instance_url master_key_id
       is_double_wrapped kek_id encoded_wrapped_kek encoded_wrapped_dek is_internal_storage).

(** The serialized form of a [KeyMaterial] value. *)
Definition serialize (x : KeyMaterial) (is_internal_storage : bool) : string :=
  CreateSerialized (is_footer_key x) (kms_instance_id x) (kms_instance_url x)
    (master_key_id x) (is_double_wrapped x) (kek_id x) (encoded_wrapped_kek x)
    (encoded_wrapped_dek x) is_internal_storage.

(** What a round trip keeps of a value: each string up to its first NUL,
    the footer-only fields of a footer key and the KEK fields of a
    double-wrapped key only. *)
Definition kept (x : KeyMaterial) : KeyMaterial :=
  {| is_footer_key := is_footer_key x;
     kms_instance_id := if is_footer_key x then c_str (kms_instance_id x) else EmptyString;
     kms_instance_url := if is_footer_key x then c_str (kms_instance_url x) else EmptyString;
     master_key_id := c_str (master_key_id x);
     is_double_wrapped := is_double_wrapped x;
     kek_id := if is_double_wrapped x then c_str (kek_id x) else EmptyString;
     encoded_wrapped_kek :=
       if is_double_wrapped x then c_str (encoded_wrapped_kek x) else EmptyString;
     encoded_wrapped_dek := c_str (encoded_wrapped_dek x) |}.

(** The claim's reading of well-formed: the footer-only fields are set on a
    footer key and the KEK fields are set on a double-wrapped key. *)
Definition fields_set_for_mode (x : KeyMaterial) : Prop :=
  (is_footer_key x = true →
     kms_instance_id x ≠ EmptyString ∧ kms_instance_url x ≠ EmptyString) ∧
  (is_double_wrapped x = true →
     kek_id x ≠ EmptyString ∧ encoded_wrapped_kek x ≠ EmptyString).

(** What the round trip needs on top: no NUL in a string, and the fields of
    a mode left empty when the mode is off. *)
Definition NoNul_fields (x : KeyMaterial) : Prop :=
  NoNul (kms_instance_id x) = true ∧ NoNul (kms_instance_url x) = true ∧
  NoNul (master_key_id x) = true ∧ NoNul (kek_id x) = true ∧
  NoNul (encoded_wrapped_kek x) = true ∧ NoNul (encoded_wrapped_dek x) = true.

Definition fields_empty_off_mode (x : KeyMaterial) : Prop :=
  (is_footer_key x = false →
     kms_instance_id x = EmptyString ∧ kms_instance_url x = EmptyString) ∧
  (is_double_wrapped x = false →
     kek_id x = EmptyString ∧ encoded_wrapped_kek x = EmptyString).

End KeyMaterial.

(** ** Key metadata ([key_metadata.cc]) *)

Module KeyMetadata.

(** Modelled from the spec: the name of the member is declared in
    [key_metadata.h], which is missing from the sources; the spec lists the
    field names, [keyReference] among them. *)
Definition KEY_REFERENCE_FIELD : string := "keyReference".

(** The object [CreateSerializedForExternalMaterial] builds; the reference
    is set from its [c_str()]. *)
Definition key_metadata_map (key_reference : string) : rapidjson.Value :=
  rapidjson.kObject
    [(KeyMaterial.KEY_MATERIAL_TYPE_FIELD, rapidjson.kString KeyMaterial.KEY_MATERIAL_TYPE1);
     (KeyMaterial.KEY_MATERIAL_INTERNAL_STORAGE_FIELD, rapidjson.kBool false);
     (KEY_REFERENCE_FIELD, rapidjson.kString (c_str key_reference))].

(** [KeyMetadata::CreateSerializedForExternalMaterial]. *)
Definition CreateSerializedForExternalMaterial (key_reference : string) : string :=
  rapidjson.Accept (key_metadata_map key_reference).

End KeyMetadata.

(** ** Two-level cache with expiration ([two_level_cache_with_expiration.h]) *)

Module TwoLevelCache.

(** Time points and durations, in milliseconds.  Modelled from the spec:
    [internal::TimePoint] and [internal::CurrentTimePoint()] are declared in a
    part of [key_toolkit_internal.h] that is missing from the sources; the
    spec speaks of timestamps compared with [now].  A time point is a count of
    milliseconds that does not overflow. *)
Definition TimePoint : Type := Z.

(** [std::chrono::milliseconds(n)] for a [uint64_t] [n]: the count of the
    duration is a signed 64-bit integer, so the conversion wraps around and a
    period of [2^63] or more becomes a negative duration. *)
Definition milliseconds (n : Z) : Z := ((n + 2 ^ 63) mod 2 ^ 64 - 2 ^ 63)%Z.

(** Modelled from the spec: [internal::ExpiringCacheEntry] is declared in a
    part of [key_toolkit_internal.h] that is missing from the sources; the
    spec says "Each external entry is [{map<string,V>, expiration_timestamp}]"
    and calls an entry expired once its TTL has elapsed.  The clock
    ([internal::CurrentTimePoint()]) is read once per call and passed in as
    [now]. *)
Record ExpiringCacheEntry (E : Type) : Type := mkExpiringCacheEntry {
  cached_item : E;
  expiration_timestamp : TimePoint
}.
Arguments mkExpiringCacheEntry {E} _ _.
Arguments cached_item {E} _.
Arguments expiration_timestamp {E} _.

Section Cache.

Context {V : Type}.

(** The constructor [ExpiringCacheEntry(cached_item, expiration_interval_millis)]. *)
Definition new_entry (now : TimePoint) (item : gmap string V)
    (expiration_interval_millis : Z) : ExpiringCacheEntry (gmap string V) :=
  mkExpiringCacheEntry item (now + expiration_interval_millis)%Z.

Definition IsExpired (now : TimePoint) (e : ExpiringCacheEntry (gmap string V)) : bool :=
  (expiration_timestamp e <? now)%Z.

(** A default-constructed entry, which [operator[]] would insert for a
    missing key. *)
Definition default_entry : ExpiringCacheEntry (gmap string V) :=
  mkExpiringCacheEntry ∅ 0%Z.

(** The class's state. *)
Record TwoLevelCacheWithExpiration : Type := mkCache {
  cache_ : gmap string (ExpiringCacheEntry (gmap string V));
  last_cache_cleanup_timestamp_ : TimePoint
}.

(** [std::unordered_map::insert]: an element whose key is already present
    stays as it is. *)
Definition unordered_map_insert {A} (k : string) (v : A) (m : gmap string A) : gmap string A :=
  match m !! k with
  | Some _ => m
  | None => <[k := v]> m
  end.

(** [std::unordered_map::operator[]]: the element at [k], inserted
    default-constructed when missing. *)
Definition unordered_map_index {A} (k : string) (dflt : A) (m : gmap string A)
    : gmap string A * A :=
  match m !! k with
  | Some v => (m, v)
  | None => (<[k := dflt]> m, dflt)
  end.

(** [GetOrCreateInternalCache]: the new state and the internal map the
    returned reference designates. *)
Definition GetOrCreateInternalCache (now : TimePoint) (access_token : string)
    (cache_entry_lifetime_ms : Z) (c : TwoLevelCacheWithExpiration)
    : TwoLevelCacheWithExpiration * gmap string V :=
  let external_cache_entry := cache_ c !! access_token in
  let cache1 :=
    if match external_cache_entry with
       | None => true
       | Some e => IsExpired now e
       end
    then unordered_map_insert access_token (new_entry now ∅ cache_entry_lifetime_ms) (cache_ c)
    else cache_ c in
  let '(cache2, entry) := unordered_map_index access_token default_entry cache1 in
  (mkCache cache2 (last_cache_cleanup_timestamp_ c), cached_item entry).

(** [RemoveCacheEntriesForToken]. *)
Definition RemoveCacheEntriesForToken (access_token : string)
    (c : TwoLevelCacheWithExpiration) : TwoLevelCacheWithExpiration :=
  mkCache (delete access_token (cache_ c)) (last_cache_cleanup_timestamp_ c).

(** [RemoveCacheEntriesForAllTokens] and [Clear]. *)
Definition RemoveCacheEntriesForAllTokens (c : TwoLevelCacheWithExpiration)
    : TwoLevelCacheWithExpiration :=
  mkCache ∅ (last_cache_cleanup_timestamp_ c).

(** [RemoveExpiredEntriesFromCache]. *)
Definition RemoveExpiredEntriesFromCache (now : TimePoint)
    (c : TwoLevelCacheWithExpiration) : TwoLevelCacheWithExpiration :=
  mkCache (filter (fun kv => IsExpired now (snd kv) = false) (cache_ c))
    (last_cache_cleanup_timestamp_ c).

(** [CheckCacheForExpiredTokens]: the [uint64_t] period goes through
    [std::chrono::milliseconds] before it is added to a time point. *)
Definition CheckCacheForExpiredTokens (now : TimePoint) (cache_cleanup_period : Z)
    (c : TwoLevelCacheWithExpiration) : TwoLevelCacheWithExpiration :=
  if (last_cache_cleanup_timestamp_ c + milliseconds cache_cleanup_period <? now)%Z then
    mkCache (cache_ (RemoveExpiredEntriesFromCache now c))
      (now + milliseconds cache_cleanup_period)%Z
  else c.

End Cache.

Arguments TwoLevelCacheWithExpiration V : clear implicits.

End TwoLevelCache.

(** ** In-memory KMS ([in_memory_kms.cc], the version with key rotation) *)

Module InMemoryKms.

Section Kms.

(** [arrow::util::base64_decode], and [KeyToolkit::EncryptKeyLocally] and
    [DecryptKeyLocally] (AES-GCM under the master key, with the master key
    identifier as AAD), belong to files outside the sources at hand; they are
    parameters, as is the whitespace [TrimString] removes. *)
Variable IsWhitespace : ascii -> bool.
Variable base64_decode : string -> string.
Variable EncryptKeyLocally : string -> string -> string -> string.
Variable DecryptKeyLocally : string -> string -> string -> Result string.

(** The two static maps of the class. *)
Record state : Type := mkState {
  master_key_map_ : gmap string string;
  new_master_key_map_ : gmap string string
}.

(** [std::map::insert]: an element whose key is already present stays. *)
Definition map_insert (k v : string) (m : gmap string string) : gmap string string :=
  match m !! k with
  | Some _ => m
  | None => <[k := v]> m
  end.

(** [ParseKeyList]: one ["name:base64key"] per element. *)
Fixpoint ParseKeyList_loop (master_keys : list string) (key_map : gmap string string)
    : Result (gmap string string) :=
  match master_keys with
  | [] => Ok key_map
  | master_key :: rest =>
      let parts := SplitString master_key ":" in
      let key_name := TrimString IsWhitespace (nth 0 parts EmptyString) in
      if negb (Nat.eqb (List.length parts) 2) then
        Throw (std_invalid_argument ("Key '" +:+ key_name +:+ "' is not formatted correctly"))
      else
        let key := TrimString IsWhitespace (nth 1 parts EmptyString) in
        let key_bytes := base64_decode key in
        ParseKeyList_loop rest (map_insert key_name key_bytes key_map)
  end.

Definition ParseKeyList (master_keys : list string) : Result (gmap string string) :=
  ParseKeyList_loop master_keys ∅.

(** [StartKeyRotation]; when [ParseKeyList] throws, nothing is assigned. *)
Definition StartKeyRotation (new_master_keys : list string) (st : state) : Result state :=
  key_map ← ParseKeyList new_master_keys;
  Ok (mkState (master_key_map_ st) key_map).

(** [FinishKeyRotation]. *)
Definition FinishKeyRotation (st : state) : state :=
  mkState (new_master_key_map_ st) (new_master_key_map_ st).


(** [WrapKeyInServer].  The source writes [throw new ParquetException(...)]:
    what is thrown is a pointer to the exception object, which a handler for
    [ParquetException&] does not catch.  The model keeps the exception and its
    message and does not tell the two ways of throwing apart. *)
Definition WrapKeyInServer (st : state) (key_bytes master_key_identifier : string)
    : Result string :=
  match new_master_key_map_ st !! master_key_identifier with
  | None => Throw (ParquetException ("Key not found: " +:+ master_key_identifier))
  | Some master_key =>
      let aad := master_key_identifier in
      Ok (EncryptKeyLocally key_bytes master_key aad)
  end.

(** [UnwrapKeyInServer]; the exception is thrown as in [WrapKeyInServer]. *)
Definition UnwrapKeyInServer (st : state) (wrapped_key master_key_identifier : string)
    : Result string :=
  match new_master_key_map_ st !! master_key_identifier with
  | None => Throw (ParquetException ("Key not found: " +:+ master_key_identifier))
  | Some master_key =>
      let aad := master_key_identifier in
      DecryptKeyLocally wrapped_key master_key aad
  end.

(** [GetMasterKeyFromServer]: [std::map::at] throws [std::out_of_range] for
    a missing key. *)
Definition GetMasterKeyFromServer (st : state) (master_key_identifier : string)
    : Result string :=
  match new_master_key_map_ st !! master_key_identifier with
  | None => Throw (std_out_of_range "map::at")
  | Some master_key_str => Ok master_key_str
  end.

End Kms.

End InMemoryKms.

(** ** Encryption properties and Thrift structures

    The classes of [encryption.h] and the Thrift-generated [format::]
    structures are declared outside the sources at hand; the records below
    hold the members the sources read or write.  An optional Thrift field is a
    value next to its [__isset] flag; the serializer writes the field exactly
    when the flag is set. *)

Module Encryption.

(** [ParquetCipher::type]; [cipher_unknown] is any other enumerator value. *)
Inductive ParquetCipher : Type :=
| AES_GCM_V1
| AES_GCM_CTR_V1
| cipher_unknown (n : Z).

Record AadMetadata : Type := mkAadMetadata {
  aad_prefix : string;
  aad_file_unique : string;
  supply_aad_prefix : bool
}.

Record EncryptionAlgorithm : Type := mkEncryptionAlgorithm {
  algorithm : ParquetCipher;
  aad : AadMetadata
}.

(** A default-constructed [EncryptionAlgorithm]. *)
Definition EncryptionAlgorithm_default : EncryptionAlgorithm :=
  mkEncryptionAlgorithm (cipher_unknown 0) (mkAadMetadata EmptyString EmptyString false).

(** [EncryptionProperties(algorithm, key, file_aad, aad)]. *)
Record EncryptionProperties : Type := mkEncryptionProperties {
  ep_algorithm : ParquetCipher;
  key_bytes : string;
  file_aad : string;
  aad_bytes : string
}.

(** [schema::ColumnPath]: the path's components. *)
Definition ColumnPath : Type := list string.

Fixpoint ToDotString (path : ColumnPath) : string :=
  match path with
  | [] => EmptyString
  | [p] => p
  | p :: ps => p +:+ "." +:+ ToDotString ps
  end.

(** [FileDecryptionProperties].  A key retriever's [GetKey] and an AAD prefix
    verifier's [check] may throw. *)
Record FileDecryptionProperties : Type := mkFileDecryptionProperties {
  getFooterKey : string;
  getColumnKey : ColumnPath -> string;
  getKeyRetriever : option (string -> Result string);
  getAADPrefix : string;
  getAADPrefixVerifier : option (string -> Result unit);
  checkFooterIntegrity : bool
}.

(** [ColumnEncryptionProperties], as the writer reads it. *)
Record ColumnEncryptionProperties : Type := mkColumnEncryptionProperties {
  column_path : string;
  isEncrypted : bool;
  isEncryptedWithFooterKey : bool;
  getKey : string;
  getKeyMetaData : string
}.



End Encryption.

Module format.

Record Statistics : Type := mkStatistics {
  min_value : string;
  max_value : string;
  null_count : Z;
  distinct_count : Z
}.

(** [format::ColumnMetaData]. *)
Record ColumnMetaData : Type := mkColumnMetaData {
  type : Z;
  encodings : list Z;
  path_in_schema : list string;
  codec : Z;
  num_values : Z;
  total_uncompressed_size : Z;
  total_compressed_size : Z;
  data_page_offset : Z;
  index_page_offset : Z;
  dictionary_page_offset : Z;
  statistics : Statistics;
  encoding_stats : list (Z * Z * Z);
  isset_index_page_offset : bool;
  isset_dictionary_page_offset : bool;
  isset_statistics : bool;
  isset_encoding_stats : bool
}.

Definition ColumnMetaData_default : ColumnMetaData :=
  mkColumnMetaData 0 [] [] 0 0 0 0 0 0 0 (mkStatistics EmptyString EmptyString 0 0) []
    false false false false.

Record EncryptionWithColumnKey : Type := mkEncryptionWithColumnKey {
  eck_path_in_schema : list string;
  eck_key_metadata : string
}.

(** [format::ColumnCryptoMetaData]. *)
Record ColumnCryptoMetaData : Type := mkColumnCryptoMetaData {
  ENCRYPTION_WITH_COLUMN_KEY : EncryptionWithColumnKey;
  isset_ENCRYPTION_WITH_FOOTER_KEY : bool;
  isset_ENCRYPTION_WITH_COLUMN_KEY : bool
}.

Definition ColumnCryptoMetaData_default : ColumnCryptoMetaData :=
  mkColumnCryptoMetaData (mkEncryptionWithColumnKey [] EmptyString) false false.

(** [format::ColumnChunk]. *)
Record ColumnChunk : Type := mkColumnChunk {
  file_path : string;
  file_offset : Z;
  meta_data : ColumnMetaData;
  crypto_metadata : ColumnCryptoMetaData;
  encrypted_column_metadata : string;
  isset_meta_data : bool;
  isset_crypto_metadata : bool;
  isset_encrypted_column_metadata : bool
}.

(** Assignments to one member, as the generated setters and the sources'
    direct writes to [__isset] make them. *)
Definition set_isset_meta_data (b : bool) (c : ColumnChunk) : ColumnChunk :=
  mkColumnChunk (file_path c) (file_offset c) (meta_data c) (crypto_metadata c)
    (encrypted_column_metadata c) b (isset_crypto_metadata c)
    (isset_encrypted_column_metadata c).

Definition set_isset_crypto_metadata (b : bool) (c : ColumnChunk) : ColumnChunk :=
  mkColumnChunk (file_path c) (file_offset c) (meta_data c) (crypto_metadata c)
    (encrypted_column_metadata c) (isset_meta_data c) b
    (isset_encrypted_column_metadata c).

(** [__set_meta_data(val)]: the field and its flag. *)
Definition __set_meta_data (val : ColumnMetaData) (c : ColumnChunk) : ColumnChunk :=
  mkColumnChunk (file_path c) (file_offset c) val (crypto_metadata c)
    (encrypted_column_metadata c) true (isset_crypto_metadata c)
    (isset_encrypted_column_metadata c).

Definition __set_crypto_metadata (val : ColumnCryptoMetaData) (c : ColumnChunk) : ColumnChunk :=
  mkColumnChunk (file_path c) (file_offset c) (meta_data c) val
    (encrypted_column_metadata c) (isset_meta_data c) true
    (isset_encrypted_column_metadata c).

Definition __set_encrypted_column_metadata (val : string) (c : ColumnChunk) : ColumnChunk :=
  mkColumnChunk (file_path c) (file_offset c) (meta_data c) (crypto_metadata c)
    val (isset_meta_data c) (isset_crypto_metadata c) true.

Definition set_isset_statistics (b : bool) (m : ColumnMetaData) : ColumnMetaData :=
  mkColumnMetaData (type m) (encodings m) (path_in_schema m) (codec m) (num_values m)
    (total_uncompressed_size m) (total_compressed_size m) (data_page_offset m)
    (index_page_offset m) (dictionary_page_offset m) (statistics m) (encoding_stats m)
    (isset_index_page_offset m) (isset_dictionary_page_offset m) b (isset_encoding_stats m).

Definition set_isset_encoding_stats (b : bool) (m : ColumnMetaData) : ColumnMetaData :=
  mkColumnMetaData (type m) (encodings m) (path_in_schema m) (codec m) (num_values m)
    (total_uncompressed_size m) (total_compressed_size m) (data_page_offset m)
    (index_page_offset m) (dictionary_page_offset m) (statistics m) (encoding_stats m)
    (isset_index_page_offset m) (isset_dictionary_page_offset m) (isset_statistics m) b.

Record RowGroup : Type := mkRowGroup {
  columns : list ColumnChunk;
  rg_num_rows : Z;
  rg_total_byte_size : Z
}.

(** [format::FileMetaData]. *)
Record FileMetaData : Type := mkFileMetaData {
  version : Z;
  num_rows : Z;
  row_groups : list RowGroup;
  created_by : string;
  encryption_algorithm : Encryption.EncryptionAlgorithm;
  footer_signing_key_metadata : string;
  isset_created_by : bool;
  isset_encryption_algorithm : bool
}.

(** [format::FileCryptoMetaData]. *)
Record FileCryptoMetaData : Type := mkFileCryptoMetaData {
  fcmd_encryption_algorithm : Encryption.EncryptionAlgorithm;
  fcmd_key_metadata : string
}.

End format.

(** ** Fixed-width integers and buffers *)

Module Mem.

(** Conversion to [uint32_t], [int16_t] and [int] (32 bits). *)
Definition uint32 (z : Z) : Z := (z mod 2 ^ 32)%Z.
Definition int16 (z : Z) : Z := ((z + 2 ^ 15) mod 2 ^ 16 - 2 ^ 15)%Z.
Definition int32 (z : Z) : Z := ((z + 2 ^ 31) mod 2 ^ 32 - 2 ^ 31)%Z.

Definition size (s : string) : Z := Z.of_nat (String.length s).

(** The [len] bytes of [s] from offset [pos]; [None] when they are not all
    inside [s] (a read or a copy out of bounds). *)
Definition slice (pos len : Z) (s : string) : option string :=
  if (0 <=? pos)%Z && (0 <=? len)%Z && (pos + len <=? size s)%Z
  then Some (take (Z.to_nat len) (drop (Z.to_nat pos) s))
  else None.

(** [source->ReadAt(pos, nbytes, out)]: the bytes of the file from [pos], at
    most [nbytes] of them; none for a position outside the file. *)
Definition ReadAt (pos nbytes : Z) (source : string) : string :=
  if (0 <=? pos)%Z && (pos <=? size source)%Z
  then take (Z.to_nat nbytes) (drop (Z.to_nat pos) source)
  else EmptyString.

(** The last [n] bytes of a buffer: the pointer [data() + size() - n]. *)
Definition last_bytes (n : nat) (s : string) : string :=
  drop (String.length s - n) s.

(** [memcmp(s1, s2, n)] on the bytes from two pointers: [Some 0] when the
    first [n] bytes agree, [None] when the comparison would read past the end
    of a buffer. *)
Fixpoint memcmp (s1 s2 : string) (n : nat) {struct n} : option Z :=
  match n with
  | O => Some 0%Z
  | S n' =>
      match s1, s2 with
      | String a s1', String b s2' =>
          if Ascii.eqb a b then memcmp s1' s2' n'
          else Some (Z.of_nat (nat_of_ascii a) - Z.of_nat (nat_of_ascii b))%Z
      | _, _ => None
      end
  end.

(** A little-endian [uint32_t] read through [reinterpret_cast<uint32_t*>]. *)
Definition load_uint32 (s : string) : Z :=
  match s with
  | String b0 (String b1 (String b2 (String b3 _))) =>
      (Z.of_nat (nat_of_ascii b0) + 2 ^ 8 * Z.of_nat (nat_of_ascii b1) +
       2 ^ 16 * Z.of_nat (nat_of_ascii b2) + 2 ^ 24 * Z.of_nat (nat_of_ascii b3))%Z
  | _ => 0%Z
  end.

End Mem.

(** ** Writer versions ([metadata.cc], [ApplicationVersion]) *)

Module ApplicationVersion.

(** [Type::type], [SortOrder::type] and the part of [EncodedStatistics] that
    [HasCorrectStatistics] reads; they are declared in [types.h] and
    [statistics.h], outside the sources at hand. *)
Inductive PhysicalType : Type :=
| BOOLEAN | INT32 | INT64 | INT96 | FLOAT | DOUBLE | BYTE_ARRAY | FIXED_LEN_BYTE_ARRAY.

Inductive SortOrder : Type := SIGNED | UNSIGNED | UNKNOWN.

Record EncodedStatistics : Type := mkEncodedStatistics {
  max : string;
  min : string;
  has_min : bool;
  has_max : bool
}.

(** The [version] member: three [int]s and the strings the constructor from
    [created_by] fills in. *)
Record Version : Type := mkVersion {
  major : Z;
  minor : Z;
  patch : Z;
  unknown : string;
  pre_release : string;
  build_info : string
}.

Record ApplicationVersion : Type := mkApplicationVersion {
  application_ : string;
  build_ : string;
  version : Version
}.

(** [ApplicationVersion(application, major, minor, patch)]. *)
Definition make (application : string) (major minor patch : Z) : ApplicationVersion :=
  mkApplicationVersion application EmptyString
    (mkVersion major minor patch EmptyString EmptyString EmptyString).

Definition PARQUET_251_FIXED_VERSION : ApplicationVersion := make "parquet-mr" 1 8 0.
Definition PARQUET_816_FIXED_VERSION : ApplicationVersion := make "parquet-mr" 1 2 9.
Definition PARQUET_CPP_FIXED_STATS_VERSION : ApplicationVersion := make "parquet-cpp" 1 3 0.
Definition PARQUET_MR_FIXED_STATS_VERSION : ApplicationVersion := make "parquet-mr" 1 10 0.

(** [VersionLt(other_version)]. *)
Definition VersionLt (v other_version : ApplicationVersion) : bool :=
  if negb (String.eqb (application_ v) (application_ other_version)) then false
  else if (major (version v) <? major (version other_version))%Z then true
  else if (major (version v) >? major (version other_version))%Z then false
  else if (minor (version v) <? minor (version other_version))%Z then true
  else if (minor (version v) >? minor (version other_version))%Z then false
  else (patch (version v) <? patch (version other_version))%Z.

(** [VersionEq(other_version)]. *)
Definition VersionEq (v other_version : ApplicationVersion) : bool :=
  String.eqb (application_ v) (application_ other_version) &&
  (major (version v) =? major (version other_version))%Z &&
  (minor (version v) =? minor (version other_version))%Z &&
  (patch (version v) =? patch (version other_version))%Z.

Definition is_SIGNED (o : SortOrder) : bool :=
  match o with SIGNED => true | _ => false end.

Definition is_UNKNOWN (o : SortOrder) : bool :=
  match o with UNKNOWN => true | _ => false end.

(** [col_type] is [BYTE_ARRAY] or [FIXED_LEN_BYTE_ARRAY]. *)
Definition is_byte_array (t : PhysicalType) : bool :=
  match t with BYTE_ARRAY | FIXED_LEN_BYTE_ARRAY => true | _ => false end.

(** [HasCorrectStatistics(col_type, statistics, sort_order)]. *)
Definition HasCorrectStatistics (v : ApplicationVersion) (col_type : PhysicalType)
    (statistics : EncodedStatistics) (sort_order : SortOrder) : bool :=
  let after_fixed_stats_block :=
    if String.eqb (application_ v) "unknown" then true
    else if is_UNKNOWN sort_order then false
    else if VersionLt v PARQUET_251_FIXED_VERSION then false
    else true in
  if (String.eqb (application_ v) "parquet-cpp" && VersionLt v PARQUET_CPP_FIXED_STATS_VERSION) ||
     (String.eqb (application_ v) "parquet-mr" && VersionLt v PARQUET_MR_FIXED_STATS_VERSION)
  then
    let max_equals_min :=
      if has_min statistics && has_max statistics
      then String.eqb (min statistics) (max statistics) else false in
    if negb (is_SIGNED sort_order) && negb max_equals_min then false
    else if negb (is_byte_array col_type) then true
    else after_fixed_stats_block
  else after_fixed_stats_block.

End ApplicationVersion.

(** ** File and column-chunk metadata ([metadata.cc]) *)

Module Metadata.

Import Encryption.

(** [FileMetaData::FileMetaDataImpl]. *)
Record FileMetaData : Type := mkFileMetaData {
  metadata_ : format.FileMetaData;
  metadata_len_ : Z;
  writer_version_ : string
}.

Definition is_plaintext_mode (m : FileMetaData) : bool :=
  format.isset_encryption_algorithm (metadata_ m).

Definition encryption_algorithm (m : FileMetaData) : EncryptionAlgorithm :=
  format.encryption_algorithm (metadata_ m).

Definition footer_signing_key_metadata (m : FileMetaData) : string :=
  format.footer_signing_key_metadata (metadata_ m).

(** [ColumnChunkMetaData::ColumnChunkMetaDataImpl]: the chunk it views and
    the column metadata it holds, decrypted when the column has its own key. *)
Record ColumnChunkMetaData : Type := mkColumnChunkMetaData {
  column_ : format.ColumnChunk;
  cc_metadata_ : format.ColumnMetaData
}.

Definition data_page_offset (c : ColumnChunkMetaData) : Z :=
  format.data_page_offset (cc_metadata_ c).
Definition has_dictionary_page (c : ColumnChunkMetaData) : bool :=
  format.isset_dictionary_page_offset (cc_metadata_ c).
Definition dictionary_page_offset (c : ColumnChunkMetaData) : Z :=
  format.dictionary_page_offset (cc_metadata_ c).
Definition total_compressed_size (c : ColumnChunkMetaData) : Z :=
  format.total_compressed_size (cc_metadata_ c).
Definition num_values (c : ColumnChunkMetaData) : Z :=
  format.num_values (cc_metadata_ c).
Definition compression (c : ColumnChunkMetaData) : Z :=
  format.codec (cc_metadata_ c).

(** [crypto_metadata()]: null unless the chunk has the field. *)
Definition crypto_metadata (c : ColumnChunkMetaData) : option format.ColumnCryptoMetaData :=
  if format.isset_crypto_metadata (column_ c)
  then Some (format.crypto_metadata (column_ c)) else None.

(** The column keys a reader has already obtained: the shared map of
    [ReaderProperties::column_map()], null when [None]. *)
Abbreviation column_map_t := (option (gmap ColumnPath string)).

(** The state of a [ColumnChunkMetaDataBuilder] that [WriteTo] reads. *)
Record ColumnChunkMetaDataBuilder : Type := mkColumnChunkMetaDataBuilder {
  column_chunk_ : format.ColumnChunk;
  column_metadata_ : format.ColumnMetaData;
  path : ColumnPath;
  column_encryption_props : option ColumnEncryptionProperties;
  footer_encryption : option EncryptionProperties
}.

Section Metadata.

(** The Thrift serializer and deserializer and the AES primitives belong to
    files outside the sources at hand. *)
Variable SerializeFileMetaData : format.FileMetaData -> string.
Variable SerializeColumnMetaData : format.ColumnMetaData -> string.
Variable SerializeColumnChunk : format.ColumnChunk -> string.
Variable DeserializeColumnMetaData : string -> EncryptionProperties -> Result format.ColumnMetaData.
(** [SignedFooterEncrypt(plaintext, key, aad, nonce)]: the bytes it writes,
    [encrypted_len] of them. *)
Variable SignedFooterEncrypt : string -> string -> string -> string -> string.
(** [parquet_encryption::Encrypt(props, metadata, plaintext)]. *)
Variable Encrypt : EncryptionProperties -> bool -> string -> string.
(** [createModuleAAD(fileAAD, module_type, row_group, column, page)]. *)
Variable createModuleAAD : string -> Z -> Z -> Z -> Z -> string.

(** The module type [parquet_encryption::ColumnMetaData]. *)
Definition ColumnMetaData_module : Z := 1.

(** [FileMetaDataImpl::verify(encryption, tail, tail_len)]; [tail] holds the
    bytes from the pointer on. *)
Definition verify (m : FileMetaData) (encryption : EncryptionProperties) (tail : string)
    (tail_len : Z) : Result bool :=
  let serialized_data := SerializeFileMetaData (metadata_ m) in
  let nonce := tail in
  let tag := drop 12 tail in
  let encrypted_buffer :=
    SignedFooterEncrypt serialized_data (key_bytes encryption) (aad_bytes encryption)
      (take 12 nonce) in
  match Mem.memcmp (Mem.last_bytes 16 encrypted_buffer) tag 16 with
  | Some r => Ok (r =? 0)%Z
  | None => Throw (assertion_failure "memcmp reads out of bounds")
  end.

(** The column-key branch of the constructor of [ColumnChunkMetaDataImpl]:
    the key of an [ENCRYPTION_WITH_COLUMN_KEY] column, with the column map
    as it is left. *)
Definition column_key_for_metadata (ccmd : format.ColumnCryptoMetaData)
    (file_decryption : FileDecryptionProperties) (column_map : column_map_t)
    : column_map_t * Result string :=
  let path := format.eck_path_in_schema (format.ENCRYPTION_WITH_COLUMN_KEY ccmd) in
  let key_metadata := format.eck_key_metadata (format.ENCRYPTION_WITH_COLUMN_KEY ccmd) in
  let '(column_map', key) :=
    match column_map ≫= (fun m => m !! path) with
    | Some key => (column_map, Ok key)
    | None =>
        let key := getColumnKey file_decryption path in
        let key' :=
          match getKeyRetriever file_decryption with
          | Some GetKey =>
              if empty key && negb (empty key_metadata) then
                match GetKey key_metadata with
                | Ok k =>
                    if empty k then
                      Throw (HiddenColumnException
                               ("HiddenColumnException path=" +:+ ToDotString path))
                    else Ok k
                | Throw (KeyAccessDeniedException what) =>
                    Throw (HiddenColumnException
                             ("HiddenColumnException path=" +:+ ToDotString path +:+ " " +:+
                              what +:+ String "010" EmptyString))
                | Throw e => Throw e
                end
              else Ok key
          | None => Ok key
          end in
        match key' with
        | Ok k => ((fun m => <[path := k]> m) <$> column_map, Ok k)
        | Throw e => (column_map, Throw e)
        end
    end in
  match key with
  | Ok k =>
      if empty k then
        (column_map', Throw (HiddenColumnException
                               ("HiddenColumnException path= " +:+ ToDotString path)))
      else (column_map', Ok k)
  | Throw e => (column_map', Throw e)
  end.

(** The constructor of [ColumnChunkMetaDataImpl]. *)
Definition ColumnChunkMetaDataImpl (column : format.ColumnChunk)
    (row_group_ordinal column_ordinal : Z)
    (file_decryption : option FileDecryptionProperties)
    (algorithm : option EncryptionAlgorithm) (fileAAD : string)
    (column_map : column_map_t) : column_map_t * Result ColumnChunkMetaData :=
  let metadata := format.meta_data column in
  let ccmd := format.crypto_metadata column in
  if format.isset_crypto_metadata column && format.isset_ENCRYPTION_WITH_COLUMN_KEY ccmd then
    match file_decryption with
    | None =>
        (column_map,
         Throw (ParquetException
                  "Cannot decrypt ColumnMetadata. FileDecryptionProperties must be provided."))
    | Some file_decryption =>
        match column_key_for_metadata ccmd file_decryption column_map with
        | (column_map', Throw e) => (column_map', Throw e)
        | (column_map', Ok key) =>
            match algorithm with
            | None => (column_map', Throw (assertion_failure "DCHECK(algorithm != NULLPTR)"))
            | Some algorithm =>
                let aad :=
                  createModuleAAD fileAAD ColumnMetaData_module row_group_ordinal
                    column_ordinal (Mem.int16 (-1)) in
                let encryption :=
                  mkEncryptionProperties (Encryption.algorithm algorithm) key fileAAD aad in
                (column_map',
                 metadata' ← DeserializeColumnMetaData
                               (format.encrypted_column_metadata column) encryption;
                 Ok (mkColumnChunkMetaData column metadata'))
            end
        end
    end
  else (column_map, Ok (mkColumnChunkMetaData column metadata)).

(** [RowGroupMetaDataImpl::ColumnChunk].  A negative [i] passes the bound
    check and indexes the vector out of bounds. *)
Definition ColumnChunk (row_group : format.RowGroup) (i row_group_ordinal : Z)
    (file_decryption : option FileDecryptionProperties)
    (algorithm : option EncryptionAlgorithm) (fileAAD : string)
    (column_map : column_map_t) : column_map_t * Result ColumnChunkMetaData :=
  let num_columns := Mem.int32 (Z.of_nat (List.length (format.columns row_group))) in
  if negb (i <? num_columns)%Z then
    (column_map,
     Throw (ParquetException
              ("The file only has " +:+ pretty num_columns +:+
               " columns, requested metadata for column: " +:+ pretty i)))
  else
    match (if (0 <=? i)%Z then format.columns row_group !! Z.to_nat i else None) with
    | None => (column_map, Throw (assertion_failure "columns[i] out of bounds"))
    | Some column =>
        ColumnChunkMetaDataImpl column row_group_ordinal (Mem.int16 i) file_decryption
          algorithm fileAAD column_map
    end.

(** [ColumnChunkMetaDataBuilder::WriteTo(sink, encryption)]: the builder as
    it is left and the bytes written to the sink.  Dereferencing a null
    [encryption] is a failure. *)
Definition WriteTo (b : ColumnChunkMetaDataBuilder) (encryption : option EncryptionProperties)
    : Result (ColumnChunkMetaDataBuilder * string) :=
  let with_chunk (c : format.ColumnChunk) :=
    (mkColumnChunkMetaDataBuilder c (column_metadata_ b) (path b)
       (column_encryption_props b) (footer_encryption b), SerializeColumnChunk c) in
  let unencrypted :=
    Ok (with_chunk
          (format.__set_meta_data (column_metadata_ b)
             (format.set_isset_meta_data true (column_chunk_ b)))) in
  match column_encryption_props b with
  | None => unencrypted
  | Some encrypt_md =>
      if negb (isEncrypted encrypt_md) then unencrypted
      else
        let chunk1 := format.set_isset_crypto_metadata true (column_chunk_ b) in
        let ccmd :=
          if isEncryptedWithFooterKey encrypt_md then
            format.mkColumnCryptoMetaData
              (format.ENCRYPTION_WITH_COLUMN_KEY format.ColumnCryptoMetaData_default)
              true false
          else
            format.mkColumnCryptoMetaData
              (format.mkEncryptionWithColumnKey (path b) (getKeyMetaData encrypt_md))
              false true in
        let chunk2 := format.__set_crypto_metadata ccmd chunk1 in
        if (match footer_encryption b with None => isEncrypted encrypt_md | Some _ => false end)
           || negb (isEncryptedWithFooterKey encrypt_md)
        then
          match encryption with
          | None => Throw (assertion_failure "encrypt_props is null")
          | Some encrypt_props =>
              let serialized_data := SerializeColumnMetaData (column_metadata_ b) in
              let encrypted_column_metadata := Encrypt encrypt_props true serialized_data in
              let chunk3 :=
                format.__set_encrypted_column_metadata encrypted_column_metadata chunk2 in
              match footer_encryption b with
              | None =>
                  let metadata_redacted := column_metadata_ b in
                  let metadata_redacted :=
                    if format.isset_statistics metadata_redacted
                    then format.set_isset_statistics false metadata_redacted
                    else metadata_redacted in
                  let metadata_redacted :=
                    if format.isset_encoding_stats metadata_redacted
                    then format.set_isset_encoding_stats false metadata_redacted
                    else metadata_redacted in
                  Ok (with_chunk
                        (format.__set_meta_data metadata_redacted
                           (format.set_isset_meta_data true chunk3)))
              | Some _ =>
                  (* "don't set meta_data" *)
                  Ok (with_chunk (format.set_isset_meta_data true chunk3))
              end
          end
        else
          Ok (with_chunk
                (format.__set_meta_data (column_metadata_ b)
                   (format.set_isset_meta_data true chunk2)))
  end.

(** The Thrift serializer that encrypts what it writes,
    [serializer.Serialize(metadata, dst, encryption, false)]. *)
Variable SerializeFileMetaDataTo : format.FileMetaData -> option EncryptionProperties -> string.

(** The module type [parquet_encryption::Footer]. *)
Definition Footer_module : Z := 0.

(** [encryption->aad(aad)]. *)
Definition set_aad (aad : string) (encryption : EncryptionProperties) : EncryptionProperties :=
  mkEncryptionProperties (ep_algorithm encryption) (key_bytes encryption)
    (file_aad encryption) aad.

(** [FileMetaDataImpl::WriteTo(dst, encryption)]: the bytes written to
    [dst].  In plaintext mode the footer is followed by the 12 bytes at offset
    4 of its encryption and by the last 16 bytes of it; the [encrypted_len]
    bytes [Encrypt] returns are the buffer read here, and a null [encryption]
    is dereferenced. *)
Definition FileMetaDataImpl_WriteTo (m : FileMetaData) (encryption : option EncryptionProperties)
    : Result string :=
  if is_plaintext_mode m then
    let serialized_data := SerializeFileMetaData (metadata_ m) in
    match encryption with
    | None => Throw (assertion_failure "encryption is null")
    | Some encryption =>
        let encrypted_data := Encrypt encryption true serialized_data in
        let encrypted_len := Mem.size encrypted_data in
        match Mem.slice 4 12 encrypted_data,
              Mem.slice (encrypted_len - 16) 16 encrypted_data with
        | Some nonce, Some tag => Ok (serialized_data +:+ nonce +:+ tag)
        | _, _ => Throw (assertion_failure "Write reads out of bounds")
        end
    end
  else Ok (SerializeFileMetaDataTo (metadata_ m) encryption).

(** [FileMetaData::WriteTo(dst, encryption)]: the footer AAD is assigned to
    the encryption properties, which the caller shares, before the footer is
    written. *)
Definition FileMetaData_WriteTo (m : FileMetaData) (encryption : option EncryptionProperties)
    : option EncryptionProperties * Result string :=
  let encryption' :=
    (fun e =>
       set_aad (createModuleAAD (file_aad e) Footer_module (Mem.int16 (-1)) (Mem.int16 (-1))
                  (Mem.int16 (-1))) e) <$> encryption in
  (encryption', FileMetaDataImpl_WriteTo m encryption').

End Metadata.

End Metadata.

(** ** File reader ([file_reader.cc]) *)

Module FileReader.

Import Encryption.
Import Metadata.

Definition DEFAULT_FOOTER_READ_SIZE : Z := 64 * 1024.
Definition FOOTER_SIZE : Z := 8.
Definition PARQUET_MAGIC : string := "PAR1".
Definition PARQUET_EMAGIC : string := "PARE".
Definition kMaxDictHeaderSize : Z := 100.

(** [ReaderProperties], as far as encryption goes. *)
Record ReaderProperties : Type := mkReaderProperties {
  file_decryption : option FileDecryptionProperties;
  fileAAD : string;
  column_map : option (gmap ColumnPath string)
}.

Definition set_fileAAD (aad : string) (p : ReaderProperties) : ReaderProperties :=
  mkReaderProperties (file_decryption p) aad (column_map p).

Definition set_column_map (m : option (gmap ColumnPath string)) (p : ReaderProperties)
    : ReaderProperties :=
  mkReaderProperties (file_decryption p) (fileAAD p) m.

(** [FileCryptoMetaData]. *)
Record FileCryptoMetaData : Type := mkFileCryptoMetaData {
  fc_encryption_algorithm : EncryptionAlgorithm;
  fc_key_metadata : string
}.

(** [SerializedFile]: the source is the file's bytes. *)
Record SerializedFile : Type := mkSerializedFile {
  source_ : string;
  file_metadata_ : option FileMetaData;
  file_crypto_metadata_ : option FileCryptoMetaData;
  properties_ : ReaderProperties
}.

(** [SerializedRowGroup]. *)
Record SerializedRowGroup : Type := mkSerializedRowGroup {
  rg_source_ : string;
  rg_file_metadata_ : FileMetaData;
  rg_file_crypto_metadata_ : option FileCryptoMetaData;
  row_group_metadata_ : format.RowGroup;
  rg_properties_ : ReaderProperties;
  row_group_ordinal_ : Z
}.

(** The arguments [PageReader::Open] is called with. *)
Record PageReader : Type := mkPageReader {
  stream : Z * Z;
  pr_num_values : Z;
  pr_compression : Z;
  pr_has_dictionary_page : bool;
  pr_row_group_ordinal : Z;
  pr_column_ordinal : Z;
  pr_encryption : option EncryptionProperties
}.

(** The layout of a file's last bytes: the length stored before the magic,
    and the bytes that length covers, in front of the 8-byte footer. *)
Definition footer_length (source : string) : Z :=
  Mem.load_uint32 (drop (Z.to_nat (Mem.size source - FOOTER_SIZE)) source).

Definition footer_bytes (source : string) : string :=
  take (Z.to_nat (footer_length source))
    (drop (Z.to_nat (Mem.size source - FOOTER_SIZE - footer_length source)) source).

(** A file that ends in [magic], preceded by a length that fits the file. *)
Definition ends_with (magic : string) (source : string) : Prop :=
  Mem.last_bytes 4 source = magic /\
  (FOOTER_SIZE + footer_length source <= Mem.size source)%Z /\
  (FOOTER_SIZE + footer_length source < 2 ^ 32)%Z.

Section Reader.

Variable SerializeFileMetaData : format.FileMetaData -> string.
Variable SignedFooterEncrypt : string -> string -> string -> string -> string.
Variable DeserializeColumnMetaData : string -> EncryptionProperties -> Result format.ColumnMetaData.
Variable createModuleAAD : string -> Z -> Z -> Z -> Z -> string.
Variable createFooterAAD : string -> string.
(** [FileMetaData::Make(metadata, &metadata_len, encryption)]: the metadata
    read from the buffer and the length it leaves in [metadata_len]. *)
Variable FileMetaData_Make : string -> option EncryptionProperties -> Result (FileMetaData * Z).
(** [FileCryptoMetaData::Make(metadata, &metadata_len)]. *)
Variable FileCryptoMetaData_Make : string -> Result (FileCryptoMetaData * Z).
(** [version.VersionLt(ApplicationVersion::PARQUET_816_FIXED_VERSION())]. *)
Variable VersionLt_PARQUET_816_FIXED_VERSION : string -> bool.

(** The AAD checks both footer branches of [ParseMetaData] make on the
    file's algorithm: the file AAD they store in the properties. *)
Definition check_algorithm_and_aad (algo : EncryptionAlgorithm)
    (file_decryption : FileDecryptionProperties) : Result string :=
  let supply_aad_prefix := supply_aad_prefix (aad algo) in
  let aad_file_unique := aad_file_unique (aad algo) in
  let aad_prefix := aad_prefix (aad algo) in
  match algorithm algo with
  | cipher_unknown _ => Throw (ParquetException "Unsupported algorithm")
  | _ =>
      _ ← (if negb (empty (getAADPrefix file_decryption)) then
             if negb (String.eqb (getAADPrefix file_decryption) aad_prefix) then
               Throw (ParquetException "ADD Prefix in file and in properties is not the same")
             else
               match getAADPrefixVerifier file_decryption with
               | Some check => check aad_prefix
               | None => Ok tt
               end
           else Ok tt);
      if supply_aad_prefix && empty (getAADPrefix file_decryption) then
        Throw (ParquetException
                 ("AAD prefix used for file encryption, but not stored in file and not " +:+
                  "supplied in decryption properties"))
      else if negb supply_aad_prefix then Ok (aad_prefix +:+ aad_file_unique)
      else Ok (getAADPrefix file_decryption +:+ aad_file_unique)
  end.

(** The footer key of [ParseMetaData]: the key set through the API, else the
    one the key retriever gives for the footer's key metadata.  A
    [KeyAccessDeniedException] is rethrown as a [ParquetException]. *)
Definition get_footer_key (file_decryption : FileDecryptionProperties)
    (footer_key_metadata : string) (unavailable : string) : Result string :=
  let footer_key := getFooterKey file_decryption in
  footer_key ←
    (if empty footer_key then
       if empty footer_key_metadata then
         Throw (ParquetException "No footer key or key metadata")
       else
         match getKeyRetriever file_decryption with
         | None => Throw (ParquetException "No footer key or key retriever")
         | Some GetKey =>
             match GetKey footer_key_metadata with
             | Throw (KeyAccessDeniedException what) =>
                 Throw (ParquetException
                          ("Footer key: access denied " +:+ what +:+ String "010" EmptyString))
             | r => r
             end
         end
     else Ok footer_key);
  if empty footer_key then Throw (ParquetException unavailable) else Ok footer_key.

(** The metadata bytes: copied out of the footer buffer when it holds them
    all, read from the file otherwise. *)
Definition read_metadata_buffer (source footer_buffer : string)
    (file_size footer_read_size metadata_len : Z) : Result string :=
  if (Mem.uint32 (metadata_len + FOOTER_SIZE) <=? footer_read_size)%Z then
    match Mem.slice (footer_read_size - metadata_len - FOOTER_SIZE) metadata_len footer_buffer with
    | Some buffer => Ok buffer
    | None => Throw (assertion_failure "memcpy reads out of bounds")
    end
  else
    let metadata_start := (file_size - FOOTER_SIZE - metadata_len)%Z in
    let buffer := Mem.ReadAt metadata_start metadata_len source in
    if negb (Mem.size buffer =? metadata_len)%Z then
      Throw (ParquetException "Invalid parquet file. Could not read metadata bytes.")
    else Ok buffer.

(** [ParseMetaData], the branch of a footer that ends in [PAR1]. *)
Definition ParseMetaData_plaintext_footer (f : SerializedFile) (footer_buffer : string)
    (file_size footer_read_size : Z) : Result SerializedFile :=
  let metadata_len :=
    Mem.load_uint32 (drop (Z.to_nat (footer_read_size - FOOTER_SIZE)) footer_buffer) in
  if (file_size <? Mem.uint32 (FOOTER_SIZE + metadata_len))%Z then
    Throw (ParquetException "Invalid parquet file. File is less than file metadata size.")
  else
    metadata_buffer ←
      read_metadata_buffer (source_ f) footer_buffer file_size footer_read_size metadata_len;
    '(file_metadata, read_metadata_len) ← FileMetaData_Make metadata_buffer None;
    if is_plaintext_mode file_metadata then
      match file_decryption (properties_ f) with
      | None => Throw (ParquetException "No decryption properties are provided")
      | Some file_decryption =>
          fileAAD ← check_algorithm_and_aad (encryption_algorithm file_metadata) file_decryption;
          let properties := set_fileAAD fileAAD (properties_ f) in
          let parsed :=
            mkSerializedFile (source_ f) (Some file_metadata) (file_crypto_metadata_ f)
              properties in
          if checkFooterIntegrity file_decryption then
            if negb (Mem.uint32 (metadata_len - read_metadata_len) =? 28)%Z then
              Throw (ParquetException "Invalid parquet file. Cannot verify plaintextmode footer.")
            else
              footer_key ←
                get_footer_key file_decryption (footer_signing_key_metadata file_metadata)
                  "Footer key unavailable. Could not verify plaintext footer metadata";
              let aad := createFooterAAD fileAAD in
              let encryption :=
                mkEncryptionProperties (algorithm (encryption_algorithm file_metadata))
                  footer_key fileAAD aad in
              verified ←
                verify SerializeFileMetaData SignedFooterEncrypt file_metadata encryption
                  (drop (Z.to_nat read_metadata_len) metadata_buffer) 28;
              if negb verified then
                Throw (ParquetException
                         "Invalid parquet file. Could not verify plaintext footer metadata")
              else Ok parsed
          else Ok parsed
      end
    else
      Ok (mkSerializedFile (source_ f) (Some file_metadata) (file_crypto_metadata_ f)
            (properties_ f)).

(** [ParseMetaData], the branch of a footer that ends in [PARE]. *)
Definition ParseMetaData_encrypted_footer (f : SerializedFile) (footer_buffer : string)
    (file_size footer_read_size : Z) : Result SerializedFile :=
  let footer_len :=
    Mem.load_uint32 (drop (Z.to_nat (footer_read_size - FOOTER_SIZE)) footer_buffer) in
  if (file_size <? Mem.uint32 (FOOTER_SIZE + footer_len))%Z then
    Throw (ParquetException "Invalid parquet file. File is less than file metadata size.")
  else
    crypto_metadata_buffer ←
      read_metadata_buffer (source_ f) footer_buffer file_size footer_read_size footer_len;
    match file_decryption (properties_ f) with
    | None =>
        Throw (ParquetException
                 "No decryption properties are provided. Could not read encrypted footer metadata")
    | Some file_decryption =>
        '(file_crypto_metadata, crypto_metadata_len) ←
          FileCryptoMetaData_Make crypto_metadata_buffer;
        fileAAD ←
          check_algorithm_and_aad (fc_encryption_algorithm file_crypto_metadata) file_decryption;
        let properties := set_fileAAD fileAAD (properties_ f) in
        let aad := createFooterAAD fileAAD in
        let metadata_offset := (file_size - FOOTER_SIZE - footer_len + crypto_metadata_len)%Z in
        let metadata_len := Mem.uint32 (footer_len - crypto_metadata_len) in
        let metadata_buffer := Mem.ReadAt metadata_offset metadata_len (source_ f) in
        if negb (Mem.size metadata_buffer =? metadata_len)%Z then
          Throw (ParquetException
                   "Invalid encrypted parquet file. Could not read footer metadata bytes.")
        else
          footer_key ←
            get_footer_key file_decryption (fc_key_metadata file_crypto_metadata)
              "Invalid footer encryption key. Could not parse footer metadata";
          let footer_encryption :=
            mkEncryptionProperties (algorithm (fc_encryption_algorithm file_crypto_metadata))
              footer_key fileAAD aad in
          '(file_metadata, _) ← FileMetaData_Make metadata_buffer (Some footer_encryption);
          Ok (mkSerializedFile (source_ f) (Some file_metadata) (Some file_crypto_metadata)
                properties)
    end.

(** [SerializedFile::ParseMetaData].  [ReadAt] on the last bytes of the
    file reads them all. *)
Definition ParseMetaData (f : SerializedFile) : Result SerializedFile :=
  let file_size := Mem.size (source_ f) in
  if (file_size <? FOOTER_SIZE)%Z then
    Throw (ParquetException "Corrupted file, smaller than file footer")
  else
    let footer_read_size := Z.min file_size DEFAULT_FOOTER_READ_SIZE in
    let footer_buffer := Mem.ReadAt (file_size - footer_read_size) footer_read_size (source_ f) in
    let bytes_read := Mem.size footer_buffer in
    let magic := drop (Z.to_nat (footer_read_size - 4)) footer_buffer in
    if (bytes_read =? footer_read_size)%Z && String.eqb magic PARQUET_MAGIC then
      ParseMetaData_plaintext_footer f footer_buffer file_size footer_read_size
    else if (bytes_read =? footer_read_size)%Z && String.eqb magic PARQUET_EMAGIC then
      ParseMetaData_encrypted_footer f footer_buffer file_size footer_read_size
    else Throw (ParquetException "Invalid parquet file. Corrupt footer.").

(** The key of a column encrypted with its own key, as
    [GetColumnPageReader] finds it once the chunk's metadata is read. *)
Definition column_key_for_pages (crypto_metadata : format.ColumnCryptoMetaData)
    (file_decryption : FileDecryptionProperties) (column_map : option (gmap ColumnPath string))
    : Result string :=
  let column_key_metadata :=
    format.eck_key_metadata (format.ENCRYPTION_WITH_COLUMN_KEY crypto_metadata) in
  let column_path :=
    format.eck_path_in_schema (format.ENCRYPTION_WITH_COLUMN_KEY crypto_metadata) in
  column_key ←
    match column_map ≫= (fun m => m !! column_path) with
    | Some column_key => Ok column_key
    | None =>
        let column_key := getColumnKey file_decryption column_path in
        match getKeyRetriever file_decryption with
        | Some GetKey =>
            if empty column_key && negb (empty column_key_metadata) then
              match GetKey column_key_metadata with
              | Throw (KeyAccessDeniedException what) =>
                  Throw (HiddenColumnException
                           ("HiddenColumnException, path=" +:+ ToDotString column_path +:+ " " +:+
                            what +:+ String "010" EmptyString))
              | r => r
              end
            else Ok column_key
        | None => Ok column_key
        end
    end;
  if empty column_key then
    Throw (HiddenColumnException
             ("column is encrypted with null key, path=" +:+ ToDotString column_path))
  else Ok column_key.

(** The footer key of a column encrypted with the footer key; the key
    retriever's exceptions are not caught here. *)
Definition footer_key_for_pages (file_decryption : FileDecryptionProperties)
    (footer_key_metadata : string) : Result string :=
  let footer_key := getFooterKey file_decryption in
  footer_key ←
    (if empty footer_key then
       if empty footer_key_metadata then
         Throw (ParquetException "No footer key or key metadata")
       else
         match getKeyRetriever file_decryption with
         | None => Throw (ParquetException "No footer key or key retriever")
         | Some GetKey => GetKey footer_key_metadata
         end
     else Ok footer_key);
  if empty footer_key then Throw (ParquetException "column is encrypted with null footer key")
  else Ok footer_key.

(** The offset [GetColumnPageReader] starts a column's stream at, its
    [col_start]: the dictionary page when the chunk has one that lies before
    the first data page. *)
Definition col_start (col : ColumnChunkMetaData) : Z :=
  if has_dictionary_page col && (dictionary_page_offset col <? data_page_offset col)%Z
  then dictionary_page_offset col else data_page_offset col.

(** The encryption algorithm [GetColumnPageReader] hands to [ColumnChunk]:
    that of the file crypto metadata, else that of a footer in plaintext mode,
    else a default-constructed one. *)
Definition column_chunk_algorithm (g : SerializedRowGroup) : EncryptionAlgorithm :=
  match rg_file_crypto_metadata_ g with
  | Some file_crypto_metadata => fc_encryption_algorithm file_crypto_metadata
  | None =>
      if is_plaintext_mode (rg_file_metadata_ g)
      then encryption_algorithm (rg_file_metadata_ g)
      else EncryptionAlgorithm_default
  end.

(** [SerializedRowGroup::GetColumnPageReader(i)]: the column map as it is
    left, and the page reader or the exception. *)
Definition GetColumnPageReader (g : SerializedRowGroup) (i : Z)
    : option (gmap ColumnPath string) * Result PageReader :=
  let algorithm :=
    match rg_file_crypto_metadata_ g with
    | Some file_crypto_metadata => fc_encryption_algorithm file_crypto_metadata
    | None =>
        if is_plaintext_mode (rg_file_metadata_ g)
        then encryption_algorithm (rg_file_metadata_ g)
        else EncryptionAlgorithm_default
    end in
  let column_map := column_map (rg_properties_ g) in
  match ColumnChunk DeserializeColumnMetaData createModuleAAD (row_group_metadata_ g) i
          (row_group_ordinal_ g) (file_decryption (rg_properties_ g)) (Some algorithm)
          (fileAAD (rg_properties_ g)) column_map with
  | (column_map', Throw e) => (column_map', Throw e)
  | (column_map', Ok col) =>
      let col_start :=
        if has_dictionary_page col && (dictionary_page_offset col <? data_page_offset col)%Z
        then dictionary_page_offset col else data_page_offset col in
      let col_length := total_compressed_size col in
      let col_length :=
        if VersionLt_PARQUET_816_FIXED_VERSION (writer_version_ (rg_file_metadata_ g)) then
          let bytes_remaining := (Mem.size (rg_source_ g) - (col_start + col_length))%Z in
          let padding := Z.min kMaxDictHeaderSize bytes_remaining in
          (col_length + padding)%Z
        else col_length in
      let stream := (col_start, col_length) in
      let Open := mkPageReader stream (num_values col) (compression col)
                    (has_dictionary_page col) (row_group_ordinal_ g) (Mem.int16 i) in
      let crypto_metadata := crypto_metadata col in
      let no_file_encryption :=
        match rg_file_crypto_metadata_ g with
        | None => negb (is_plaintext_mode (rg_file_metadata_ g))
        | Some _ => false
        end in
      match crypto_metadata with
      | None => (column_map', Ok (Open None))
      | Some crypto_metadata =>
          if no_file_encryption then (column_map', Ok (Open None))
          else
            let aad :=
              createModuleAAD (fileAAD (rg_properties_ g)) ColumnMetaData_module
                (row_group_ordinal_ g) (Mem.int16 i) (Mem.int16 (-1)) in
            match file_decryption (rg_properties_ g) with
            | None => (column_map', Throw (assertion_failure "file_decryption is null"))
            | Some file_decryption =>
                if format.isset_ENCRYPTION_WITH_FOOTER_KEY crypto_metadata then
                  let footer_key_metadata :=
                    if is_plaintext_mode (rg_file_metadata_ g)
                    then Ok (footer_signing_key_metadata (rg_file_metadata_ g))
                    else match rg_file_crypto_metadata_ g with
                         | Some m => Ok (fc_key_metadata m)
                         | None => Throw (assertion_failure "file_crypto_metadata_ is null")
                         end in
                  (column_map',
                   footer_key_metadata ← footer_key_metadata;
                   footer_key ← footer_key_for_pages file_decryption footer_key_metadata;
                   let algorithm :=
                     if is_plaintext_mode (rg_file_metadata_ g)
                     then Encryption.algorithm (encryption_algorithm (rg_file_metadata_ g))
                     else match rg_file_crypto_metadata_ g with
                          | Some m => Encryption.algorithm (fc_encryption_algorithm m)
                          | None => cipher_unknown 0
                          end in
                   Ok (Open (Some (mkEncryptionProperties algorithm footer_key
                                     (fileAAD (rg_properties_ g)) aad))))
                else
                  (column_map',
                   column_key ← column_key_for_pages crypto_metadata file_decryption column_map';
                   match rg_file_crypto_metadata_ g with
                   | None => Throw (assertion_failure "file_crypto_metadata_ is null")
                   | Some m =>
                       Ok (Open (Some (mkEncryptionProperties
                                         (Encryption.algorithm (fc_encryption_algorithm m))
                                         column_key (fileAAD (rg_properties_ g)) aad)))
                   end)
            end
      end
  end.

End Reader.

End FileReader.

(** ** Internal file encryptor ([internal_file_encryptor.cc]) *)

Module InternalFileEncryptor.

Import Encryption.

(** [parquet_encryption::AesEncryptor(algorithm, key_len, metadata)]. *)
Record AesEncryptor : Type := mkAesEncryptor {
  aes_algorithm : ParquetCipher;
  aes_key_len : Z;
  aes_metadata : bool
}.

(** The encryptors the class caches, null until first asked for. *)
Record InternalFileEncryptor : Type := mkInternalFileEncryptor {
  meta_encryptor_128_ : option AesEncryptor;
  meta_encryptor_196_ : option AesEncryptor;
  meta_encryptor_256_ : option AesEncryptor;
  data_encryptor_128_ : option AesEncryptor;
  data_encryptor_196_ : option AesEncryptor;
  data_encryptor_256_ : option AesEncryptor
}.

(** [GetMetaAesEncryptor(algorithm, key_size)]; [key_size] is a [size_t]
    and [key_len] its conversion to [int]. *)
Definition GetMetaAesEncryptor (e : InternalFileEncryptor) (algorithm : ParquetCipher)
    (key_size : Z) : InternalFileEncryptor * Result AesEncryptor :=
  let key_len := Mem.int32 key_size in
  if (key_len =? 16)%Z then
    let enc := default (mkAesEncryptor algorithm key_len true) (meta_encryptor_128_ e) in
    (mkInternalFileEncryptor (Some enc) (meta_encryptor_196_ e) (meta_encryptor_256_ e)
       (data_encryptor_128_ e) (data_encryptor_196_ e) (data_encryptor_256_ e), Ok enc)
  else if (key_len =? 24)%Z then
    let enc := default (mkAesEncryptor algorithm key_len true) (meta_encryptor_196_ e) in
    (mkInternalFileEncryptor (meta_encryptor_128_ e) (Some enc) (meta_encryptor_256_ e)
       (data_encryptor_128_ e) (data_encryptor_196_ e) (data_encryptor_256_ e), Ok enc)
  else if (key_len =? 32)%Z then
    let enc := default (mkAesEncryptor algorithm key_len true) (meta_encryptor_256_ e) in
    (mkInternalFileEncryptor (meta_encryptor_128_ e) (meta_encryptor_196_ e) (Some enc)
       (data_encryptor_128_ e) (data_encryptor_196_ e) (data_encryptor_256_ e), Ok enc)
  else (e, Throw (ParquetException "encryption key must be 16, 24 or 32 bytes in length")).

(** [GetDataAesEncryptor(algorithm, key_size)]. *)
Definition GetDataAesEncryptor (e : InternalFileEncryptor) (algorithm : ParquetCipher)
    (key_size : Z) : InternalFileEncryptor * Result AesEncryptor :=
  let key_len := Mem.int32 key_size in
  if (key_len =? 16)%Z then
    let enc := default (mkAesEncryptor algorithm key_len false) (data_encryptor_128_ e) in
    (mkInternalFileEncryptor (meta_encryptor_128_ e) (meta_encryptor_196_ e)
       (meta_encryptor_256_ e) (Some enc) (data_encryptor_196_ e) (data_encryptor_256_ e),
     Ok enc)
  else if (key_len =? 24)%Z then
    let enc := default (mkAesEncryptor algorithm key_len false) (data_encryptor_196_ e) in
    (mkInternalFileEncryptor (meta_encryptor_128_ e) (meta_encryptor_196_ e)
       (meta_encryptor_256_ e) (data_encryptor_128_ e) (Some enc) (data_encryptor_256_ e),
     Ok enc)
  else if (key_len =? 32)%Z then
    let enc := default (mkAesEncryptor algorithm key_len false) (data_encryptor_256_ e) in
    (mkInternalFileEncryptor (meta_encryptor_128_ e) (meta_encryptor_196_ e)
       (meta_encryptor_256_ e) (data_encryptor_128_ e) (data_encryptor_196_ e) (Some enc),
     Ok enc)
  else (e, Throw (ParquetException "encryption key must be 16, 24 or 32 bytes in length")).

(** [FileEncryptionProperties], as the class reads it through
    [properties_]. *)
Record FileEncryptionProperties : Type := mkFileEncryptionProperties {
  getAlgorithm : EncryptionAlgorithm;
  getFileAAD : string;
  getFooterEncryptionKey : string;
  getFooterSigningKey : string;
  encryptedFooter : bool;
  getColumnProperties : ColumnPath -> option ColumnEncryptionProperties
}.

(** [Encryptor(aes_encryptor, key, file_aad, aad)]. *)
Record Encryptor : Type := mkEncryptor {
  aes_encryptor_ : AesEncryptor;
  key_ : string;
  file_aad_ : string;
  aad_ : string
}.

Section Encryptors.

(** [parquet_encryption::createFooterAAD] belongs to a file outside the
    sources at hand. *)
Variable createFooterAAD : string -> string.

(** [GetFooterEncryptor()]. *)
Definition GetFooterEncryptor (properties_ : FileEncryptionProperties)
    (e : InternalFileEncryptor) : InternalFileEncryptor * Result Encryptor :=
  let algorithm := Encryption.algorithm (getAlgorithm properties_) in
  let aad := createFooterAAD (getFileAAD properties_) in
  let footer_key := getFooterEncryptionKey properties_ in
  match GetMetaAesEncryptor e algorithm (Mem.size footer_key) with
  | (e', Ok aes_encryptor) =>
      (e', Ok (mkEncryptor aes_encryptor footer_key (getFileAAD properties_) aad))
  | (e', Throw ex) => (e', Throw ex)
  end.

(** [GetFooterSigningEncryptor()]. *)
Definition GetFooterSigningEncryptor (properties_ : FileEncryptionProperties)
    (e : InternalFileEncryptor) : InternalFileEncryptor * Result Encryptor :=
  let algorithm := Encryption.algorithm (getAlgorithm properties_) in
  let aad := createFooterAAD (getFileAAD properties_) in
  let footer_signing_key := getFooterSigningKey properties_ in
  match GetMetaAesEncryptor e algorithm (Mem.size footer_signing_key) with
  | (e', Ok aes_encryptor) =>
      (e', Ok (mkEncryptor aes_encryptor footer_signing_key (getFileAAD properties_) aad))
  | (e', Throw ex) => (e', Throw ex)
  end.

End Encryptors.

(** [GetColumnEncryptor(column_path, metadata)]: null for a column without
    encryption properties. *)
Definition GetColumnEncryptor (properties_ : FileEncryptionProperties)
    (e : InternalFileEncryptor) (column_path : ColumnPath) (metadata : bool)
    : InternalFileEncryptor * Result (option Encryptor) :=
  match getColumnProperties properties_ column_path with
  | None => (e, Ok None)
  | Some column_prop =>
      let key :=
        if isEncryptedWithFooterKey column_prop then
          if encryptedFooter properties_ then getFooterEncryptionKey properties_
          else getFooterSigningKey properties_
        else getKey column_prop in
      let algorithm := Encryption.algorithm (getAlgorithm properties_) in
      match (if metadata then GetMetaAesEncryptor e algorithm (Mem.size key)
             else GetDataAesEncryptor e algorithm (Mem.size key)) with
      | (e', Ok aes_encryptor) =>
          let file_aad := getFileAAD properties_ in
          (e', Ok (Some (mkEncryptor aes_encryptor key file_aad EmptyString)))
      | (e', Throw ex) => (e', Throw ex)
      end
  end.

(** [GetColumnMetaEncryptor(column_path)] and
    [GetColumnDataEncryptor(column_path)]. *)
Definition GetColumnMetaEncryptor (properties_ : FileEncryptionProperties)
    (e : InternalFileEncryptor) (column_path : ColumnPath)
    : InternalFileEncryptor * Result (option Encryptor) :=
  GetColumnEncryptor properties_ e column_path true.

Definition GetColumnDataEncryptor (properties_ : FileEncryptionProperties)
    (e : InternalFileEncryptor) (column_path : ColumnPath)
    : InternalFileEncryptor * Result (option Encryptor) :=
  GetColumnEncryptor properties_ e column_path false.

(** The cached encryptors are the ones their slots are named after: the key
    length of the slot, with the metadata flag of the meta slots. *)
Definition slot_holds (key_len : Z) (metadata : bool) (slot : option AesEncryptor) : Prop :=
  forall enc, slot = Some enc -> aes_key_len enc = key_len /\ aes_metadata enc = metadata.

Definition slots_consistent (e : InternalFileEncryptor) : Prop :=
  slot_holds 16 true (meta_encryptor_128_ e) /\
  slot_holds 24 true (meta_encryptor_196_ e) /\
  slot_holds 32 true (meta_encryptor_256_ e) /\
  slot_holds 16 false (data_encryptor_128_ e) /\
  slot_holds 24 false (data_encryptor_196_ e) /\
  slot_holds 32 false (data_encryptor_256_ e).

End InternalFileEncryptor.

(** ** Properties-driven crypto factory
    ([encryption/properties_driven_crypto_factory.cc]) *)

Module CryptoFactory.

Import Encryption.

(** [EncryptionConfiguration]. *)
Record EncryptionConfiguration : Type := mkEncryptionConfiguration {
  footer_key : string;
  column_keys : string;
  encryption_algorithm : ParquetCipher;
  plaintext_footer : bool;
  double_wrapping : bool;
  cache_lifetime_seconds : Z;
  internal_key_material : bool;
  uniform_encryption : bool;
  data_key_length_bits : Z
}.

(** What [ColumnEncryptionProperties::Builder] is given before [build()]:
    the column name of its constructor, and the arguments of [key()] and
    [key_metadata()].  The builder, and what [build()] makes of them, are not
    in the sources. *)
Record ColumnEncryptionProperties : Type := mkColumnEncryptionProperties {
  cep_column_name : string;
  cep_key : string;
  cep_key_metadata : string
}.

(** What [FileEncryptionProperties::Builder] is given before [build()]. *)
Record FileEncryptionProperties : Type := mkFileEncryptionProperties {
  fep_footer_key : string;
  fep_footer_key_metadata : string;
  fep_algorithm : ParquetCipher;
  fep_encrypted_columns : gmap string ColumnEncryptionProperties;
  fep_plaintext_footer : bool
}.

(** The arguments of the [FileKeyWrapper] constructor. *)
Record FileKeyWrapper (KmsConnectionConfig : Type) : Type := mkFileKeyWrapper {
  kms_connection_config : KmsConnectionConfig;
  fkw_cache_lifetime_seconds : Z;
  fkw_double_wrapping : bool
}.
Arguments mkFileKeyWrapper {KmsConnectionConfig} _ _ _.

(** Modelled from the spec: [internal::ValidateKeyLength] is declared in
    [key_toolkit_internal.h] and defined in a file missing from the sources;
    the spec gives the accepted lengths, [data_key_length_bits ∈ {128,192,256}]. *)
Definition ACCEPTABLE_DATA_KEY_LENGTHS : list Z := [128; 192; 256]%Z.

Definition ValidateKeyLength (key_length_bits : Z) : bool :=
  bool_decide (key_length_bits ∈ ACCEPTABLE_DATA_KEY_LENGTHS).

Section Factory.

(** The random generator and the KMS behind the key wrapper are the outside
    world [World]: [RandBytes] draws from it, and
    [FileKeyWrapper::GetEncryptionKeyMetadata] may change it and may throw. *)
Variable IsWhitespace : ascii -> bool.
Variable KmsConnectionConfig : Type.
Variable World : Type.
Variable RandBytes : nat -> World -> string * World.
Variable GetEncryptionKeyMetadata :
  FileKeyWrapper KmsConnectionConfig -> string -> string -> bool -> World -> Result string * World.

Abbreviation TrimString := (StringUtil.TrimString IsWhitespace).

(** The loop over the column names of one key.  [std::string
    column_key(dek_length, NUL)] converts the [int] length to [size_t]: a
    negative length is above [max_size()], and the constructor throws
    [std::length_error] before any byte is drawn.  The message is the
    standard library's; libstdc++'s is written here. *)
Fixpoint column_names_loop (dek_length : Z) (key_wrapper : FileKeyWrapper KmsConnectionConfig)
    (column_key_id : string) (column_names : list string)
    (encrypted_columns : gmap string ColumnEncryptionProperties) (w : World)
    : Result (gmap string ColumnEncryptionProperties) * World :=
  match column_names with
  | [] => (Ok encrypted_columns, w)
  | name :: column_names' =>
      let column_name := TrimString name in
      if empty column_name then
        (Throw (ParquetException
                  ("Empty column name in column keys property for key: " +:+ column_key_id)), w)
      else if bool_decide (is_Some (encrypted_columns !! column_name)) then
        (Throw (ParquetException
                  ("Multiple keys defined for the same column: " +:+ column_name)), w)
      else if (dek_length <? 0)%Z then
        (Throw (std_length_error "basic_string::_M_create"), w)
      else
        let '(column_key, w1) := RandBytes (Z.to_nat dek_length) w in
        match GetEncryptionKeyMetadata key_wrapper column_key column_key_id false w1 with
        | (Throw e, w2) => (Throw e, w2)
        | (Ok column_key_key_metadata, w2) =>
            let cmd :=
              mkColumnEncryptionProperties column_name column_key column_key_key_metadata in
            column_names_loop dek_length key_wrapper column_key_id column_names'
              (<[column_name := cmd]> encrypted_columns) w2
        end
  end.

(** The loop over the [;]-separated mappings. *)
Fixpoint key_to_columns_loop (dek_length : Z) (key_wrapper : FileKeyWrapper KmsConnectionConfig)
    (key_to_columns : list string)
    (encrypted_columns : gmap string ColumnEncryptionProperties) (w : World)
    : Result (gmap string ColumnEncryptionProperties) * World :=
  match key_to_columns with
  | [] => (Ok encrypted_columns, w)
  | mapping :: key_to_columns' =>
      let cur_key_to_columns := TrimString mapping in
      if empty cur_key_to_columns then
        key_to_columns_loop dek_length key_wrapper key_to_columns' encrypted_columns w
      else
        let parts := SplitString cur_key_to_columns ":" in
        if negb (Nat.eqb (List.length parts) 2) then
          (Throw (ParquetException
                    ("Incorrect key to columns mapping in column keys property: [" +:+
                     cur_key_to_columns +:+ "]")), w)
        else
          let column_key_id := TrimString (nth 0 parts EmptyString) in
          if empty column_key_id then
            (Throw (ParquetException "Empty key name in column keys property."), w)
          else
            let column_names_str := TrimString (nth 1 parts EmptyString) in
            let column_names := SplitString column_names_str "," in
            if Nat.eqb 0 (List.length column_names) then
              (Throw (ParquetException
                        ("No columns to encrypt defined for key: " +:+ column_key_id)), w)
            else
              match column_names_loop dek_length key_wrapper column_key_id column_names
                      encrypted_columns w with
              | (Throw e, w') => (Throw e, w')
              | (Ok encrypted_columns', w') =>
                  key_to_columns_loop dek_length key_wrapper key_to_columns'
                    encrypted_columns' w'
              end
  end.

(** [GetColumnEncryptionProperties]. *)
Definition GetColumnEncryptionProperties (dek_length : Z) (column_keys : string)
    (key_wrapper : FileKeyWrapper KmsConnectionConfig) (w : World)
    : Result (gmap string ColumnEncryptionProperties) * World :=
  let key_to_columns := SplitString column_keys ";" in
  match key_to_columns_loop dek_length key_wrapper key_to_columns ∅ w with
  | (Throw e, w') => (Throw e, w')
  | (Ok encrypted_columns, w') =>
      if bool_decide (encrypted_columns = ∅) then
        (Throw (ParquetException "No column keys configured in column keys property."), w')
      else (Ok encrypted_columns, w')
  end.

(** [GetFileEncryptionProperties]; a null configuration gives a null result.
    Past [ValidateKeyLength] the key length is 16, 24 or 32, so that
    [std::string footer_key(dek_length, NUL)] does not throw. *)
Definition GetFileEncryptionProperties (kms_connection_config : KmsConnectionConfig)
    (encryption_config : option EncryptionConfiguration) (w : World)
    : Result (option FileEncryptionProperties) * World :=
  match encryption_config with
  | None => (Ok None, w)
  | Some encryption_config =>
      if negb (uniform_encryption encryption_config) && empty (column_keys encryption_config) then
        (Throw (ParquetException "Either column_keys or uniform_encryption must be set"), w)
      else if uniform_encryption encryption_config &&
              negb (empty (column_keys encryption_config)) then
        (Throw (ParquetException "Cannot set both column_keys and uniform_encryption"), w)
      else
        let footer_key_id := footer_key encryption_config in
        let column_key_str := column_keys encryption_config in
        if negb (internal_key_material encryption_config) then
          (Throw (ParquetException "External key material store is not supported yet."), w)
        else
          let key_wrapper :=
            mkFileKeyWrapper kms_connection_config (cache_lifetime_seconds encryption_config)
              (double_wrapping encryption_config) in
          let dek_length_bits := data_key_length_bits encryption_config in
          if negb (ValidateKeyLength dek_length_bits) then
            (Throw (ParquetException ("Wrong data key length : " +:+ pretty dek_length_bits)), w)
          else
            let dek_length := (dek_length_bits ÷ 8)%Z in
            let '(footer_key, w1) := RandBytes (Z.to_nat dek_length) w in
            match GetEncryptionKeyMetadata key_wrapper footer_key footer_key_id true w1 with
            | (Throw e, w2) => (Throw e, w2)
            | (Ok footer_key_metadata, w2) =>
                let properties_builder :=
                  mkFileEncryptionProperties footer_key footer_key_metadata
                    (encryption_algorithm encryption_config) ∅ false in
                if negb (uniform_encryption encryption_config) then
                  match GetColumnEncryptionProperties dek_length column_key_str key_wrapper w2 with
                  | (Throw e, w3) => (Throw e, w3)
                  | (Ok encrypted_columns, w3) =>
                      (Ok (Some (mkFileEncryptionProperties footer_key footer_key_metadata
                                   (encryption_algorithm encryption_config) encrypted_columns
                                   (plaintext_footer encryption_config))), w3)
                  end
                else (Ok (Some properties_builder), w2)
            end
  end.

(** What the column-keys property says of a column: some [;]-separated
    mapping reads [key : ... column ...] once trimmed. *)
Definition mentions (column_keys key column : string) : Prop :=
  exists mapping key_part columns_part,
    mapping ∈ SplitString column_keys ";" /\
    SplitString (TrimString mapping) ":" = [key_part; columns_part] /\
    TrimString key_part = key /\
    column ∈ map TrimString (SplitString (TrimString columns_part) ",").

(** A mapping with an empty key name: it is not blank, and what stands before
    its first colon is. *)
Definition has_empty_key_name (column_keys : string) : Prop :=
  exists mapping,
    mapping ∈ SplitString column_keys ";" /\
    TrimString mapping <> EmptyString /\
    TrimString (nth 0 (SplitString (TrimString mapping) ":") EmptyString) = EmptyString.

(** The column-keys strings the factory refuses: a column under two keys, a
    mapping with an empty key name, a mapping with an empty column name. *)
Definition ill_formed_column_keys (column_keys : string) : Prop :=
  (exists column key1 key2,
     key1 <> key2 /\ mentions column_keys key1 column /\ mentions column_keys key2 column) \/
  has_empty_key_name column_keys \/
  (exists key, mentions column_keys key EmptyString).





(** The exceptions the key wrapper raises. *)
Definition raised_by_key_wrapper (e : exception) : Prop :=
  exists key_wrapper key master_key_id is_footer_key w,
    fst (GetEncryptionKeyMetadata key_wrapper key master_key_id is_footer_key w) = Throw e.

End Factory.

(** The configuration errors of the factory, by their messages. *)
Inductive ConfigError : exception -> Prop :=
| neither_set :
    ConfigError (ParquetException "Either column_keys or uniform_encryption must be set")
| both_set :
    ConfigError (ParquetException "Cannot set both column_keys and uniform_encryption")
| external_store :
    ConfigError (ParquetException "External key material store is not supported yet.")
| wrong_key_length (bits : Z) :
    ConfigError (ParquetException ("Wrong data key length : " +:+ pretty bits))
| incorrect_mapping (mapping : string) :
    ConfigError (ParquetException
                   ("Incorrect key to columns mapping in column keys property: [" +:+
                    mapping +:+ "]"))
| empty_key_name :
    ConfigError (ParquetException "Empty key name in column keys property.")
| no_columns (key : string) :
    ConfigError (ParquetException ("No columns to encrypt defined for key: " +:+ key))
| empty_column_name (key : string) :
    ConfigError (ParquetException
                   ("Empty column name in column keys property for key: " +:+ key))
| multiple_keys (column : string) :
    ConfigError (ParquetException ("Multiple keys defined for the same column: " +:+ column))
| no_column_keys :
    ConfigError (ParquetException "No column keys configured in column keys property.").

End CryptoFactory.

(** ** The encryption configuration builder of the older
    [properties_driven_crypto_factory.cc] *)

Module EncryptionConfigurationBuilder.

Import Encryption.

(** The members of [EncryptionConfiguration::Builder]. *)
Record Builder : Type := mkBuilder {
  footer_key_ : string;
  column_keys_ : string;
  encryption_algorithm_ : ParquetCipher;
  plaintext_footer_ : bool;
  double_wrapping_ : bool;
  wrap_locally_ : bool;
  cache_lifetime_seconds_ : Z;
  internal_key_material_ : bool;
  uniform_encryption_ : bool;
  data_key_length_bits_ : Z
}.

(** [EncryptionConfiguration], as [build()] constructs it. *)
Record EncryptionConfiguration : Type := mkEncryptionConfiguration {
  footer_key : string;
  column_keys : string;
  encryption_algorithm : ParquetCipher;
  plaintext_footer : bool;
  double_wrapping : bool;
  wrap_locally : bool;
  cache_lifetime_seconds : Z;
  internal_key_material : bool;
  uniform_encryption : bool;
  data_key_length_bits : Z
}.

(** The calls on a builder; each returns the builder for the next call. *)
Inductive call : Type :=
| call_column_keys (column_keys : string)
| call_uniform_encryption
| call_encryption_algorithm (algo : ParquetCipher)
| call_plaintext_footer (plaintext_footer : bool)
| call_double_wrapping (double_wrapping : bool)
| call_wrap_locally (wrap_locally : bool)
| call_cache_lifetime_seconds (cache_lifetime_seconds : Z)
| call_internal_key_material (internal_key_material : bool)
| call_data_key_length_bits (data_key_length_bits : Z).

Definition both_called : exception :=
  ParquetException "Cannot call both column_keys(const std::string&) and uniform_encryption()".

(** One call: the setter of that name. *)
Definition do_call (c : call) (b : Builder) : Result Builder :=
  match c with
  | call_column_keys column_keys =>
      if empty column_keys then Throw (assertion_failure "DCHECK(!column_keys.empty())")
      else if uniform_encryption_ b then Throw both_called
      else
        Ok (mkBuilder (footer_key_ b) column_keys (encryption_algorithm_ b)
              (plaintext_footer_ b) (double_wrapping_ b) (wrap_locally_ b)
              (cache_lifetime_seconds_ b) (internal_key_material_ b) (uniform_encryption_ b)
              (data_key_length_bits_ b))
  | call_uniform_encryption =>
      if negb (empty (column_keys_ b)) then Throw both_called
      else
        Ok (mkBuilder (footer_key_ b) (column_keys_ b) (encryption_algorithm_ b)
              (plaintext_footer_ b) (double_wrapping_ b) (wrap_locally_ b)
              (cache_lifetime_seconds_ b) (internal_key_material_ b) true
              (data_key_length_bits_ b))
  | call_encryption_algorithm algo =>
      Ok (mkBuilder (footer_key_ b) (column_keys_ b) algo (plaintext_footer_ b)
            (double_wrapping_ b) (wrap_locally_ b) (cache_lifetime_seconds_ b)
            (internal_key_material_ b) (uniform_encryption_ b) (data_key_length_bits_ b))
  | call_plaintext_footer plaintext_footer =>
      Ok (mkBuilder (footer_key_ b) (column_keys_ b) (encryption_algorithm_ b) plaintext_footer
            (double_wrapping_ b) (wrap_locally_ b) (cache_lifetime_seconds_ b)
            (internal_key_material_ b) (uniform_encryption_ b) (data_key_length_bits_ b))
  | call_double_wrapping double_wrapping =>
      Ok (mkBuilder (footer_key_ b) (column_keys_ b) (encryption_algorithm_ b)
            (plaintext_footer_ b) double_wrapping (wrap_locally_ b)
            (cache_lifetime_seconds_ b) (internal_key_material_ b) (uniform_encryption_ b)
            (data_key_length_bits_ b))
  | call_wrap_locally wrap_locally =>
      Ok (mkBuilder (footer_key_ b) (column_keys_ b) (encryption_algorithm_ b)
            (plaintext_footer_ b) (double_wrapping_ b) wrap_locally
            (cache_lifetime_seconds_ b) (internal_key_material_ b) (uniform_encryption_ b)
            (data_key_length_bits_ b))
  | call_cache_lifetime_seconds cache_lifetime_seconds =>
      Ok (mkBuilder (footer_key_ b) (column_keys_ b) (encryption_algorithm_ b)
            (plaintext_footer_ b) (double_wrapping_ b) (wrap_locally_ b)
            cache_lifetime_seconds (internal_key_material_ b) (uniform_encryption_ b)
            (data_key_length_bits_ b))
  | call_internal_key_material internal_key_material =>
      Ok (mkBuilder (footer_key_ b) (column_keys_ b) (encryption_algorithm_ b)
            (plaintext_footer_ b) (double_wrapping_ b) (wrap_locally_ b)
            (cache_lifetime_seconds_ b) internal_key_material (uniform_encryption_ b)
            (data_key_length_bits_ b))
  | call_data_key_length_bits data_key_length_bits =>
      Ok (mkBuilder (footer_key_ b) (column_keys_ b) (encryption_algorithm_ b)
            (plaintext_footer_ b) (double_wrapping_ b) (wrap_locally_ b)
            (cache_lifetime_seconds_ b) (internal_key_material_ b) (uniform_encryption_ b)
            data_key_length_bits)
  end.

(** A chain of calls, from the left; the first exception ends it. *)
Fixpoint do_calls (cs : list call) (b : Builder) : Result Builder :=
  match cs with
  | [] => Ok b
  | c :: cs' => b' ← do_call c b; do_calls cs' b'
  end.

(** [build()]. *)
Definition build (b : Builder) : Result EncryptionConfiguration :=
  if negb (uniform_encryption_ b) && empty (column_keys_ b) then
    Throw (ParquetException
             ("Either column_keys(const std::string&) or uniform_encryption() must be " +:+
              "called."))
  else
    Ok (mkEncryptionConfiguration (footer_key_ b) (column_keys_ b) (encryption_algorithm_ b)
          (plaintext_footer_ b) (double_wrapping_ b) (wrap_locally_ b)
          (cache_lifetime_seconds_ b) (internal_key_material_ b) (uniform_encryption_ b)
          (data_key_length_bits_ b)).

End EncryptionConfigurationBuilder.

(** ** Concrete inputs

    Values the properties below are evaluated on. *)

Module Examples.

(** A column key's material that carries the KMS instance of its file, as a
    key wrapper hands it to [CreateSerialized]. *)
Definition column_key_material : KeyMaterial.KeyMaterial :=
  KeyMaterial.mkKeyMaterial false "kms1" "https://kms.example" "k1" false
    EmptyString EmptyString "AAECAwQFBgc=".

(** A double-wrapped footer key's material. *)
Definition footer_key_material : KeyMaterial.KeyMaterial :=
  KeyMaterial.mkKeyMaterial true "kms1" "https://kms.example" "kf" true
    "a2VrMQ==" "d3JhcHBlZEtFSw==" "AAECAwQFBgc=".

(** A cache whose only entry, for ["token"], expired at time 1000. *)
Definition expired_cache : TwoLevelCache.TwoLevelCacheWithExpiration string :=
  TwoLevelCache.mkCache
    {[ "token" := TwoLevelCache.mkExpiringCacheEntry ({[ "kek1" := "secret" ]} : gmap string string) 1000%Z ]}
    0%Z.

(** Stand-ins for the collaborators outside the sources, used where a
    property is evaluated on a concrete input: key lists carry raw key bytes,
    and the cipher keeps the key in the clear next to the master key and the
    AAD it was wrapped with. *)
Definition raw_key_bytes (s : string) : string := s.

Definition toy_EncryptKeyLocally (key master_key aad : string) : string :=
  master_key +:+ "/" +:+ aad +:+ "/" +:+ key.

Fixpoint strip_prefix (p s : string) : option string :=
  match p, s with
  | EmptyString, _ => Some s
  | String a p', String b s' => if Ascii.eqb a b then strip_prefix p' s' else None
  | String _ _, EmptyString => None
  end.

Definition toy_DecryptKeyLocally (wrapped master_key aad : string) : Result string :=
  match strip_prefix (master_key +:+ "/" +:+ aad +:+ "/") wrapped with
  | Some key => Ok key
  | None => Throw (ParquetException "Failed decryption finalization")
  end.


(** A world for the crypto factory: a counter that numbers the keys drawn
    and wrapped so far. *)
Definition toy_RandBytes (n : nat) (w : nat) : string * nat :=
  (String.string_of_list_ascii (replicate n (ascii_of_nat (65 + w))), S w).

Definition toy_GetEncryptionKeyMetadata (key_wrapper : CryptoFactory.FileKeyWrapper unit)
    (key master_key_id : string) (is_footer_key : bool) (w : nat) : Result string * nat :=
  (Ok (KeyMaterial.CreateSerialized is_footer_key "kms1" "https://kms.example" master_key_id
         false EmptyString EmptyString (toy_EncryptKeyLocally key "master" master_key_id) true),
   S w).

(** The same, with a KMS that does not know the master key [k9]. *)
Definition failing_GetEncryptionKeyMetadata (key_wrapper : CryptoFactory.FileKeyWrapper unit)
    (key master_key_id : string) (is_footer_key : bool) (w : nat) : Result string * nat :=
  if String.eqb master_key_id "k9" then (Throw (ParquetException "Key not found: k9"), w)
  else toy_GetEncryptionKeyMetadata key_wrapper key master_key_id is_footer_key w.

Definition toy_key_wrapper : CryptoFactory.FileKeyWrapper unit :=
  CryptoFactory.mkFileKeyWrapper tt 600%Z false.

Definition config (column_keys : string) (uniform_encryption : bool) (bits : Z)
    : CryptoFactory.EncryptionConfiguration :=
  CryptoFactory.mkEncryptionConfiguration "kf" column_keys Encryption.AES_GCM_V1 false false
    600%Z true uniform_encryption bits.

(** An internal file encryptor that has created no AES encryptor yet. *)
Definition no_encryptors : InternalFileEncryptor.InternalFileEncryptor :=
  InternalFileEncryptor.mkInternalFileEncryptor None None None None None None.

(** Stand-ins for Thrift and the footer cipher.  A serialized footer is one
    byte; the signature is the nonce, the plaintext and a 16-byte tag made of
    the key, the AAD and padding. *)
Definition toy_algorithm : Encryption.EncryptionAlgorithm :=
  Encryption.mkEncryptionAlgorithm Encryption.AES_GCM_V1
    (Encryption.mkAadMetadata EmptyString "unique" false).

Definition toy_file_metadata : Metadata.FileMetaData :=
  Metadata.mkFileMetaData
    (format.mkFileMetaData 1 0 [] "parquet-cpp version 1.5.1" toy_algorithm "kf-metadata" true true)
    1 "parquet-cpp version 1.5.1".

Definition toy_FileMetaData_Make (buffer : string)
    (encryption : option Encryption.EncryptionProperties) : Result (Metadata.FileMetaData * Z) :=
  match buffer with
  | EmptyString => Throw (ParquetException "Couldn't deserialize thrift")
  | String _ _ => Ok (toy_file_metadata, 1%Z)
  end.

Definition toy_FileCryptoMetaData_Make (buffer : string)
    : Result (FileReader.FileCryptoMetaData * Z) :=
  match buffer with
  | EmptyString => Throw (ParquetException "Couldn't deserialize thrift")
  | String _ _ => Ok (FileReader.mkFileCryptoMetaData toy_algorithm "kf-metadata", 1%Z)
  end.

Definition toy_SerializeFileMetaData (m : format.FileMetaData) : string := "T".

Definition toy_SignedFooterEncrypt (plaintext key aad nonce : string) : string :=
  nonce +:+ plaintext +:+ take 16 (key +:+ aad +:+ "----------------").

Definition toy_createFooterAAD (file_aad : string) : string := file_aad.

Definition toy_createModuleAAD (file_aad : string) (module row_group column page : Z) : string :=
  file_aad.

Definition toy_DeserializeColumnMetaData (blob : string)
    (encryption : Encryption.EncryptionProperties) : Result format.ColumnMetaData :=
  Ok format.ColumnMetaData_default.

(** A key retriever whose KMS denies the master key behind the key metadata
    ["k2-metadata"] and ["kf-metadata"]. *)
Definition denying_retriever (key_metadata : string) : Result string :=
  if String.eqb key_metadata "k1-metadata" then Ok "0123456789012345"
  else Throw (KeyAccessDeniedException "access denied by KMS").

Definition decryption (check_footer_integrity : bool) : Encryption.FileDecryptionProperties :=
  Encryption.mkFileDecryptionProperties EmptyString (fun _ => EmptyString)
    (Some denying_retriever) EmptyString None check_footer_integrity.

(** A length below 256 as a little-endian [uint32_t]. *)
Definition le32 (n : nat) : string :=
  String (ascii_of_nat n) (String "000" (String "000" (String "000" EmptyString))).

(** A file whose footer is a one-byte Thrift block in plaintext mode with no
    signature after it, and one with an encrypted footer: a one-byte crypto
    metadata block and a one-byte encrypted metadata block. *)
Definition unsigned_plaintext_file : string := "T" +:+ le32 1 +:+ "PAR1".

Definition encrypted_footer_file : string := "CM" +:+ le32 2 +:+ "PARE".

Definition reader (source : string) (check_footer_integrity : bool) : FileReader.SerializedFile :=
  FileReader.mkSerializedFile source None None
    (FileReader.mkReaderProperties (Some (decryption check_footer_integrity)) EmptyString None).

(** A row group of an encrypted file with one column, [b], encrypted with
    its own key. *)
Definition hidden_column : format.ColumnChunk :=
  format.mkColumnChunk EmptyString 4
    format.ColumnMetaData_default
    (format.mkColumnCryptoMetaData (format.mkEncryptionWithColumnKey ["b"] "k2-metadata")
       false true)
    "encrypted-metadata" false true true.

Definition row_group : FileReader.SerializedRowGroup :=
  FileReader.mkSerializedRowGroup encrypted_footer_file toy_file_metadata
    (Some (FileReader.mkFileCryptoMetaData toy_algorithm "kf-metadata"))
    (format.mkRowGroup [hidden_column] 0 0)
    (FileReader.mkReaderProperties (Some (decryption true)) "unique" (Some ∅)) 0.

(** The footer key and a signed trailer for the one-byte footer: a 12-byte
    nonce and the tag the stand-in cipher gives under that key. *)
Definition footer_signing : Encryption.EncryptionProperties :=
  Encryption.mkEncryptionProperties Encryption.AES_GCM_V1 "0123456789012345" "unique" "unique".

Definition signed_trailer : string := "NNNNNNNNNNNN" +:+ "0123456789012345".

(** The properties a writer encrypts with: an encrypted footer and the
    column [b] under its own 16-byte key. *)
Definition writer_properties : InternalFileEncryptor.FileEncryptionProperties :=
  InternalFileEncryptor.mkFileEncryptionProperties toy_algorithm "unique" "FFFFFFFFFFFFFFFF"
    "SSSSSSSSSSSSSSSS" true
    (fun path =>
       if bool_decide (path = ["b"]) then
         Some (Encryption.mkColumnEncryptionProperties "b" true false "0123456789012345"
                 "k1-metadata")
       else None).

(** A builder on which no call has been made yet. *)
Definition new_builder : EncryptionConfigurationBuilder.Builder :=
  EncryptionConfigurationBuilder.mkBuilder "kf" EmptyString Encryption.AES_GCM_V1
    false false false 600 true false 128.

(** Decryption properties that carry the footer key and ask for the footer
    integrity check, and a reader with them. *)
Definition decryption_with_footer_key : Encryption.FileDecryptionProperties :=
  Encryption.mkFileDecryptionProperties "0123456789012345" (fun _ => EmptyString) None
    EmptyString None true.

Definition reader_with_footer_key (source : string) : FileReader.SerializedFile :=
  FileReader.mkSerializedFile source None None
    (FileReader.mkReaderProperties (Some decryption_with_footer_key) EmptyString None).

(** A plaintext-mode footer of one byte, followed by a nonce and the tag of
    the stand-in cipher under the footer key. *)
Definition signed_plaintext_file : string :=
  "T" +:+ signed_trailer +:+ le32 29 +:+ "PAR1".

(** Eight bytes that end in [PAR1] after the stored length [2^32 - 8]. *)
Definition wrapping_length_file : string :=
  String "248" (String "255" (String "255" (String "255" "PAR1"))).

(** A stand-in for [parquet_encryption::Encrypt] that agrees with
    [toy_SignedFooterEncrypt]: a 4-byte length, a 12-byte nonce, the
    plaintext and the same 16-byte tag. *)
Definition toy_Encrypt (props : Encryption.EncryptionProperties) (metadata : bool)
    (plaintext : string) : string :=
  "LLLL" +:+ "NNNNNNNNNNNN" +:+ plaintext +:+
  take 16 (Encryption.key_bytes props +:+ Encryption.aad_bytes props +:+ "----------------").

(** Column metadata with statistics, its stand-in serialization, and a
    stand-in deserializer that gives it back for the bytes [toy_Encrypt] made
    of it under the same key. *)
Definition column_b_metadata : format.ColumnMetaData :=
  format.mkColumnMetaData 1 [0; 3]%Z ["b"] 0 10 40 40 4 0 0
    (format.mkStatistics "a" "z" 0 0) [] false false true false.

Definition toy_SerializeColumnMetaData (m : format.ColumnMetaData) : string := "CMD".

Definition toy_SerializeColumnChunk (c : format.ColumnChunk) : string := "CC".

Definition toy_Deserialize_column_b (blob : string) (encryption : Encryption.EncryptionProperties)
    : Result format.ColumnMetaData :=
  if String.eqb blob (toy_Encrypt encryption true "CMD") then Ok column_b_metadata
  else Throw (ParquetException "Couldn't deserialize thrift").

(** Decryption properties that carry the key of column [b]. *)
Definition decryption_with_column_key : Encryption.FileDecryptionProperties :=
  Encryption.mkFileDecryptionProperties EmptyString
    (fun path => if bool_decide (path = ["b"]) then "0123456789012345" else EmptyString)
    None EmptyString None false.

(** Decryption properties whose key retriever knows the key behind
    ["k1-metadata"] only, and the chunk of a column [b] that is encrypted
    with that key. *)
Definition readable_column : format.ColumnChunk :=
  format.mkColumnChunk EmptyString 4
    format.ColumnMetaData_default
    (format.mkColumnCryptoMetaData (format.mkEncryptionWithColumnKey ["b"] "k1-metadata")
       false true)
    "encrypted-metadata" false true true.

(** A row group of a file without encryption, written by an old version of
    parquet-mr: one column of 40 bytes from offset 4, in a file of 100
    bytes. *)
Definition plain_column : format.ColumnChunk :=
  format.mkColumnChunk EmptyString 44
    (format.mkColumnMetaData 1 [0; 3]%Z ["a"] 0 10 40 40 4 0 0
       (format.mkStatistics "a" "z" 0 0) [] false false true false)
    format.ColumnCryptoMetaData_default EmptyString true false false.

Definition plain_file_metadata : Metadata.FileMetaData :=
  Metadata.mkFileMetaData
    (format.mkFileMetaData 1 0 [] "parquet-mr version 1.2.8" Encryption.EncryptionAlgorithm_default
       EmptyString true false)
    1 "parquet-mr version 1.2.8".

Definition plain_row_group : FileReader.SerializedRowGroup :=
  FileReader.mkSerializedRowGroup
    (String.string_of_list_ascii (replicate 100 "x"%char)) plain_file_metadata None
    (format.mkRowGroup [plain_column] 10 40)
    (FileReader.mkReaderProperties None EmptyString None) 0.

End Examples.

(** * Properties *)

#[local] Arguments String.append !_ _ / : simpl nomatch.

(** ** Strings *)

Section StringFacts.

Lemma append_nil_r (s : string) : s +:+ EmptyString = s.
Proof. induction s as [|c s IH]; simpl; [reflexivity | now rewrite IH]. Qed.

Lemma append_assoc (a b c : string) : (a +:+ b) +:+ c = a +:+ (b +:+ c).
Proof. induction a as [|x a IH]; simpl; [reflexivity | now rewrite IH]. Qed.

Lemma append_length (a b : string) :
  String.length (a +:+ b) = (String.length a + String.length b)%nat.
Proof. induction a as [|x a IH]; simpl; [reflexivity | now rewrite IH]. Qed.

Lemma empty_true (s : string) : empty s = true <-> s = EmptyString.
Proof. destruct s; simpl; split; congruence. Qed.

Lemma c_str_NoNul (s : string) : NoNul s = true -> c_str s = s.
Proof.
  induction s as [|c s IH]; simpl; [reflexivity |].
  destruct (Ascii.eqb c "000"); simpl; [discriminate |].
  intros H. now rewrite IH.
Qed.

Lemma NoNul_c_str (s : string) : NoNul (c_str s) = true.
Proof.
  induction s as [|c s IH]; simpl; [reflexivity |].
  destruct (Ascii.eqb c "000") eqn:E; simpl; [reflexivity |].
  now rewrite E.
Qed.

Lemma NoNul_append (a b : string) : NoNul (a +:+ b) = NoNul a && NoNul b.
Proof.
  induction a as [|c a IH]; simpl; [reflexivity |].
  rewrite IH. now rewrite andb_assoc.
Qed.

(** The characters before and after the first delimiter. *)
Lemma find_None_split (v : string) (d : ascii) : find v d = None -> split v d = [v].
Proof.
  induction v as [|c v IH]; simpl; [reflexivity |].
  destruct (Ascii.eqb c d); [discriminate |].
  destruct (find v d); simpl; [discriminate |].
  intros _. now rewrite IH.
Qed.

Lemma find_Some_split (v : string) (d : ascii) (e : nat) :
  find v d = Some e -> split v d = take e v :: split (drop (S e) v) d.
Proof.
  revert e. induction v as [|c v IH]; intros e; simpl; [discriminate |].
  destruct (Ascii.eqb c d).
  - intros [= <-]. simpl. now destruct v.
  - destruct (find v d) as [e'|]; simpl; [|discriminate].
    intros [= <-]. now rewrite (IH e').
Qed.

Lemma find_Some_lt (v : string) (d : ascii) (e : nat) :
  find v d = Some e -> (e < String.length v)%nat.
Proof.
  revert e. induction v as [|c v IH]; intros e; simpl; [discriminate |].
  destruct (Ascii.eqb c d).
  - intros [= <-]. lia.
  - destruct (find v d) as [e'|]; simpl; [|discriminate].
    intros [= <-]. specialize (IH e' eq_refl). lia.
Qed.

Lemma drop_length (n : nat) (v : string) :
  String.length (drop n v) = (String.length v - n)%nat.
Proof.
  revert v. induction n as [|n IH]; intros [|c v]; simpl; try reflexivity.
  apply IH.
Qed.

(** The fuel of [SplitString] is never exhausted: the loop computes [split]. *)
Lemma SplitString_loop_fuel (fuel : nat) (rest : string) (d : ascii) (parts : list string) :
  (String.length rest < fuel)%nat ->
  SplitString_loop fuel rest d parts = (parts ++ split rest d)%list.
Proof.
  revert rest parts. induction fuel as [|fuel IH]; intros rest parts Hlen; [lia |].
  cbn [SplitString_loop]. destruct (find rest d) as [e|] eqn:E.
  - rewrite IH.
    + rewrite (find_Some_split _ _ _ E). now rewrite <- app_assoc.
    + apply find_Some_lt in E. rewrite drop_length. lia.
  - now rewrite (find_None_split _ _ E).
Qed.

Lemma SplitString_split (v : string) (d : ascii) : SplitString v d = split v d.
Proof. unfold SplitString. now rewrite SplitString_loop_fuel by lia. Qed.

Lemma split_nonempty (v : string) (d : ascii) : split v d <> [].
Proof.
  induction v as [|c v IH]; simpl; [discriminate |].
  destruct (Ascii.eqb c d); [discriminate |].
  destruct (split v d); discriminate.
Qed.

(** Splitting is compositional at a delimiter. *)
Lemma split_app (a b : string) (d : ascii) :
  split (a +:+ String d b) d = (split a d ++ split b d)%list.
Proof.
  induction a as [|c a IH]; simpl.
  - now rewrite Ascii.eqb_refl.
  - destruct (Ascii.eqb c d); [now rewrite IH |].
    rewrite IH. destruct (split a d) eqn:E; [now apply split_nonempty in E |].
    reflexivity.
Qed.

Lemma split_no_delim (v : string) (d : ascii) : find v d = None -> split v d = [v].
Proof. apply find_None_split. Qed.

End StringFacts.

(** ** rapidjson: the reader inverts the writer *)

Section JsonFacts.

Import rapidjson.

(** One written character is read back as itself. *)
Lemma ParseStringBody_WriteChar (c : ascii) (tail : string) :
  ParseStringBody (WriteChar c +:+ tail) =
  ('(s, rest) ← ParseStringBody tail; Some (String c s, rest)).
Proof.
  destruct c as [[] [] [] [] [] [] [] []]; reflexivity.
Qed.

Lemma ParseStringBody_WriteStringBody (s rest : string) :
  ParseStringBody (WriteStringBody s +:+ String dq rest) = Some (s, rest).
Proof.
  induction s as [|c s IH]; [reflexivity |].
  cbn [WriteStringBody]. rewrite append_assoc, ParseStringBody_WriteChar, IH.
  reflexivity.
Qed.

Lemma NoNul_WriteChar (c : ascii) : NoNul (WriteChar c) = true.
Proof. destruct c as [[] [] [] [] [] [] [] []]; reflexivity. Qed.

Lemma NoNul_WriteString (s : string) : NoNul (WriteString s) = true.
Proof.
  unfold WriteString. cbn [NoNul]. rewrite NoNul_append. cbn.
  rewrite andb_true_r.
  induction s as [|c s IH]; [reflexivity |].
  cbn [WriteStringBody]. now rewrite NoNul_append, NoNul_WriteChar, IH.
Qed.

Lemma NoNul_Accept_leaf (v : Value) : is_leaf v = true -> NoNul (Accept v) = true.
Proof.
  destruct v as [| [] | | s | |]; try discriminate; intros _; try reflexivity.
  apply NoNul_WriteString.
Qed.

Lemma WriteString_append (s tail : string) :
  WriteString s +:+ tail = String dq (WriteStringBody s +:+ String dq tail).
Proof. unfold WriteString. cbn. now rewrite append_assoc. Qed.

Lemma ParseValue_leaf (fuel : nat) (v : Value) (rest : string) :
  is_leaf v = true -> ParseValue (S fuel) (Accept v +:+ rest) = Some (v, rest).
Proof.
  destruct v as [| [] | | s | |]; try discriminate; intros _; try reflexivity.
  cbn [Accept]. rewrite WriteString_append.
  cbn. change (Ascii.Ascii false true false false false true false false) with dq.
  now rewrite ParseStringBody_WriteStringBody.
Qed.

Lemma SkipWhitespace_leaf (v : Value) (rest : string) :
  is_leaf v = true -> SkipWhitespace (Accept v +:+ rest) = Accept v +:+ rest.
Proof. destruct v as [| [] | | s | |]; try discriminate; reflexivity. Qed.

Lemma NoNul_write_members (members : list (string * Value)) :
  flat members -> NoNul (write_members Accept members) = true.
Proof.
  induction 1 as [|[name value] members Hv Hms IH]; [reflexivity |].
  cbn [write_members fst snd]. cbn [snd] in Hv.
  destruct members.
  - now rewrite !NoNul_append, NoNul_WriteString, NoNul_Accept_leaf.
  - rewrite !NoNul_append, NoNul_WriteString, NoNul_Accept_leaf, IH by assumption.
    reflexivity.
Qed.

Lemma write_members_length (members : list (string * Value)) :
  (List.length members <= String.length (write_members Accept members))%nat.
Proof.
  induction members as [|[name value] members IH]; [cbn; lia |].
  cbn [write_members fst snd List.length].
  destruct members.
  - rewrite WriteString_append. cbn. lia.
  - rewrite !append_length. unfold WriteString. cbn [String.length List.length] in *. lia.
Qed.

Lemma SkipWhitespace_not_whitespace (c : ascii) (r : string) :
  is_whitespace c = false -> SkipWhitespace (String c r) = String c r.
Proof. intros H. cbn [SkipWhitespace]. now rewrite H. Qed.

Lemma SkipWhitespace_write_members (members : list (string * Value)) (t : string) :
  members <> [] ->
  SkipWhitespace (write_members Accept members +:+ t) = write_members Accept members +:+ t.
Proof.
  destruct members as [|m members]; [congruence |]. intros _.
  cbn [write_members]. destruct members; rewrite !append_assoc, WriteString_append;
    reflexivity.
Qed.

(** One turn of the member loop on a written member. *)
Lemma ParseMembers_member (fuel pv : nat) (name : string) (value : Value)
    (sep : ascii) (tail : string) (acc : list (string * Value)) :
  is_leaf value = true -> is_whitespace sep = false ->
  ParseMembers (ParseValue (S pv)) (S fuel)
    (WriteString name +:+ ":" +:+ Accept value +:+ String sep tail) acc =
  if Ascii.eqb sep ","
  then ParseMembers (ParseValue (S pv)) fuel (SkipWhitespace tail) (acc ++ [(name, value)])
  else if Ascii.eqb sep "}" then Some (kObject (acc ++ [(name, value)]), tail)
  else None.
Proof.
  intros Hv Hsep. rewrite WriteString_append.
  cbn [ParseMembers]. rewrite Ascii.eqb_refl, ParseStringBody_WriteStringBody.
  cbn [mbind option_bind].
  change (":" +:+ Accept value +:+ String sep tail)
    with (String ":" (Accept value +:+ String sep tail)).
  rewrite SkipWhitespace_not_whitespace by reflexivity.
  rewrite Ascii.eqb_refl, SkipWhitespace_leaf, ParseValue_leaf by assumption.
  cbn [mbind option_bind]. now rewrite SkipWhitespace_not_whitespace by assumption.
Qed.

(** The member loop reads back the members of a flat object. *)
Lemma ParseMembers_write_members (members : list (string * Value)) :
  forall (fuel pv : nat) (acc : list (string * Value)) (rest : string),
  members <> [] -> flat members -> (List.length members <= fuel)%nat ->
  ParseMembers (ParseValue (S pv)) fuel
    (write_members Accept members +:+ String "}" rest) acc =
  Some (kObject (acc ++ members), rest).
Proof.
  induction members as [|[name value] members IH]; intros fuel pv acc rest Hne Hflat Hfuel;
    [congruence |].
  inversion Hflat as [|? ? Hv Hms]; subst. cbn [snd] in Hv.
  destruct fuel as [|fuel]; [cbn in Hfuel; lia |].
  cbn [write_members fst snd].
  destruct members as [|m members].
  - rewrite !append_assoc, ParseMembers_member by (assumption || reflexivity).
    reflexivity.
  - rewrite !append_assoc.
    change ("," +:+ write_members Accept (m :: members) +:+ String "}" rest)
      with (String "," (write_members Accept (m :: members) +:+ String "}" rest)).
    rewrite ParseMembers_member by (assumption || reflexivity).
    cbn [Ascii.eqb Bool.eqb].
    rewrite SkipWhitespace_write_members by discriminate.
    rewrite IH; [| discriminate | assumption | cbn in *; lia].
    now rewrite <- app_assoc.
Qed.

Lemma ParseValue_object (fuel : nat) (r : string) :
  ParseValue (S fuel) (String "{" r) = ParseObject (ParseValue fuel) r.
Proof. reflexivity. Qed.

(** [Document::Parse] reads back the text of a flat, non-empty object. *)
Lemma Parse_Accept_flat (members : list (string * Value)) :
  members <> [] -> flat members ->
  Parse (Accept (kObject members)) = Some (kObject members).
Proof.
  intros Hne Hflat. unfold Parse. cbn [Accept].
  change ("{" +:+ write_members Accept members +:+ "}")
    with (String "{" (write_members Accept members +:+ "}")).
  rewrite SkipWhitespace_not_whitespace by reflexivity.
  rewrite ParseValue_object. unfold ParseObject.
  rewrite SkipWhitespace_write_members by assumption.
  assert (Hhead : exists t, write_members Accept members +:+ "}" = String dq t).
  { destruct members as [|m members]; [congruence |].
    cbn [write_members]. destruct members;
      rewrite !append_assoc, WriteString_append; eauto. }
  destruct Hhead as [t Ht]. rewrite Ht at 1. cbn [Ascii.eqb Bool.eqb dq].
  change (String.length (String "{" (write_members Accept members +:+ "}")))
    with (S (String.length (write_members Accept members +:+ "}"))).
  rewrite ParseMembers_write_members; [reflexivity | assumption | assumption |].
  rewrite append_length. pose proof (write_members_length members). lia.
Qed.

Lemma c_str_Accept_flat (members : list (string * Value)) :
  flat members -> c_str (Accept (kObject members)) = Accept (kObject members).
Proof.
  intros Hflat. apply c_str_NoNul. cbn [Accept].
  now rewrite !NoNul_append, NoNul_write_members.
Qed.

End JsonFacts.

(** ** Key material: serialization round trip *)

Section KeyMaterialFacts.

Import KeyMaterial.

Lemma c_str_idempotent (s : string) : c_str (c_str s) = c_str s.
Proof. apply c_str_NoNul, NoNul_c_str. Qed.

Lemma key_material_map_flat (x : KeyMaterial) (is_internal_storage : bool) :
  exists members,
    key_material_map (is_footer_key x) (kms_instance_id x) (kms_instance_url x)
      (master_key_id x) (is_double_wrapped x) (kek_id x) (encoded_wrapped_kek x)
      (encoded_wrapped_dek x) is_internal_storage = rapidjson.kObject members /\
    members <> [] /\ rapidjson.flat members.
Proof.
  eexists. split; [reflexivity |]. split; [discriminate |].
  unfold rapidjson.flat.
  destruct is_internal_storage, (is_footer_key x), (is_double_wrapped x); cbn [app];
    repeat constructor.
Qed.

(** What [Parse] reads from the text [CreateSerialized] writes, for every
    value: the strings up to their first NUL, and only the fields of the
    value's modes. *)
Lemma Parse_serialize_kept (x : KeyMaterial) (is_internal_storage : bool) :
  Parse (serialize x is_internal_storage) = Ok (kept x).
Proof.
  unfold Parse, serialize, CreateSerialized.
  destruct (key_material_map_flat x is_internal_storage) as (members & Hmap & Hne & Hflat).
  rewrite Hmap, c_str_Accept_flat, Parse_Accept_flat by assumption.
  rewrite <- Hmap. clear Hmap Hne Hflat members.
  destruct x as [fk id url mk dw kek wkek dek]. unfold kept. cbn [is_footer_key
    kms_instance_id kms_instance_url master_key_id is_double_wrapped kek_id
    encoded_wrapped_kek encoded_wrapped_dek].
  destruct is_internal_storage, fk, dw; cbn; rewrite ?c_str_idempotent; reflexivity.
Qed.

Lemma kept_id (x : KeyMaterial) : NoNul_fields x -> fields_empty_off_mode x -> kept x = x.
Proof.
  destruct x as [fk id url mk dw kek wkek dek].
  unfold NoNul_fields, fields_empty_off_mode, kept. cbn.
  intros (H1 & H2 & H3 & H4 & H5 & H6) (Hf & Hd).
  rewrite !c_str_NoNul by assumption.
  destruct fk, dw; try reflexivity.
  - destruct (Hd eq_refl) as [-> ->]. reflexivity.
  - destruct (Hf eq_refl) as [-> ->]. reflexivity.
  - destruct (Hf eq_refl) as [-> ->], (Hd eq_refl) as [-> ->]. reflexivity.
Qed.

End KeyMaterialFacts.

(** C1, as stated, fails: the footer-only fields of a value that is not a
    footer key are not written, so the parsed value differs from the one
    serialized.  [Examples.column_key_material] has every field of its modes set and
    no NUL, and comes back with an empty [kms_instance_id]. *)
Lemma C1_roundtrip_drops_fields_off_mode :
  KeyMaterial.fields_set_for_mode Examples.column_key_material /\
  KeyMaterial.Parse (KeyMaterial.serialize Examples.column_key_material true) =
    Ok (KeyMaterial.mkKeyMaterial false EmptyString EmptyString "k1" false
          EmptyString EmptyString "AAECAwQFBgc=") /\
  KeyMaterial.kms_instance_id Examples.column_key_material = "kms1".
Proof.
  split; [| split; [| reflexivity]].
  - split; discriminate.
  - rewrite Parse_serialize_kept. reflexivity.
Qed.

(** C1, amended: [Parse (CreateSerialized x) = x] for every [KeyMaterial] [x]
    whose strings hold no NUL character, whose footer-only fields are empty
    unless [is_footer_key] and whose KEK fields are empty unless
    [is_double_wrapped]; with or without the [internalStorage] member. *)
Theorem C1_parse_serialize_roundtrip (x : KeyMaterial.KeyMaterial) (is_internal_storage : bool) :
  KeyMaterial.NoNul_fields x ->
  KeyMaterial.fields_empty_off_mode x ->
  KeyMaterial.Parse (KeyMaterial.serialize x is_internal_storage) = Ok x.
Proof.
  intros Hnul Hoff. rewrite Parse_serialize_kept. now rewrite kept_id.
Qed.

Lemma C1_parse_serialize_roundtrip_witness :
  KeyMaterial.Parse (KeyMaterial.serialize Examples.footer_key_material true) = Ok Examples.footer_key_material.
Proof.
  apply (C1_parse_serialize_roundtrip Examples.footer_key_material true).
  - repeat split; reflexivity.
  - split; discriminate.
Defined.

(** ** Two-level cache *)

Section CacheFacts.

Import TwoLevelCache.
Context {V : Type}.

(** No entry for the token: a fresh entry with an empty map is inserted and
    returned. *)
Lemma GetOrCreateInternalCache_absent (now : TimePoint) (token : string) (ttl : Z)
    (c : TwoLevelCacheWithExpiration V) :
  cache_ c !! token = None ->
  GetOrCreateInternalCache now token ttl c =
    (mkCache (<[token := new_entry now ∅ ttl]> (cache_ c)) (last_cache_cleanup_timestamp_ c), ∅).
Proof.
  intros H. unfold GetOrCreateInternalCache, unordered_map_insert, unordered_map_index.
  rewrite H. now rewrite lookup_insert_eq.
Qed.

(** A live entry is returned as it is. *)
Lemma GetOrCreateInternalCache_live (now : TimePoint) (token : string) (ttl : Z)
    (c : TwoLevelCacheWithExpiration V) (e : ExpiringCacheEntry (gmap string V)) :
  cache_ c !! token = Some e -> IsExpired now e = false ->
  GetOrCreateInternalCache now token ttl c = (c, cached_item e).
Proof.
  intros H Hlive. unfold GetOrCreateInternalCache, unordered_map_index.
  rewrite H, Hlive, H. now destruct c.
Qed.

(** An expired entry: [insert] finds the key present and changes nothing,
    so the entry's old map is returned and its expiration is not renewed. *)
Lemma GetOrCreateInternalCache_expired (now : TimePoint) (token : string) (ttl : Z)
    (c : TwoLevelCacheWithExpiration V) (e : ExpiringCacheEntry (gmap string V)) :
  cache_ c !! token = Some e -> IsExpired now e = true ->
  GetOrCreateInternalCache now token ttl c = (c, cached_item e).
Proof.
  intros H Hexp. unfold GetOrCreateInternalCache, unordered_map_insert, unordered_map_index.
  rewrite H, Hexp, H. now destruct c.
Qed.

End CacheFacts.

(** C2 at its failing input: the entry of ["token"] expired at time 1000 and
    holds [{"kek1": "secret"}]; at time 2000 [GetOrCreateInternalCache]
    returns that map, not an empty one, and leaves the cache as it was. *)
Theorem C2_expired_entry_returned_as_is :
  TwoLevelCache.GetOrCreateInternalCache 2000%Z "token" 600000%Z Examples.expired_cache =
    (Examples.expired_cache, {[ "kek1" := "secret" ]}).
Proof.
  rewrite (GetOrCreateInternalCache_expired 2000%Z "token" 600000%Z Examples.expired_cache
             (TwoLevelCache.mkExpiringCacheEntry {[ "kek1" := "secret" ]} 1000%Z))
    by reflexivity.
  reflexivity.
Qed.

(** ** In-memory KMS *)

Section KmsFacts.

Import InMemoryKms.

Variable IsWhitespace : ascii -> bool.
Variable base64_decode : string -> string.
Variable EncryptKeyLocally : string -> string -> string -> string.
Variable DecryptKeyLocally : string -> string -> string -> Result string.


(** Wrapping and unwrapping read [new_master_key_map_] only. *)
Lemma WrapKeyInServer_new_map (st1 st2 : state) (key_bytes id : string) :
  new_master_key_map_ st1 = new_master_key_map_ st2 ->
  WrapKeyInServer EncryptKeyLocally st1 key_bytes id =
  WrapKeyInServer EncryptKeyLocally st2 key_bytes id.
Proof. unfold WrapKeyInServer. now intros ->. Qed.

Lemma UnwrapKeyInServer_new_map (st1 st2 : state) (wrapped id : string) :
  new_master_key_map_ st1 = new_master_key_map_ st2 ->
  UnwrapKeyInServer DecryptKeyLocally st1 wrapped id =
  UnwrapKeyInServer DecryptKeyLocally st2 wrapped id.
Proof. unfold UnwrapKeyInServer. now intros ->. Qed.

End KmsFacts.




(** C10: for an identifier absent from the map the KMS reads,
    [WrapKeyInServer] and [UnwrapKeyInServer] throw the [ParquetException]
    "Key not found: <id>", and [GetMasterKeyFromServer], which looks the
    identifier up with [std::map::at] and no check, throws
    [std::out_of_range] instead. *)
Theorem C10_missing_master_key
    (EncryptKeyLocally : string -> string -> string -> string)
    (DecryptKeyLocally : string -> string -> string -> Result string)
    (st : InMemoryKms.state) (key_bytes wrapped id : string) :
  InMemoryKms.new_master_key_map_ st !! id = None ->
  InMemoryKms.WrapKeyInServer EncryptKeyLocally st key_bytes id =
    Throw (ParquetException ("Key not found: " +:+ id)) /\
  InMemoryKms.UnwrapKeyInServer DecryptKeyLocally st wrapped id =
    Throw (ParquetException ("Key not found: " +:+ id)) /\
  (exists what, InMemoryKms.GetMasterKeyFromServer st id = Throw (std_out_of_range what)) /\
  InMemoryKms.GetMasterKeyFromServer st id <> Throw (ParquetException ("Key not found: " +:+ id)).
Proof.
  intros H.
  unfold InMemoryKms.WrapKeyInServer, InMemoryKms.UnwrapKeyInServer,
    InMemoryKms.GetMasterKeyFromServer.
  rewrite H. repeat split; eauto; try discriminate.
Qed.

Lemma C10_missing_master_key_witness :
  InMemoryKms.WrapKeyInServer Examples.toy_EncryptKeyLocally
    (InMemoryKms.mkState ∅ {[ "k1" := "0123456789012345" ]}) "dek-bytes" "k2" =
    Throw (ParquetException "Key not found: k2") /\
  InMemoryKms.GetMasterKeyFromServer
    (InMemoryKms.mkState ∅ {[ "k1" := "0123456789012345" ]}) "k2" <>
    Throw (ParquetException "Key not found: k2").
Proof.
  assert (Habsent : InMemoryKms.new_master_key_map_
                      (InMemoryKms.mkState ∅ {[ "k1" := "0123456789012345" ]}) !! "k2" = None)
    by (vm_compute; reflexivity).
  destruct (C10_missing_master_key Examples.toy_EncryptKeyLocally Examples.toy_DecryptKeyLocally
              (InMemoryKms.mkState ∅ {[ "k1" := "0123456789012345" ]}) "dek-bytes" "w" "k2"
              Habsent) as (Hw & _ & _ & Hg).
  split; [exact Hw | exact Hg].
Defined.

(** ** Crypto factory: the column-keys property *)

Section FactoryFacts.

Import Encryption CryptoFactory.

Variable IsWhitespace : ascii -> bool.
Variable KmsConnectionConfig : Type.
Variable World : Type.
Variable RandBytes : nat -> World -> string * World.
Variable GetEncryptionKeyMetadata :
  FileKeyWrapper KmsConnectionConfig -> string -> string -> bool -> World -> Result string * World.

#[local] Abbreviation Trim := (StringUtil.TrimString IsWhitespace).
#[local] Abbreviation CNL :=
  (column_names_loop IsWhitespace KmsConnectionConfig World RandBytes GetEncryptionKeyMetadata).
#[local] Abbreviation KCL :=
  (key_to_columns_loop IsWhitespace KmsConnectionConfig World RandBytes GetEncryptionKeyMetadata).
#[local] Abbreviation GCEP :=
  (GetColumnEncryptionProperties IsWhitespace KmsConnectionConfig World RandBytes
     GetEncryptionKeyMetadata).
#[local] Abbreviation GFEP :=
  (GetFileEncryptionProperties IsWhitespace KmsConnectionConfig World RandBytes
     GetEncryptionKeyMetadata).

(** An exception of [GetFileEncryptionProperties] is a configuration error
    or comes from the key wrapper; [GetColumnEncryptionProperties], given a
    negative key length, also throws [std::length_error]. *)
#[local] Abbreviation raised_in_file e :=
  (ConfigError e \/ raised_by_key_wrapper KmsConnectionConfig World GetEncryptionKeyMetadata e).
#[local] Abbreviation raised dek e :=
  (ConfigError e \/ raised_by_key_wrapper KmsConnectionConfig World GetEncryptionKeyMetadata e \/
   ((dek < 0)%Z /\ exists what, e = std_length_error what)).

Ltac step_names :=
  cbn [column_names_loop];
  match goal with
  | |- context [empty (Trim ?n)] => destruct (empty (Trim n)) eqn:?
  end;
  [| case_bool_decide;
     [| match goal with
        | |- context [(?dek <? 0)%Z] => destruct (Z.ltb_spec dek 0)
        end;
        [| match goal with
           | |- context [RandBytes ?k ?w] => destruct (RandBytes k w) as [?column_key ?w1] eqn:?
           end;
           match goal with
           | |- context [GetEncryptionKeyMetadata ?a ?b ?c ?d ?w] =>
               destruct (GetEncryptionKeyMetadata a b c d w) as [[?md | ?e] ?w2] eqn:?
           end ] ] ].

Lemma CNL_throw_raised names : forall dek kw id enc w e w',
  CNL dek kw id names enc w = (Throw e, w') -> raised dek e.
Proof.
  induction names as [|n names IH]; intros dek kw id enc w e w'.
  - discriminate.
  - step_names.
    + intros [= <- <-]. left. constructor.
    + intros [= <- <-]. left. constructor.
    + intros [= <- <-]. right. right. eauto.
    + apply IH.
    + intros [= <- <-]. right. left. unfold raised_by_key_wrapper.
      eexists _, _, _, _, _. match goal with H : GetEncryptionKeyMetadata _ _ _ _ _ = _ |- _ =>
        rewrite H end. reflexivity.
Qed.

Lemma CNL_mono names : forall dek kw id enc w enc' w' c,
  CNL dek kw id names enc w = (Ok enc', w') -> is_Some (enc !! c) -> is_Some (enc' !! c).
Proof.
  induction names as [|n names IH]; intros dek kw id enc w enc' w' c.
  - intros [= <- <-]. auto.
  - step_names; try discriminate.
    intros Hloop Hc. eapply IH; [exact Hloop |].
    rewrite lookup_insert. case_decide; eauto.
Qed.

Lemma CNL_inserts names : forall dek kw id enc w enc' w' c,
  CNL dek kw id names enc w = (Ok enc', w') -> c ∈ map Trim names -> is_Some (enc' !! c).
Proof.
  induction names as [|n names IH]; intros dek kw id enc w enc' w' c.
  - intros _ Hc. cbn in Hc. now apply elem_of_nil in Hc.
  - step_names; try discriminate.
    intros Hloop Hc. cbn [map] in Hc. apply elem_of_cons in Hc as [-> | Hc].
    + eapply (CNL_mono names); [exact Hloop |]. rewrite lookup_insert_eq. eauto.
    + eapply IH; eassumption.
Qed.

Lemma CNL_duplicate names : forall dek kw id enc w c,
  is_Some (enc !! c) -> c ∈ map Trim names ->
  exists e w', CNL dek kw id names enc w = (Throw e, w').
Proof.
  induction names as [|n names IH]; intros dek kw id enc w c Hin Hc.
  - cbn in Hc. now apply elem_of_nil in Hc.
  - step_names; eauto.
    cbn [map] in Hc. apply elem_of_cons in Hc as [-> | Hc]; [contradiction |].
    eapply IH; [| exact Hc]. rewrite lookup_insert. case_decide; eauto.
Qed.

Lemma CNL_empty_column_name names : forall dek kw id enc w,
  EmptyString ∈ map Trim names ->
  exists e w', CNL dek kw id names enc w = (Throw e, w').
Proof.
  induction names as [|n names IH]; intros dek kw id enc w Hc.
  - cbn in Hc. now apply elem_of_nil in Hc.
  - step_names; eauto.
    cbn [map] in Hc. apply elem_of_cons in Hc as [Heq | Hc]; [| eauto].
    rewrite <- Heq in *. discriminate.
Qed.

(** One mapping, then the rest. *)
Lemma KCL_app l : forall l' dek kw enc w,
  KCL dek kw (l ++ l')%list enc w =
  match KCL dek kw l enc w with
  | (Throw e, w') => (Throw e, w')
  | (Ok enc', w') => KCL dek kw l' enc' w'
  end.
Proof.
  induction l as [|m l IH]; intros l' dek kw enc w; [reflexivity |].
  cbn [app key_to_columns_loop].
  repeat match goal with
         | |- context [if ?b then _ else _] => destruct b; try reflexivity
         end; auto.
  match goal with
  | |- context [column_names_loop ?a ?b ?c ?d ?e ?f ?g ?h ?i ?j] =>
      destruct (column_names_loop a b c d e f g h i j) as [[?enc | ?e] ?w]
  end; auto.
Qed.

Ltac step_mapping :=
  cbn [key_to_columns_loop];
  match goal with
  | |- context [empty (Trim ?m)] => destruct (empty (Trim m)) eqn:?
  end;
  [| match goal with
     | |- context [Nat.eqb (List.length ?parts) 2] =>
         destruct (Nat.eqb (List.length parts) 2) eqn:?; cbn [negb]
     end;
     [ match goal with
       | |- context [empty (Trim (nth 0 ?parts ?d))] =>
           destruct (empty (Trim (nth 0 parts d))) eqn:?
       end;
       [| match goal with
          | |- context [Nat.eqb 0 (List.length ?names)] =>
              destruct (Nat.eqb 0 (List.length names)) eqn:?
          end;
          [| match goal with
             | |- context [column_names_loop ?a ?b ?c ?d ?e ?f ?g ?h ?i ?j] =>
                 destruct (column_names_loop a b c d e f g h i j) as [[?enc1 | ?e1] ?w1] eqn:?
             end ] ] | ] ].

Lemma KCL_throw_raised segs : forall dek kw enc w e w',
  KCL dek kw segs enc w = (Throw e, w') -> raised dek e.
Proof.
  induction segs as [|m segs IH]; intros dek kw enc w e w'.
  - discriminate.
  - step_mapping; try apply IH; try (intros [= <- <-]; left; constructor).
    intros [= <- <-]. eapply CNL_throw_raised. eassumption.
Qed.

Lemma KCL_mono segs : forall dek kw enc w enc' w' c,
  KCL dek kw segs enc w = (Ok enc', w') -> is_Some (enc !! c) -> is_Some (enc' !! c).
Proof.
  induction segs as [|m segs IH]; intros dek kw enc w enc' w' c.
  - intros [= <- <-]. auto.
  - step_mapping; try discriminate; try apply IH.
    intros Hloop Hc. eapply IH; [exact Hloop |]. eapply CNL_mono; eassumption.
Qed.

Lemma SplitString_empty (d : ascii) : SplitString EmptyString d = [EmptyString].
Proof. reflexivity. Qed.

(** A mapping that names a column the map already holds makes the loop throw. *)
Lemma KCL_duplicate m segs dek kw enc w key_part columns_part c :
  SplitString (Trim m) ":" = [key_part; columns_part] ->
  c ∈ map Trim (SplitString (Trim columns_part) ",") ->
  is_Some (enc !! c) ->
  exists e w', KCL dek kw (m :: segs) enc w = (Throw e, w').
Proof.
  intros Hparts Hc Hin.
  destruct (CNL_duplicate (SplitString (Trim columns_part) ",") dek kw (Trim key_part) enc w c
              Hin Hc) as (e & w' & Hthrow).
  step_mapping; eauto.
  - match goal with H : empty _ = true |- _ => apply empty_true in H; rewrite H in Hparts end.
    discriminate.
  - rewrite Hparts in *. cbn [nth] in *. congruence.
Qed.

(** A mapping that is processed leaves its columns in the map. *)
Lemma KCL_inserts m segs dek kw enc w enc' w' key_part columns_part c :
  SplitString (Trim m) ":" = [key_part; columns_part] ->
  c ∈ map Trim (SplitString (Trim columns_part) ",") ->
  KCL dek kw (m :: segs) enc w = (Ok enc', w') ->
  is_Some (enc' !! c).
Proof.
  intros Hparts Hc.
  step_mapping; try discriminate.
  - match goal with H : empty _ = true |- _ => apply empty_true in H; rewrite H in Hparts end.
    discriminate.
  - rewrite Hparts in *. cbn [nth] in *. intros Hrest.
    eapply KCL_mono; [exact Hrest |]. eapply CNL_inserts; eassumption.
Qed.

(** Two mappings that name the same column: the loop throws. *)
Lemma KCL_two_mappings l1 x l2 y l3 dek kw enc w kx cx ky cy c :
  SplitString (Trim x) ":" = [kx; cx] ->
  c ∈ map Trim (SplitString (Trim cx) ",") ->
  SplitString (Trim y) ":" = [ky; cy] ->
  c ∈ map Trim (SplitString (Trim cy) ",") ->
  exists e w', KCL dek kw (l1 ++ (x :: l2) ++ y :: l3)%list enc w = (Throw e, w').
Proof.
  intros Hx Hcx Hy Hcy.
  rewrite KCL_app. destruct (KCL dek kw l1 enc w) as [[enc1 | e1] w1]; [| eauto].
  rewrite KCL_app. destruct (KCL dek kw (x :: l2) enc1 w1) as [[enc2 | e2] w2] eqn:E2; [| eauto].
  eapply KCL_duplicate; [exact Hy | exact Hcy |].
  eapply KCL_inserts; [exact Hx | exact Hcx | exact E2].
Qed.

Lemma KCL_throws_at l1 m l2 dek kw enc w :
  (forall enc1 w1, exists e w', KCL dek kw (m :: l2) enc1 w1 = (Throw e, w')) ->
  exists e w', KCL dek kw (l1 ++ m :: l2)%list enc w = (Throw e, w').
Proof.
  intros H. rewrite KCL_app.
  destruct (KCL dek kw l1 enc w) as [[enc1 | e1] w1]; eauto.
Qed.

Lemma KCL_ill_formed column_keys dek kw enc w :
  ill_formed_column_keys IsWhitespace column_keys ->
  exists e w', KCL dek kw (SplitString column_keys ";") enc w = (Throw e, w').
Proof.
  intros [(c & k1 & k2 & Hne & H1 & H2) | [Hkey | (k & Hcol)]].
  - destruct H1 as (m1 & kp1 & cp1 & Hm1 & Hp1 & Hk1 & Hc1).
    destruct H2 as (m2 & kp2 & cp2 & Hm2 & Hp2 & Hk2 & Hc2).
    assert (Hm : m1 <> m2) by (intros ->; congruence).
    apply list_elem_of_split in Hm1 as (l1 & l2 & Hsegs). rewrite Hsegs in *.
    apply elem_of_app in Hm2 as [Hm2 | Hm2].
    + apply list_elem_of_split in Hm2 as (la & lb & ->).
      rewrite <- app_assoc. cbn [app].
      change (m2 :: lb ++ m1 :: l2)%list with ((m2 :: lb) ++ m1 :: l2)%list.
      eapply KCL_two_mappings; eassumption.
    + apply elem_of_cons in Hm2 as [Heq | Hm2]; [congruence |].
      apply list_elem_of_split in Hm2 as (la & lb & ->).
      change (m1 :: la ++ m2 :: lb)%list with ((m1 :: la) ++ m2 :: lb)%list.
      eapply KCL_two_mappings; eassumption.
  - destruct Hkey as (m & Hm & Hnonempty & Hempty).
    apply list_elem_of_split in Hm as (l1 & l2 & ->).
    apply KCL_throws_at. intros enc1 w1.
    step_mapping; eauto; exfalso.
    all: try (match goal with
              | H : empty (Trim _) = true |- _ => apply empty_true in H; contradiction
              end).
    all: match goal with
         | H : empty (Trim (nth 0 _ _)) = false, H' : Trim (nth 0 _ _) = _ |- _ =>
             rewrite H' in H; discriminate
         end.
  - destruct Hcol as (m & kp & cp & Hm & Hp & Hk & Hc).
    apply list_elem_of_split in Hm as (l1 & l2 & ->).
    apply KCL_throws_at. intros enc1 w1.
    step_mapping; eauto; exfalso.
    all: try (match goal with
              | H : empty (Trim _) = true, H' : SplitString _ _ = [_; _] |- _ =>
                  apply empty_true in H; rewrite H in H'; discriminate
              end).
    all: match goal with
         | H' : SplitString _ _ = [_; _], Hin : _ ∈ map _ _,
           Hloop : column_names_loop _ _ _ _ _ ?d ?k ?i _ ?enc0 ?w0 = (Ok _, _) |- _ =>
             rewrite H' in Hloop; cbn [nth] in Hloop;
             let e := fresh "e" in
             let w' := fresh "w'" in
             let Hthrow := fresh "Hthrow" in
             destruct (CNL_empty_column_name _ d k i enc0 w0 Hin) as (e & w' & Hthrow);
             rewrite H' in Hthrow; cbn [nth] in Hthrow; congruence
         end.
Qed.

Lemma GCEP_throw_raised dek column_keys kw w e w' :
  GCEP dek column_keys kw w = (Throw e, w') -> raised dek e.
Proof.
  unfold GetColumnEncryptionProperties.
  destruct (KCL dek kw (SplitString column_keys ";") ∅ w) as [[enc | e1] w1] eqn:E.
  - case_bool_decide; [| discriminate]. intros [= <- <-]. left. constructor.
  - intros [= <- <-]. eapply KCL_throw_raised. exact E.
Qed.

Lemma GCEP_ill_formed dek column_keys kw w :
  ill_formed_column_keys IsWhitespace column_keys ->
  exists e, fst (GCEP dek column_keys kw w) = Throw e /\ raised dek e.
Proof.
  intros Hill.
  destruct (KCL_ill_formed column_keys dek kw ∅ w Hill) as (e & w' & Hthrow).
  exists e. assert (H : GCEP dek column_keys kw w = (Throw e, w')).
  { unfold GetColumnEncryptionProperties. now rewrite Hthrow. }
  rewrite H. split; [reflexivity |]. eapply GCEP_throw_raised. exact H.
Qed.

(** The key lengths [ValidateKeyLength] accepts are not negative. *)
Lemma valid_length_nonneg (bits : Z) :
  negb (ValidateKeyLength bits) = false -> (0 <= bits ÷ 8)%Z.
Proof.
  intros H. apply negb_false_iff, bool_decide_eq_true in H.
  unfold ACCEPTABLE_DATA_KEY_LENGTHS in H.
  repeat (apply elem_of_cons in H as [-> | H]; [vm_compute; discriminate |]).
  now apply elem_of_nil in H.
Qed.

Lemma GFEP_throw_raised kms cfg w e :
  fst (GFEP kms cfg w) = Throw e -> raised_in_file e.
Proof.
  unfold GetFileEncryptionProperties. destruct cfg as [cfg|]; [| discriminate].
  repeat match goal with
         | |- context [if ?b then _ else _] =>
             destruct b eqn:?; [cbn [fst]; intros [= <-]; left; constructor |]
         end.
  match goal with
  | |- context [RandBytes ?k ?w] => destruct (RandBytes k w) as [footer_key w1]
  end.
  match goal with
  | |- context [GetEncryptionKeyMetadata ?a ?b ?c ?d ?w] =>
      destruct (GetEncryptionKeyMetadata a b c d w) as [[md | e1] w2] eqn:E
  end.
  - destruct (negb (uniform_encryption cfg)); [| discriminate].
    match goal with
    | |- context [GetColumnEncryptionProperties ?a ?b ?c ?d ?e ?f ?g ?h ?i] =>
        destruct (GetColumnEncryptionProperties a b c d e f g h i) as [[enc | e2] w3] eqn:E2
    end; [discriminate |].
    cbn [fst]. intros [= <-].
    destruct (GCEP_throw_raised _ _ _ _ _ _ E2) as [H | [H | (Hneg & _)]]; auto.
    match goal with Hv : negb (ValidateKeyLength _) = false |- _ =>
      apply valid_length_nonneg in Hv end.
    lia.
  - cbn [fst]. intros [= <-]. right. unfold raised_by_key_wrapper.
    eexists _, _, _, _, _. rewrite E. reflexivity.
Qed.

Lemma GFEP_ill_formed kms cfg w :
  uniform_encryption cfg = false ->
  ill_formed_column_keys IsWhitespace (column_keys cfg) ->
  exists e, fst (GFEP kms (Some cfg) w) = Throw e /\ raised_in_file e.
Proof.
  intros Hu Hill.
  assert (Hthrow : exists e, fst (GFEP kms (Some cfg) w) = Throw e).
  { unfold GetFileEncryptionProperties. rewrite Hu. cbn [negb andb].
    repeat match goal with
           | |- context [if ?b then _ else _] => destruct b; [cbn [fst]; eauto |]
           end.
    match goal with
    | |- context [RandBytes ?k ?w] => destruct (RandBytes k w) as [footer_key w1]
    end.
    match goal with
    | |- context [GetEncryptionKeyMetadata ?a ?b ?c ?d ?w] =>
        destruct (GetEncryptionKeyMetadata a b c d w) as [[md | e1] w2] eqn:E
    end; [| cbn [fst]; eauto].
    match goal with
    | |- context [GetColumnEncryptionProperties ?a ?b ?c ?d ?e ?f ?g ?h ?i] =>
        destruct (GCEP_ill_formed f g h i Hill) as (e2 & He2 & _);
        destruct (GetColumnEncryptionProperties a b c d e f g h i) as [[enc | e3] w3]
    end; [discriminate | cbn [fst]; eauto]. }
  destruct Hthrow as (e & He). exists e. split; [exact He |].
  eapply GFEP_throw_raised. exact He.
Qed.



Lemma GFEP_wrong_key_length kms cfg w :
  data_key_length_bits cfg ∉ ACCEPTABLE_DATA_KEY_LENGTHS ->
  exists e, GFEP kms (Some cfg) w = (Throw e, w) /\ ConfigError e.
Proof.
  intros Hbits. unfold GetFileEncryptionProperties.
  repeat match goal with
         | |- context [if ?b then _ else _] =>
             destruct b eqn:?; [eexists; split; [reflexivity | constructor] |]
         end.
  exfalso. match goal with H : negb (ValidateKeyLength _) = false |- _ =>
    apply negb_false_iff in H; unfold ValidateKeyLength in H; apply bool_decide_eq_true in H end.
  contradiction.
Qed.

(** The columns one mapping names. *)
#[local] Abbreviation names mapping c :=
  (exists key_part columns_part,
     SplitString (Trim mapping) ":" = [key_part; columns_part] /\
     c ∈ map Trim (SplitString (Trim columns_part) ",")).

Lemma two_parts (parts : list string) :
  Nat.eqb (List.length parts) 2 = true ->
  parts = [nth 0 parts EmptyString; nth 1 parts EmptyString].
Proof. destruct parts as [|a [|b [|c l]]]; try discriminate. reflexivity. Qed.

(** The columns in the map after the loop over the names of one key. *)
Lemma CNL_columns column_names : forall dek kw id enc w enc' w',
  CNL dek kw id column_names enc w = (Ok enc', w') ->
  forall c, is_Some (enc' !! c) <-> is_Some (enc !! c) \/ c ∈ map Trim column_names.
Proof.
  induction column_names as [|n column_names IH]; intros dek kw id enc w enc' w'.
  - cbn. intros [= <- <-] c. rewrite elem_of_nil. tauto.
  - step_names; try discriminate.
    intros Hloop c. rewrite (IH _ _ _ _ _ _ _ Hloop c). cbn [map].
    rewrite elem_of_cons, lookup_insert_is_Some.
    destruct (decide (Trim n = c)) as [E | E]; intuition congruence.
Qed.

Lemma blank_names_nothing (mapping c : string) :
  Trim mapping = EmptyString -> ~ names mapping c.
Proof. intros -> (kp & cp & H & _). discriminate. Qed.

(** The columns in the map after the loop over the mappings. *)
Lemma KCL_columns segs : forall dek kw enc w enc' w',
  KCL dek kw segs enc w = (Ok enc', w') ->
  forall c,
    is_Some (enc' !! c) <->
    is_Some (enc !! c) \/ exists mapping, mapping ∈ segs /\ names mapping c.
Proof.
  induction segs as [|m segs IH]; intros dek kw enc w enc' w'.
  - cbn. intros [= <- <-] c. split; [auto |].
    intros [H | (mapping & Hin & _)]; [exact H | now apply elem_of_nil in Hin].
  - step_mapping; try discriminate.
    + match goal with H : empty _ = true |- _ => apply empty_true in H; rename H into Hblank end.
      intros Hrest c. rewrite (IH _ _ _ _ _ _ Hrest c).
      split; intros [H | (mapping & Hin & Hnames)]; auto; right.
      * exists mapping. split; [apply elem_of_cons; now right | exact Hnames].
      * apply elem_of_cons in Hin as [-> | Hin]; [| now exists mapping].
        now apply blank_names_nothing in Hnames.
    + match goal with
      | H : Nat.eqb (List.length _) 2 = true |- _ => apply two_parts in H; rename H into Hparts
      end.
      match goal with
      | H : column_names_loop _ _ _ _ _ _ _ _ _ _ _ = (Ok _, _) |- _ => rename H into Hnames
      end.
      intros Hrest c.
      rewrite (IH _ _ _ _ _ _ Hrest c), (CNL_columns _ _ _ _ _ _ _ _ Hnames c).
      split.
      * intros [[H | H] | (mapping & Hin & Hc)]; auto; right.
        -- exists m. split; [apply elem_of_cons; now left |]. eauto.
        -- exists mapping. split; [apply elem_of_cons; now right | exact Hc].
      * intros [H | (mapping & Hin & Hc)]; auto.
        apply elem_of_cons in Hin as [-> | Hin]; [| right; now exists mapping].
        left. right. destruct Hc as (kp & cp & Hsplit & Hc).
        rewrite Hsplit in *. exact Hc.
Qed.

(** *** When the loops go through *)

#[local] Abbreviation nonblank := (fun mapping : string => negb (empty (Trim mapping))).

Lemma elem_of_concat_map {A B} (f : A -> list B) (l : list A) (x : B) :
  x ∈ concat (map f l) <-> exists a, a ∈ l /\ x ∈ f a.
Proof.
  induction l as [|a l IH]; cbn [map concat].
  - rewrite elem_of_nil. split; [tauto |]. intros (a & Ha & _). now apply elem_of_nil in Ha.
  - rewrite elem_of_app, IH. split.
    + intros [H | (b & Hb & H)]; [exists a | exists b]; (split; [| exact H]);
        apply elem_of_cons; auto.
    + intros (b & Hb & H). apply elem_of_cons in Hb as [-> | Hb]; eauto.
Qed.







(** C6, as stated, fails: a column that stands under two keys does not
    always give a configuration error.  The key wrapper is asked for the key
    metadata of each column as it is read, before a later duplicate is seen:
    with a KMS that does not know the master key [k9], the property
    [k9:a;k1:a] makes [GetColumnEncryptionProperties], and
    [GetFileEncryptionProperties], throw the key wrapper's "Key not found"
    exception, which is none of the configuration errors. *)
Lemma C6_key_wrapper_throws_before_the_duplicate :
  ill_formed_column_keys IsWhitespace_arrow "k9:a;k1:a" /\
  CryptoFactory.GetColumnEncryptionProperties IsWhitespace_arrow unit nat
    Examples.toy_RandBytes Examples.failing_GetEncryptionKeyMetadata 16 "k9:a;k1:a"
    Examples.toy_key_wrapper 0%nat = (Throw (ParquetException "Key not found: k9"), 1%nat) /\
  fst (CryptoFactory.GetFileEncryptionProperties IsWhitespace_arrow unit nat
         Examples.toy_RandBytes Examples.failing_GetEncryptionKeyMetadata tt
         (Some (Examples.config "k9:a;k1:a" false 128%Z)) 0%nat) =
    Throw (ParquetException "Key not found: k9") /\
  ~ ConfigError (ParquetException "Key not found: k9").
Proof.
  repeat split; try (vm_compute; reflexivity).
  - left. exists "a", "k9", "k1". split; [discriminate |].
    split.
    + exists "k9:a", "k9", "a".
      repeat split; try (vm_compute; reflexivity); apply list_elem_of_In; vm_compute; tauto.
    + exists "k1:a", "k1", "a".
      repeat split; try (vm_compute; reflexivity); apply list_elem_of_In; vm_compute; tauto.
  - intros H. inversion H.
Qed.

(** C6, amended: the column-keys property is refused when a column stands
    under two keys, when a mapping has an empty key name and when a mapping
    has an empty column name.  [GetColumnEncryptionProperties] then throws; the
    exception is one of the configuration errors, unless the key wrapper,
    asked for the key metadata of the columns read so far, throws first, or
    the key length is negative and building the key throws
    [std::length_error].  So does [GetFileEncryptionProperties] when
    [uniform_encryption] is off, where the key wrapper is also asked for the
    footer key and the key length has been validated.
    [GetFileEncryptionProperties] throws its own configuration errors when
    [column_keys] is empty and [uniform_encryption] is off, and when both are
    set, before anything else is done. *)
Theorem C6_column_keys_configuration_errors (kms : KmsConnectionConfig)
    (cfg : EncryptionConfiguration) (dek_length : Z)
    (key_wrapper : FileKeyWrapper KmsConnectionConfig) (w : World) :
  (ill_formed_column_keys IsWhitespace (column_keys cfg) ->
   (exists e,
      fst (GetColumnEncryptionProperties IsWhitespace KmsConnectionConfig World RandBytes
             GetEncryptionKeyMetadata dek_length (column_keys cfg) key_wrapper w) = Throw e /\
      (ConfigError e \/
       raised_by_key_wrapper KmsConnectionConfig World GetEncryptionKeyMetadata e \/
       ((dek_length < 0)%Z /\ exists what, e = std_length_error what))) /\
   (uniform_encryption cfg = false ->
    exists e,
      fst (GetFileEncryptionProperties IsWhitespace KmsConnectionConfig World RandBytes
             GetEncryptionKeyMetadata kms (Some cfg) w) = Throw e /\
      (ConfigError e \/
       raised_by_key_wrapper KmsConnectionConfig World GetEncryptionKeyMetadata e))) /\
  (uniform_encryption cfg = false -> column_keys cfg = EmptyString ->
   GetFileEncryptionProperties IsWhitespace KmsConnectionConfig World RandBytes
     GetEncryptionKeyMetadata kms (Some cfg) w =
   (Throw (ParquetException "Either column_keys or uniform_encryption must be set"), w)) /\
  (uniform_encryption cfg = true -> column_keys cfg <> EmptyString ->
   GetFileEncryptionProperties IsWhitespace KmsConnectionConfig World RandBytes
     GetEncryptionKeyMetadata kms (Some cfg) w =
   (Throw (ParquetException "Cannot set both column_keys and uniform_encryption"), w)).
Proof.
  repeat split.
  - now apply GCEP_ill_formed.
  - intros Hu. now apply GFEP_ill_formed.
  - intros Hu Hck. unfold GetFileEncryptionProperties. now rewrite Hu, Hck.
  - intros Hu Hck. unfold GetFileEncryptionProperties. rewrite Hu.
    destruct (column_keys cfg); [congruence | reflexivity].
Qed.



End FactoryFacts.

Lemma C6_column_keys_configuration_errors_witness :
  (exists e,
     fst (CryptoFactory.GetFileEncryptionProperties IsWhitespace_arrow unit nat
            Examples.toy_RandBytes Examples.toy_GetEncryptionKeyMetadata tt
            (Some (Examples.config "k1: a, b; k2: c, a" false 128%Z)) 0%nat) = Throw e /\
     CryptoFactory.ConfigError e) /\
  CryptoFactory.GetFileEncryptionProperties IsWhitespace_arrow unit nat
    Examples.toy_RandBytes Examples.toy_GetEncryptionKeyMetadata tt
    (Some (Examples.config "k1: a" true 128%Z)) 0%nat =
  (Throw (ParquetException "Cannot set both column_keys and uniform_encryption"), 0%nat).
Proof.
  split.
  - destruct (C6_column_keys_configuration_errors IsWhitespace_arrow unit nat
                Examples.toy_RandBytes Examples.toy_GetEncryptionKeyMetadata tt
                (Examples.config "k1: a, b; k2: c, a" false 128%Z) 16%Z Examples.toy_key_wrapper
                0%nat) as (Hill & _ & _).
    destruct Hill as (_ & Hfile).
    + left. exists "a", "k1", "k2". split; [discriminate |].
      split.
      * exists "k1: a, b", "k1", " a, b".
        repeat split; try (vm_compute; reflexivity); apply list_elem_of_In; vm_compute; tauto.
      * exists " k2: c, a", "k2", " c, a".
        repeat split; try (vm_compute; reflexivity); apply list_elem_of_In; vm_compute; tauto.
    + destruct (Hfile eq_refl) as (e & He & Hraised). exists e. split; [exact He |].
      destruct Hraised as [Hconfig | (kw & key & id & is_footer & w0 & Hthrow)];
        [exact Hconfig | discriminate Hthrow].
  - destruct (C6_column_keys_configuration_errors IsWhitespace_arrow unit nat
                Examples.toy_RandBytes Examples.toy_GetEncryptionKeyMetadata tt
                (Examples.config "k1: a" true 128%Z) 16%Z Examples.toy_key_wrapper
                0%nat) as (_ & _ & Hboth).
    apply Hboth; [reflexivity | discriminate].
Defined.


(** ** Key lengths *)

Section KeyLengthFacts.

Import Encryption InternalFileEncryptor.

Lemma int32_small (z : Z) : (0 <= z < 2 ^ 31)%Z -> Mem.int32 z = z.
Proof. intros H. unfold Mem.int32. rewrite Z.mod_small; lia. Qed.

(** [GetMetaAesEncryptor] decides on the key size converted to [int]. *)
Lemma GetMetaAesEncryptor_Ok (e : InternalFileEncryptor) (algorithm : ParquetCipher)
    (key_size : Z) :
  is_Ok (snd (GetMetaAesEncryptor e algorithm key_size)) =
  bool_decide (Mem.int32 key_size ∈ [16; 24; 32]%Z).
Proof.
  unfold GetMetaAesEncryptor.
  destruct (Z.eqb_spec (Mem.int32 key_size) 16) as [-> | H16]; [reflexivity |].
  destruct (Z.eqb_spec (Mem.int32 key_size) 24) as [-> | H24]; [reflexivity |].
  destruct (Z.eqb_spec (Mem.int32 key_size) 32) as [-> | H32]; [reflexivity |].
  cbn [snd is_Ok]. symmetry. apply bool_decide_eq_false.
  rewrite !elem_of_cons, elem_of_nil. tauto.
Qed.

(** For a key size an [int] holds, the key lengths other than 16, 24 and 32
    are refused, by the metadata and by the data encryptor. *)
Lemma GetMetaAesEncryptor_rejects (e : InternalFileEncryptor) (algorithm : ParquetCipher)
    (key_size : Z) :
  (0 <= key_size < 2 ^ 31)%Z -> key_size ∉ [16; 24; 32]%Z ->
  GetMetaAesEncryptor e algorithm key_size =
    (e, Throw (ParquetException "encryption key must be 16, 24 or 32 bytes in length")) /\
  GetDataAesEncryptor e algorithm key_size =
    (e, Throw (ParquetException "encryption key must be 16, 24 or 32 bytes in length")).
Proof.
  intros Hrange Hother. unfold GetMetaAesEncryptor, GetDataAesEncryptor.
  rewrite int32_small by assumption.
  rewrite !elem_of_cons, elem_of_nil in Hother.
  destruct (Z.eqb_spec key_size 16); [tauto |].
  destruct (Z.eqb_spec key_size 24); [tauto |].
  destruct (Z.eqb_spec key_size 32); [tauto |].
  split; reflexivity.
Qed.

End KeyLengthFacts.

(** C7 at its failing input: a key of [2^32 + 16] bytes.  The conversion of
    the [size_t] to [int] keeps the low 32 bits, so the size reads as 16 and
    [GetMetaAesEncryptor] hands out an AES-128 encryptor instead of throwing. *)
Theorem C7_key_size_is_truncated_to_int (algorithm : Encryption.ParquetCipher) :
  snd (InternalFileEncryptor.GetMetaAesEncryptor Examples.no_encryptors algorithm
         (2 ^ 32 + 16)%Z) =
  Ok (InternalFileEncryptor.mkAesEncryptor algorithm 16 true).
Proof. reflexivity. Qed.

(** The key lengths that fit an [int]: 16, 24 and 32 are the only ones the
    internal file encryptor accepts. *)
Theorem key_length_that_fits_int_is_checked
    (e : InternalFileEncryptor.InternalFileEncryptor) (algorithm : Encryption.ParquetCipher)
    (key_size : Z) :
  (0 <= key_size < 2 ^ 31)%Z ->
  (is_Ok (snd (InternalFileEncryptor.GetMetaAesEncryptor e algorithm key_size)) = true <->
   key_size ∈ [16; 24; 32]%Z).
Proof.
  intros Hrange. rewrite GetMetaAesEncryptor_Ok, int32_small by assumption.
  apply bool_decide_eq_true.
Qed.

Lemma key_length_that_fits_int_is_checked_witness :
  is_Ok (snd (InternalFileEncryptor.GetMetaAesEncryptor Examples.no_encryptors
                Encryption.AES_GCM_V1 33%Z)) = true <-> 33%Z ∈ [16; 24; 32]%Z.
Proof.
  apply (key_length_that_fits_int_is_checked Examples.no_encryptors Encryption.AES_GCM_V1 33%Z).
  lia.
Defined.

(** The data key length of a configuration: every value other than 128, 192
    and 256 makes [GetFileEncryptionProperties] throw a configuration error. *)
Theorem data_key_length_bits_is_checked
    (IsWhitespace : ascii -> bool) (KmsConnectionConfig World : Type)
    (RandBytes : nat -> World -> string * World)
    (GetEncryptionKeyMetadata :
       CryptoFactory.FileKeyWrapper KmsConnectionConfig -> string -> string -> bool -> World ->
       Result string * World)
    (kms : KmsConnectionConfig) (cfg : CryptoFactory.EncryptionConfiguration) (w : World) :
  CryptoFactory.data_key_length_bits cfg ∉ [128; 192; 256]%Z ->
  exists e,
    CryptoFactory.GetFileEncryptionProperties IsWhitespace KmsConnectionConfig World RandBytes
      GetEncryptionKeyMetadata kms (Some cfg) w = (Throw e, w) /\
    CryptoFactory.ConfigError e.
Proof. apply GFEP_wrong_key_length. Qed.

Lemma data_key_length_bits_is_checked_witness :
  exists e,
    CryptoFactory.GetFileEncryptionProperties IsWhitespace_arrow unit nat
      Examples.toy_RandBytes Examples.toy_GetEncryptionKeyMetadata tt
      (Some (Examples.config "" true 120%Z)) 0%nat = (Throw e, 0%nat) /\
    CryptoFactory.ConfigError e.
Proof.
  apply (data_key_length_bits_is_checked IsWhitespace_arrow unit nat Examples.toy_RandBytes
           Examples.toy_GetEncryptionKeyMetadata tt (Examples.config "" true 120%Z) 0%nat).
  vm_compute. intros H. apply list_elem_of_In in H. vm_compute in H. intuition discriminate.
Defined.

(** ** Column-chunk metadata: what [WriteTo] leaves in the chunk *)

Section WriteToFacts.

Import Encryption Metadata.

Variable SerializeColumnMetaData : format.ColumnMetaData -> string.
Variable SerializeColumnChunk : format.ColumnChunk -> string.
Variable Encrypt : EncryptionProperties -> bool -> string -> string.

(** A plaintext footer: the chunk gets the encrypted blob and a redacted
    [meta_data], without the flags of [statistics] and [encoding_stats]. *)
Lemma WriteTo_plaintext_footer (chunk : format.ColumnChunk) (metadata : format.ColumnMetaData)
    (path : ColumnPath) (encrypt_md : ColumnEncryptionProperties)
    (encrypt_props : EncryptionProperties) :
  isEncrypted encrypt_md = true ->
  exists b' bytes,
    WriteTo SerializeColumnMetaData SerializeColumnChunk Encrypt
      (mkColumnChunkMetaDataBuilder chunk metadata path (Some encrypt_md) None)
      (Some encrypt_props) = Ok (b', bytes) /\
    bytes = SerializeColumnChunk (column_chunk_ b') /\
    format.isset_encrypted_column_metadata (column_chunk_ b') = true /\
    format.encrypted_column_metadata (column_chunk_ b') =
      Encrypt encrypt_props true (SerializeColumnMetaData metadata) /\
    format.isset_meta_data (column_chunk_ b') = true /\
    format.meta_data (column_chunk_ b') =
      format.set_isset_encoding_stats false (format.set_isset_statistics false metadata).
Proof.
  intros Henc. unfold WriteTo. cbn. rewrite Henc. cbn.
  do 2 eexists. split; [reflexivity |]. cbn.
  repeat split.
  destruct metadata as [? ? ? ? ? ? ? ? ? ? ? ? ? ? [] []]; reflexivity.
Qed.

(** An encrypted footer and a column with its own key: the chunk gets the
    encrypted blob, its [meta_data] flag is set all the same, and the field
    written under it is the one the chunk had before. *)
Lemma WriteTo_encrypted_footer (chunk : format.ColumnChunk) (metadata : format.ColumnMetaData)
    (path : ColumnPath) (column_name key key_metadata : string)
    (footer_encryption encrypt_props : EncryptionProperties) :
  exists b' bytes,
    WriteTo SerializeColumnMetaData SerializeColumnChunk Encrypt
      (mkColumnChunkMetaDataBuilder chunk metadata path
         (Some (mkColumnEncryptionProperties column_name true false key key_metadata))
         (Some footer_encryption))
      (Some encrypt_props) = Ok (b', bytes) /\
    bytes = SerializeColumnChunk (column_chunk_ b') /\
    format.isset_encrypted_column_metadata (column_chunk_ b') = true /\
    format.isset_meta_data (column_chunk_ b') = true /\
    format.meta_data (column_chunk_ b') = format.meta_data chunk.
Proof.
  unfold WriteTo. cbn. do 2 eexists. split; [reflexivity |]. cbn. repeat split.
Qed.

End WriteToFacts.

(** C8 at its failing input: the footer is encrypted and the column has its
    own key.  [WriteTo] writes the [encrypted_column_metadata] blob and, under
    the comment "don't set meta_data", sets [__isset.meta_data]: the chunk it
    serializes carries a [meta_data] field, holding what the chunk's field
    held before (not the redacted metadata), instead of omitting it. *)
Theorem C8_encrypted_footer_keeps_meta_data_flag
    (SerializeColumnMetaData : format.ColumnMetaData -> string)
    (SerializeColumnChunk : format.ColumnChunk -> string)
    (Encrypt : Encryption.EncryptionProperties -> bool -> string -> string)
    (chunk : format.ColumnChunk) (metadata : format.ColumnMetaData)
    (path : Encryption.ColumnPath) (column_name key key_metadata : string)
    (footer_encryption encrypt_props : Encryption.EncryptionProperties) :
  exists b' bytes,
    Metadata.WriteTo SerializeColumnMetaData SerializeColumnChunk Encrypt
      (Metadata.mkColumnChunkMetaDataBuilder chunk metadata path
         (Some (Encryption.mkColumnEncryptionProperties column_name true false key key_metadata))
         (Some footer_encryption))
      (Some encrypt_props) = Ok (b', bytes) /\
    bytes = SerializeColumnChunk (Metadata.column_chunk_ b') /\
    format.isset_encrypted_column_metadata (Metadata.column_chunk_ b') = true /\
    format.isset_meta_data (Metadata.column_chunk_ b') = true /\
    format.meta_data (Metadata.column_chunk_ b') = format.meta_data chunk.
Proof. apply WriteTo_encrypted_footer. Qed.

(** With a plaintext footer, a chunk written with an
    [encrypted_column_metadata] blob also carries a redacted [meta_data]:
    the column metadata without the flags of [statistics] and
    [encoding_stats]. *)
Theorem plaintext_footer_keeps_redacted_meta_data
    (SerializeColumnMetaData : format.ColumnMetaData -> string)
    (SerializeColumnChunk : format.ColumnChunk -> string)
    (Encrypt : Encryption.EncryptionProperties -> bool -> string -> string)
    (chunk : format.ColumnChunk) (metadata : format.ColumnMetaData)
    (path : Encryption.ColumnPath) (column_name key key_metadata : string)
    (with_footer_key : bool) (encrypt_props : Encryption.EncryptionProperties) :
  exists b' bytes,
    Metadata.WriteTo SerializeColumnMetaData SerializeColumnChunk Encrypt
      (Metadata.mkColumnChunkMetaDataBuilder chunk metadata path
         (Some (Encryption.mkColumnEncryptionProperties column_name true with_footer_key key
                  key_metadata))
         None)
      (Some encrypt_props) = Ok (b', bytes) /\
    bytes = SerializeColumnChunk (Metadata.column_chunk_ b') /\
    format.isset_encrypted_column_metadata (Metadata.column_chunk_ b') = true /\
    format.isset_meta_data (Metadata.column_chunk_ b') = true /\
    format.isset_statistics (format.meta_data (Metadata.column_chunk_ b')) = false /\
    format.isset_encoding_stats (format.meta_data (Metadata.column_chunk_ b')) = false /\
    format.meta_data (Metadata.column_chunk_ b') =
      format.set_isset_encoding_stats false (format.set_isset_statistics false metadata).
Proof.
  destruct (WriteTo_plaintext_footer SerializeColumnMetaData SerializeColumnChunk Encrypt
              chunk metadata path
              (Encryption.mkColumnEncryptionProperties column_name true with_footer_key key
                 key_metadata) encrypt_props eq_refl)
    as (b' & bytes & Hw & Hb & Hblob & _ & Hflag & Hmeta).
  exists b', bytes. rewrite Hmeta. repeat split; assumption.
Qed.

(** ** Buffers *)

Section MemFacts.

Lemma take_length (n : nat) (s : string) :
  String.length (take n s) = Nat.min n (String.length s).
Proof.
  revert s. induction n as [|n IH]; intros [|c s]; cbn; try reflexivity.
  now rewrite IH.
Qed.

Lemma take_all (n : nat) (s : string) : (String.length s <= n)%nat -> take n s = s.
Proof.
  revert s. induction n as [|n IH]; intros [|c s]; cbn; try reflexivity; try lia.
  intros H. rewrite IH; [reflexivity | lia].
Qed.

Lemma drop_drop (n m : nat) (s : string) : drop n (drop m s) = drop (m + n) s.
Proof.
  revert s. induction m as [|m IH]; intros s; [reflexivity |].
  destruct s as [|c s]; cbn; [now destruct n | apply IH].
Qed.

Lemma size_nonneg (s : string) : (0 <= Mem.size s)%Z.
Proof. unfold Mem.size. lia. Qed.

Lemma size_drop (n : nat) (s : string) :
  Mem.size (drop n s) = Z.max 0 (Mem.size s - Z.of_nat n).
Proof. unfold Mem.size. rewrite drop_length. lia. Qed.

Lemma size_take (n : nat) (s : string) :
  Mem.size (take n s) = Z.min (Z.of_nat n) (Mem.size s).
Proof. unfold Mem.size. rewrite take_length. lia. Qed.

(** A read inside the file gets all its bytes. *)
Lemma ReadAt_inside (pos n : Z) (source : string) :
  (0 <= pos)%Z -> (0 <= n)%Z -> (pos + n <= Mem.size source)%Z ->
  Mem.ReadAt pos n source = take (Z.to_nat n) (drop (Z.to_nat pos) source) /\
  Mem.size (Mem.ReadAt pos n source) = n.
Proof.
  intros Hpos Hn Hend. unfold Mem.ReadAt.
  destruct (Z.leb_spec 0 pos); [| lia].
  destruct (Z.leb_spec pos (Mem.size source)); [| lia].
  cbn [andb]. split; [reflexivity |].
  rewrite size_take, size_drop. lia.
Qed.

(** The last [n] bytes of the file, read as [ParseMetaData] reads its footer
    buffer. *)
Lemma ReadAt_tail (n : Z) (source : string) :
  (0 <= n <= Mem.size source)%Z ->
  Mem.ReadAt (Mem.size source - n) n source = drop (Z.to_nat (Mem.size source - n)) source.
Proof.
  intros H. destruct (ReadAt_inside (Mem.size source - n) n source) as [-> _]; try lia.
  apply take_all. pose proof (size_drop (Z.to_nat (Mem.size source - n)) source) as Hs.
  unfold Mem.size in *. lia.
Qed.

End MemFacts.

(** ** File reader: the footer *)

Section ReaderFacts.

Import Encryption Metadata FileReader.

Variable SerializeFileMetaData : format.FileMetaData -> string.
Variable SignedFooterEncrypt : string -> string -> string -> string -> string.
Variable createFooterAAD : string -> string.
Variable FileMetaData_Make : string -> option EncryptionProperties -> Result (FileMetaData * Z).
Variable FileCryptoMetaData_Make : string -> Result (FileCryptoMetaData * Z).

#[local] Abbreviation ParseMetaData' :=
  (ParseMetaData SerializeFileMetaData SignedFooterEncrypt createFooterAAD FileMetaData_Make
     FileCryptoMetaData_Make).

Lemma footer_length_range (source : string) : (0 <= footer_length source < 2 ^ 32)%Z.
Proof.
  unfold footer_length, Mem.load_uint32.
  destruct (drop _ source) as [|b0 [|b1 [|b2 [|b3 ?]]]]; try lia.
  pose proof (nat_ascii_bounded b0). pose proof (nat_ascii_bounded b1).
  pose proof (nat_ascii_bounded b2). pose proof (nat_ascii_bounded b3).
  lia.
Qed.

Section Layout.

Variable magic source : string.
Hypothesis Hlayout : ends_with magic source.

#[local] Abbreviation file_size := (Mem.size source).
#[local] Abbreviation footer_read_size := (Z.min (Mem.size source) DEFAULT_FOOTER_READ_SIZE).
#[local] Abbreviation footer_buffer :=
  (Mem.ReadAt (Mem.size source - Z.min (Mem.size source) DEFAULT_FOOTER_READ_SIZE)
     (Z.min (Mem.size source) DEFAULT_FOOTER_READ_SIZE) source).

Lemma ends_with_size : (FOOTER_SIZE <= file_size)%Z.
Proof.
  destruct Hlayout as (_ & H & _). pose proof (footer_length_range source). lia.
Qed.

Lemma footer_buffer_eq :
  footer_buffer = drop (Z.to_nat (file_size - footer_read_size)) source.
Proof.
  pose proof ends_with_size. unfold FOOTER_SIZE, DEFAULT_FOOTER_READ_SIZE in *.
  apply ReadAt_tail. lia.
Qed.

Lemma footer_buffer_size : Mem.size footer_buffer = footer_read_size.
Proof.
  pose proof ends_with_size. rewrite footer_buffer_eq, size_drop.
  unfold FOOTER_SIZE, DEFAULT_FOOTER_READ_SIZE in *. lia.
Qed.

Lemma footer_buffer_magic :
  drop (Z.to_nat (footer_read_size - 4)) footer_buffer = magic.
Proof.
  pose proof ends_with_size. rewrite footer_buffer_eq, drop_drop.
  destruct Hlayout as (<- & _). unfold Mem.last_bytes. f_equal.
  unfold FOOTER_SIZE, DEFAULT_FOOTER_READ_SIZE, Mem.size in *. lia.
Qed.

Lemma footer_buffer_length :
  Mem.load_uint32 (drop (Z.to_nat (footer_read_size - FOOTER_SIZE)) footer_buffer) =
  footer_length source.
Proof.
  pose proof ends_with_size. rewrite footer_buffer_eq, drop_drop.
  unfold footer_length. do 2 f_equal.
  unfold FOOTER_SIZE, DEFAULT_FOOTER_READ_SIZE in *. lia.
Qed.

(** The metadata buffer is [footer_bytes], whichever way it is read. *)
Lemma read_metadata_buffer_footer_bytes :
  read_metadata_buffer source footer_buffer file_size footer_read_size (footer_length source) =
  Ok (footer_bytes source).
Proof.
  pose proof ends_with_size as Hsize. pose proof (footer_length_range source) as Hrange.
  destruct Hlayout as (_ & Hfit & Hno_wrap).
  unfold read_metadata_buffer, footer_bytes.
  replace (Mem.uint32 (footer_length source + FOOTER_SIZE))
    with (footer_length source + FOOTER_SIZE)%Z
    by (unfold Mem.uint32; rewrite Z.mod_small; unfold FOOTER_SIZE in *; lia).
  destruct (Z.leb_spec (footer_length source + FOOTER_SIZE) footer_read_size).
  - unfold Mem.slice. rewrite footer_buffer_size.
    destruct (Z.leb_spec 0 (footer_read_size - footer_length source - FOOTER_SIZE));
      [| unfold FOOTER_SIZE, DEFAULT_FOOTER_READ_SIZE in *; lia].
    destruct (Z.leb_spec 0 (footer_length source)); [| lia].
    destruct (Z.leb_spec
                (footer_read_size - footer_length source - FOOTER_SIZE + footer_length source)
                footer_read_size);
      [| unfold FOOTER_SIZE, DEFAULT_FOOTER_READ_SIZE in *; lia].
    cbn [andb]. rewrite footer_buffer_eq, drop_drop. do 3 f_equal.
    unfold FOOTER_SIZE, DEFAULT_FOOTER_READ_SIZE in *. lia.
  - destruct (ReadAt_inside (file_size - FOOTER_SIZE - footer_length source)
                (footer_length source) source) as [Hbytes Hread];
      try (unfold FOOTER_SIZE, DEFAULT_FOOTER_READ_SIZE in *; lia).
    rewrite Hread, Z.eqb_refl. cbn [negb]. now rewrite Hbytes.
Qed.

End Layout.

End ReaderFacts.

Section FooterFacts.

Import Encryption Metadata FileReader.

Variable SerializeFileMetaData : format.FileMetaData -> string.
Variable SignedFooterEncrypt : string -> string -> string -> string -> string.
Variable createFooterAAD : string -> string.
Variable FileMetaData_Make : string -> option EncryptionProperties -> Result (FileMetaData * Z).
Variable FileCryptoMetaData_Make : string -> Result (FileCryptoMetaData * Z).

#[local] Abbreviation ParseMetaData' :=
  (ParseMetaData SerializeFileMetaData SignedFooterEncrypt createFooterAAD FileMetaData_Make
     FileCryptoMetaData_Make).

(** [memcmp] on buffers that hold the [n] bytes compares their first [n]
    bytes. *)
Lemma memcmp_eqb (n : nat) : forall s1 s2 : string,
  (n <= String.length s1)%nat -> (n <= String.length s2)%nat ->
  exists r, Mem.memcmp s1 s2 n = Some r /\ (r =? 0)%Z = String.eqb (take n s1) (take n s2).
Proof.
  induction n as [|n IH]; intros s1 s2 H1 H2.
  - exists 0%Z. split; reflexivity.
  - destruct s1 as [|a s1]; [cbn in H1; lia |]. destruct s2 as [|b s2]; [cbn in H2; lia |].
    cbn [Mem.memcmp take String.eqb].
    destruct (Ascii.eqb_spec a b) as [-> | Hab].
    + apply IH; cbn in *; lia.
    + eexists. split; [reflexivity |].
      apply Z.eqb_neq. intros Heq. apply Hab.
      rewrite <- (ascii_nat_embedding a), <- (ascii_nat_embedding b). f_equal. lia.
Qed.

(** [verify] compares the last 16 bytes of the re-encrypted footer with the
    16 bytes after the nonce. *)
Lemma verify_tag (m : FileMetaData) (encryption : EncryptionProperties) (tail : string)
    (tail_len : Z) :
  (28 <= String.length tail)%nat ->
  (16 <= String.length
           (SignedFooterEncrypt (SerializeFileMetaData (metadata_ m)) (key_bytes encryption)
              (aad_bytes encryption) (take 12 tail)))%nat ->
  verify SerializeFileMetaData SignedFooterEncrypt m encryption tail tail_len =
  Ok (String.eqb
        (Mem.last_bytes 16
           (SignedFooterEncrypt (SerializeFileMetaData (metadata_ m)) (key_bytes encryption)
              (aad_bytes encryption) (take 12 tail)))
        (take 16 (drop 12 tail))).
Proof.
  intros Htail Henc. unfold verify.
  set (buffer := SignedFooterEncrypt _ _ _ _) in *.
  destruct (memcmp_eqb 16 (Mem.last_bytes 16 buffer) (drop 12 tail)) as (r & -> & ->).
  - unfold Mem.last_bytes. rewrite drop_length. lia.
  - rewrite drop_length. lia.
  - f_equal. f_equal. apply take_all. unfold Mem.last_bytes. rewrite drop_length. lia.
Qed.

(** The two branches of [ParseMetaData]. *)
Lemma ParseMetaData_PAR1 (f : SerializedFile) :
  ends_with PARQUET_MAGIC (source_ f) ->
  ParseMetaData' f =
  ParseMetaData_plaintext_footer SerializeFileMetaData SignedFooterEncrypt createFooterAAD
    FileMetaData_Make f
    (Mem.ReadAt (Mem.size (source_ f) - Z.min (Mem.size (source_ f)) DEFAULT_FOOTER_READ_SIZE)
       (Z.min (Mem.size (source_ f)) DEFAULT_FOOTER_READ_SIZE) (source_ f))
    (Mem.size (source_ f)) (Z.min (Mem.size (source_ f)) DEFAULT_FOOTER_READ_SIZE).
Proof.
  intros H. unfold ParseMetaData.
  pose proof (ends_with_size _ _ H) as Hsize.
  destruct (Z.ltb_spec (Mem.size (source_ f)) FOOTER_SIZE); [lia |].
  rewrite (footer_buffer_size _ _ H), Z.eqb_refl, (footer_buffer_magic _ _ H).
  reflexivity.
Qed.

Lemma ParseMetaData_PARE (f : SerializedFile) :
  ends_with PARQUET_EMAGIC (source_ f) ->
  ParseMetaData' f =
  ParseMetaData_encrypted_footer createFooterAAD FileMetaData_Make FileCryptoMetaData_Make f
    (Mem.ReadAt (Mem.size (source_ f) - Z.min (Mem.size (source_ f)) DEFAULT_FOOTER_READ_SIZE)
       (Z.min (Mem.size (source_ f)) DEFAULT_FOOTER_READ_SIZE) (source_ f))
    (Mem.size (source_ f)) (Z.min (Mem.size (source_ f)) DEFAULT_FOOTER_READ_SIZE).
Proof.
  intros H. unfold ParseMetaData.
  pose proof (ends_with_size _ _ H) as Hsize.
  destruct (Z.ltb_spec (Mem.size (source_ f)) FOOTER_SIZE); [lia |].
  rewrite (footer_buffer_size _ _ H), Z.eqb_refl, (footer_buffer_magic _ _ H).
  reflexivity.
Qed.

Lemma footer_fits (magic source : string) :
  ends_with magic source ->
  (Mem.size source <? Mem.uint32 (FOOTER_SIZE + footer_length source))%Z = false.
Proof.
  intros (_ & Hfit & Hno_wrap). pose proof (footer_length_range source).
  unfold Mem.uint32. rewrite Z.mod_small by (unfold FOOTER_SIZE in *; lia).
  apply Z.ltb_ge. lia.
Qed.


(** The plaintext footer with the integrity check on: a trailer that is not
    28 bytes long is refused. *)
Lemma ParseMetaData_trailer_length (f : SerializedFile) (fm : FileMetaData) (read_len : Z)
    (fd : FileDecryptionProperties) :
  ends_with PARQUET_MAGIC (source_ f) ->
  FileMetaData_Make (footer_bytes (source_ f)) None = Ok (fm, read_len) ->
  is_plaintext_mode fm = true ->
  file_decryption (properties_ f) = Some fd ->
  checkFooterIntegrity fd = true ->
  (0 <= read_len <= footer_length (source_ f))%Z ->
  (footer_length (source_ f) - read_len <> 28)%Z ->
  exists e,
    ParseMetaData' f = Throw e /\
    (is_Ok (check_algorithm_and_aad (encryption_algorithm fm) fd) = true ->
     e = ParquetException "Invalid parquet file. Cannot verify plaintextmode footer.").
Proof.
  intros Hlayout Hmake Hmode Hfd Hcheck Hread Htrailer.
  rewrite (ParseMetaData_PAR1 f Hlayout). unfold ParseMetaData_plaintext_footer.
  rewrite (footer_buffer_length _ _ Hlayout), (footer_fits _ _ Hlayout),
    (read_metadata_buffer_footer_bytes _ _ Hlayout).
  cbn [mbind Result_bind]. rewrite Hmake. cbn [mbind Result_bind].
  rewrite Hmode, Hfd.
  destruct (check_algorithm_and_aad (encryption_algorithm fm) fd) as [aad | e] eqn:Haad;
    cbn [mbind Result_bind].
  - rewrite Hcheck.
    pose proof (footer_length_range (source_ f)) as Hrange.
    replace (Mem.uint32 (footer_length (source_ f) - read_len) =? 28)%Z with false.
    + eexists. split; [reflexivity | reflexivity].
    + symmetry. apply Z.eqb_neq. unfold Mem.uint32. rewrite Z.mod_small; lia.
  - exists e. split; [reflexivity | discriminate].
Qed.


End FooterFacts.

Section ColumnFacts.

Import Encryption Metadata FileReader.

Variable DeserializeColumnMetaData : string -> EncryptionProperties -> Result format.ColumnMetaData.
Variable createModuleAAD : string -> Z -> Z -> Z -> Z -> string.
Variable VersionLt_PARQUET_816_FIXED_VERSION : string -> bool.




End ColumnFacts.

(** C4, as stated, fails on its second half: the length of the trailer is
    only checked when the decryption properties ask for the footer integrity
    check.  [unsigned_plaintext_file] is a plaintext-mode footer of one byte
    with no trailer at all after it (the stored length is 1 and the Thrift
    block takes 1 byte); a reader whose properties turn the check off reads
    its metadata without complaint. *)
Lemma C4_trailer_unchecked_without_integrity_check :
  FileReader.footer_length Examples.unsigned_plaintext_file = 1%Z /\
  Examples.toy_FileMetaData_Make (FileReader.footer_bytes Examples.unsigned_plaintext_file) None =
    Ok (Examples.toy_file_metadata, 1%Z) /\
  Metadata.is_plaintext_mode Examples.toy_file_metadata = true /\
  FileReader.ParseMetaData Examples.toy_SerializeFileMetaData Examples.toy_SignedFooterEncrypt
    Examples.toy_createFooterAAD Examples.toy_FileMetaData_Make
    Examples.toy_FileCryptoMetaData_Make (Examples.reader Examples.unsigned_plaintext_file false) =
  Ok (FileReader.mkSerializedFile Examples.unsigned_plaintext_file
        (Some Examples.toy_file_metadata) None
        (FileReader.mkReaderProperties (Some (Examples.decryption false)) "unique" None)).
Proof. repeat split. Qed.

(** C4, amended: [verify] answers true exactly when the last 16 bytes of the
    re-serialized footer, encrypted with the 12-byte nonce of the trailer,
    equal the 16 bytes that follow the nonce; and a reader whose decryption
    properties ask for the footer integrity check refuses a plaintext-mode
    footer whose trailer after the Thrift block is not 28 bytes long, with
    "Cannot verify plaintext mode footer" when nothing fails before. *)
Theorem C4_signed_footer_verification
    (SerializeFileMetaData : format.FileMetaData -> string)
    (SignedFooterEncrypt : string -> string -> string -> string -> string)
    (createFooterAAD : string -> string)
    (FileMetaData_Make :
       string -> option Encryption.EncryptionProperties -> Result (Metadata.FileMetaData * Z))
    (FileCryptoMetaData_Make : string -> Result (FileReader.FileCryptoMetaData * Z)) :
  (forall (m : Metadata.FileMetaData) (encryption : Encryption.EncryptionProperties)
          (tail : string),
     (28 <= String.length tail)%nat ->
     (16 <= String.length
              (SignedFooterEncrypt (SerializeFileMetaData (Metadata.metadata_ m))
                 (Encryption.key_bytes encryption) (Encryption.aad_bytes encryption)
                 (take 12 tail)))%nat ->
     exists verified,
       Metadata.verify SerializeFileMetaData SignedFooterEncrypt m encryption tail 28 =
         Ok verified /\
       (verified = true <->
        Mem.last_bytes 16
          (SignedFooterEncrypt (SerializeFileMetaData (Metadata.metadata_ m))
             (Encryption.key_bytes encryption) (Encryption.aad_bytes encryption)
             (take 12 tail)) =
        take 16 (drop 12 tail))) /\
  (forall (f : FileReader.SerializedFile) (fm : Metadata.FileMetaData) (read_len : Z)
          (fd : Encryption.FileDecryptionProperties),
     FileReader.ends_with FileReader.PARQUET_MAGIC (FileReader.source_ f) ->
     FileMetaData_Make (FileReader.footer_bytes (FileReader.source_ f)) None =
       Ok (fm, read_len) ->
     Metadata.is_plaintext_mode fm = true ->
     FileReader.file_decryption (FileReader.properties_ f) = Some fd ->
     Encryption.checkFooterIntegrity fd = true ->
     (0 <= read_len <= FileReader.footer_length (FileReader.source_ f))%Z ->
     (FileReader.footer_length (FileReader.source_ f) - read_len <> 28)%Z ->
     exists e,
       FileReader.ParseMetaData SerializeFileMetaData SignedFooterEncrypt createFooterAAD
         FileMetaData_Make FileCryptoMetaData_Make f = Throw e /\
       (is_Ok (FileReader.check_algorithm_and_aad (Metadata.encryption_algorithm fm) fd) = true ->
        e = ParquetException "Invalid parquet file. Cannot verify plaintextmode footer.")).
Proof.
  split.
  - intros m encryption tail Htail Henc.
    rewrite (verify_tag _ _ m encryption tail 28 Htail Henc).
    eexists. split; [reflexivity |]. apply String.eqb_eq.
  - intros f fm read_len fd. apply ParseMetaData_trailer_length.
Qed.

Lemma C4_signed_footer_verification_witness :
  Metadata.verify Examples.toy_SerializeFileMetaData Examples.toy_SignedFooterEncrypt
    Examples.toy_file_metadata Examples.footer_signing Examples.signed_trailer 28 = Ok true /\
  FileReader.ParseMetaData Examples.toy_SerializeFileMetaData Examples.toy_SignedFooterEncrypt
    Examples.toy_createFooterAAD Examples.toy_FileMetaData_Make
    Examples.toy_FileCryptoMetaData_Make
    (Examples.reader Examples.unsigned_plaintext_file true) =
  Throw (ParquetException "Invalid parquet file. Cannot verify plaintextmode footer.").
Proof.
  destruct (C4_signed_footer_verification Examples.toy_SerializeFileMetaData
              Examples.toy_SignedFooterEncrypt Examples.toy_createFooterAAD
              Examples.toy_FileMetaData_Make Examples.toy_FileCryptoMetaData_Make)
    as (Hverify & Hreader).
  split.
  - destruct (Hverify Examples.toy_file_metadata Examples.footer_signing
                Examples.signed_trailer) as (verified & Hrun & Htag).
    + vm_compute. lia.
    + vm_compute. lia.
    + rewrite Hrun. f_equal. apply Htag. reflexivity.
  - destruct (Hreader (Examples.reader Examples.unsigned_plaintext_file true)
                Examples.toy_file_metadata 1%Z (Examples.decryption true))
      as (e & Hrun & Hmessage).
    + repeat split; vm_compute; congruence.
    + reflexivity.
    + reflexivity.
    + reflexivity.
    + reflexivity.
    + vm_compute. split; congruence.
    + vm_compute. congruence.
    + rewrite Hrun. f_equal. apply Hmessage. reflexivity.
Defined.



(** * Further properties of the sources *)

(** ** [SplitString] *)

Section SplitFacts.

Lemma split_parts_no_delim (v : string) (d : ascii) :
  forall part, part ∈ split v d -> find part d = None.
Proof.
  induction v as [|c v IH]; simpl; intros part Hin.
  - apply list_elem_of_singleton in Hin. now subst.
  - destruct (Ascii.eqb c d) eqn:Hc.
    + apply elem_of_cons in Hin as [-> | Hin]; [reflexivity | now apply IH].
    + destruct (split v d) as [|p ps] eqn:E; [now apply split_nonempty in E |].
      apply elem_of_cons in Hin as [-> | Hin].
      * simpl. rewrite Hc. rewrite (IH p) by (apply elem_of_cons; now left). reflexivity.
      * apply IH. apply elem_of_cons; now right.
Qed.

End SplitFacts.

(** [SplitString] is determined by two equations: a string without the
    delimiter is its only part, and the parts of [a], a delimiter and [b] are
    the parts of [a] followed by those of [b].  It never returns an empty
    vector, and no part holds a delimiter. *)
Theorem SplitString_parts (delim : ascii) :
  (forall a b : string,
     SplitString (a +:+ String delim b) delim =
     (SplitString a delim ++ SplitString b delim)%list) /\
  (forall v : string, find v delim = None -> SplitString v delim = [v]) /\
  (forall v : string, SplitString v delim <> []) /\
  (forall v part : string, part ∈ SplitString v delim -> find part delim = None).
Proof.
  repeat split.
  - intros a b. rewrite !SplitString_split. apply split_app.
  - intros v Hv. rewrite SplitString_split. now apply split_no_delim.
  - intros v. rewrite SplitString_split. apply split_nonempty.
  - intros v part. rewrite SplitString_split. apply split_parts_no_delim.
Qed.

Lemma SplitString_parts_witness :
  SplitString "k1:a" ":" = ["k1"; "a"] /\ find "k1" ":" = None.
Proof.
  destruct (SplitString_parts ":") as (Happ & Hone & _ & Hparts).
  split.
  - change "k1:a" with ("k1" +:+ String ":" "a").
    rewrite Happ, !Hone by reflexivity. reflexivity.
  - apply (Hparts "k1:a"). vm_compute. apply elem_of_cons. now left.
Defined.

(** ** Key material and key metadata *)

(** What [Parse] reads from a serialized key material is a fixed point of the
    round trip: serialized again, with or without the [internalStorage]
    member, it parses to itself. *)
Theorem KeyMaterial_second_roundtrip_is_exact
    (x y : KeyMaterial.KeyMaterial) (is_internal_storage again : bool) :
  KeyMaterial.Parse (KeyMaterial.serialize x is_internal_storage) = Ok y ->
  KeyMaterial.Parse (KeyMaterial.serialize y again) = Ok y.
Proof.
  rewrite !Parse_serialize_kept. intros [= <-]. f_equal.
  unfold KeyMaterial.kept. cbn.
  destruct (KeyMaterial.is_footer_key x), (KeyMaterial.is_double_wrapped x);
    now rewrite ?c_str_idempotent.
Qed.

Lemma KeyMaterial_second_roundtrip_is_exact_witness :
  KeyMaterial.Parse
    (KeyMaterial.serialize
       (KeyMaterial.mkKeyMaterial false EmptyString EmptyString "k1" false
          EmptyString EmptyString "AAECAwQFBgc=") false) =
  Ok (KeyMaterial.mkKeyMaterial false EmptyString EmptyString "k1" false
        EmptyString EmptyString "AAECAwQFBgc=").
Proof.
  apply (KeyMaterial_second_roundtrip_is_exact Examples.column_key_material _ true false).
  rewrite Parse_serialize_kept. reflexivity.
Defined.

(** The key metadata [CreateSerializedForExternalMaterial] writes is a JSON
    document that reads back as the object it was written from: the material
    type, [internalStorage] false, and the key reference up to its first NUL
    character. *)
Theorem CreateSerializedForExternalMaterial_reads_back (key_reference : string) :
  rapidjson.Parse (c_str (KeyMetadata.CreateSerializedForExternalMaterial key_reference)) =
  Some (rapidjson.kObject
          [("keyMaterialType", rapidjson.kString "PKMT1");
           ("internalStorage", rapidjson.kBool false);
           ("keyReference", rapidjson.kString (c_str key_reference))]).
Proof.
  unfold KeyMetadata.CreateSerializedForExternalMaterial, KeyMetadata.key_metadata_map.
  assert (Hflat : rapidjson.flat
            [(KeyMaterial.KEY_MATERIAL_TYPE_FIELD, rapidjson.kString KeyMaterial.KEY_MATERIAL_TYPE1);
             (KeyMaterial.KEY_MATERIAL_INTERNAL_STORAGE_FIELD, rapidjson.kBool false);
             (KeyMetadata.KEY_REFERENCE_FIELD, rapidjson.kString (c_str key_reference))])
    by (repeat constructor).
  rewrite c_str_Accept_flat by exact Hflat.
  rewrite Parse_Accept_flat by (exact Hflat || discriminate).
  reflexivity.
Qed.

(** ** Two-level cache: removal and cleanup *)

Section CleanupFacts.

Import TwoLevelCache.

Context {V : Type}.

Lemma GetOrCreateInternalCache_fresh (now : TimePoint) (token : string) (ttl : Z)
    (c : TwoLevelCacheWithExpiration V) :
  cache_ c !! token = None -> snd (GetOrCreateInternalCache now token ttl c) = ∅.
Proof. intros H. now rewrite GetOrCreateInternalCache_absent. Qed.

End CleanupFacts.

(** After a token's entries are removed ([RemoveCacheEntriesForToken],
    [RemoveCacheEntriesForAllTokens], or [RemoveExpiredEntriesFromCache] for
    a token whose entry has expired), [GetOrCreateInternalCache] gives a
    fresh empty map for the token.  [RemoveCacheEntriesForToken] leaves the
    entries of the other tokens, and [RemoveExpiredEntriesFromCache] leaves
    every entry that has not expired, which [GetOrCreateInternalCache] then
    still returns. *)
Theorem removal_then_GetOrCreateInternalCache (V : Type) (now : TwoLevelCache.TimePoint)
    (token : string) (ttl : Z) (c : TwoLevelCache.TwoLevelCacheWithExpiration V) :
  snd (TwoLevelCache.GetOrCreateInternalCache now token ttl
         (TwoLevelCache.RemoveCacheEntriesForToken token c)) = ∅ /\
  snd (TwoLevelCache.GetOrCreateInternalCache now token ttl
         (TwoLevelCache.RemoveCacheEntriesForAllTokens c)) = ∅ /\
  (forall other : string, other <> token ->
     TwoLevelCache.cache_ (TwoLevelCache.RemoveCacheEntriesForToken token c) !! other =
     TwoLevelCache.cache_ c !! other) /\
  (forall e, TwoLevelCache.cache_ c !! token = Some e ->
     TwoLevelCache.IsExpired now e = true ->
     snd (TwoLevelCache.GetOrCreateInternalCache now token ttl
            (TwoLevelCache.RemoveExpiredEntriesFromCache now c)) = ∅) /\
  (forall e, TwoLevelCache.cache_ c !! token = Some e ->
     TwoLevelCache.IsExpired now e = false ->
     TwoLevelCache.GetOrCreateInternalCache now token ttl
       (TwoLevelCache.RemoveExpiredEntriesFromCache now c) =
     (TwoLevelCache.RemoveExpiredEntriesFromCache now c, TwoLevelCache.cached_item e)).
Proof.
  repeat split.
  - apply GetOrCreateInternalCache_fresh. cbn. apply lookup_delete_eq.
  - apply GetOrCreateInternalCache_fresh. cbn. apply lookup_empty.
  - intros other Hother. cbn. now apply lookup_delete_ne.
  - intros e He Hexp. apply GetOrCreateInternalCache_fresh. cbn.
    apply map_lookup_filter_None. right. intros e' He'. cbn. congruence.
  - intros e He Hlive. apply GetOrCreateInternalCache_live; [| exact Hlive]. cbn.
    apply map_lookup_filter_Some. split; [exact He | exact Hlive].
Qed.

Lemma removal_then_GetOrCreateInternalCache_witness :
  snd (TwoLevelCache.GetOrCreateInternalCache 2000%Z "token" 600000%Z
         (TwoLevelCache.RemoveExpiredEntriesFromCache 2000%Z Examples.expired_cache)) =
  (∅ : gmap string string).
Proof.
  destruct (removal_then_GetOrCreateInternalCache string 2000%Z "token" 600000%Z
              Examples.expired_cache) as (_ & _ & _ & Hexpired & _).
  apply (Hexpired (TwoLevelCache.mkExpiringCacheEntry {[ "kek1" := "secret" ]} 1000%Z));
    reflexivity.
Defined.

(** [CheckCacheForExpiredTokens] measures the cleanup period as the duration
    [std::chrono::milliseconds(cache_cleanup_period)]: the period itself when
    it is below [2^63], and the negative [cache_cleanup_period - 2^64] from
    [2^63] on.  It leaves the cache alone until that duration has passed since
    the recorded timestamp.  When it cleans up at time [now] it records [now]
    plus the duration, so that no later call cleans up again before twice the
    duration has passed since [now]. *)
Theorem CheckCacheForExpiredTokens_period (V : Type) (now : TwoLevelCache.TimePoint)
    (cache_cleanup_period : Z) (c : TwoLevelCache.TwoLevelCacheWithExpiration V) :
  (0 <= cache_cleanup_period < 2 ^ 64)%Z ->
  ((cache_cleanup_period < 2 ^ 63)%Z ->
   TwoLevelCache.milliseconds cache_cleanup_period = cache_cleanup_period) /\
  ((2 ^ 63 <= cache_cleanup_period)%Z ->
   TwoLevelCache.milliseconds cache_cleanup_period = (cache_cleanup_period - 2 ^ 64)%Z) /\
  ((now <= TwoLevelCache.last_cache_cleanup_timestamp_ c +
           TwoLevelCache.milliseconds cache_cleanup_period)%Z ->
   TwoLevelCache.CheckCacheForExpiredTokens now cache_cleanup_period c = c) /\
  ((TwoLevelCache.last_cache_cleanup_timestamp_ c +
    TwoLevelCache.milliseconds cache_cleanup_period < now)%Z ->
   TwoLevelCache.CheckCacheForExpiredTokens now cache_cleanup_period c =
     TwoLevelCache.mkCache
       (TwoLevelCache.cache_ (TwoLevelCache.RemoveExpiredEntriesFromCache now c))
       (now + TwoLevelCache.milliseconds cache_cleanup_period)%Z /\
   forall later : TwoLevelCache.TimePoint,
     (later <= now + 2 * TwoLevelCache.milliseconds cache_cleanup_period)%Z ->
     TwoLevelCache.CheckCacheForExpiredTokens later cache_cleanup_period
       (TwoLevelCache.CheckCacheForExpiredTokens now cache_cleanup_period c) =
     TwoLevelCache.CheckCacheForExpiredTokens now cache_cleanup_period c).
Proof.
  intros Hrange. unfold TwoLevelCache.CheckCacheForExpiredTokens.
  split; [| split; [| split]].
  - intros H. unfold TwoLevelCache.milliseconds. rewrite Z.mod_small by lia. lia.
  - intros H. unfold TwoLevelCache.milliseconds.
    replace (cache_cleanup_period + 2 ^ 63)%Z
      with (cache_cleanup_period - 2 ^ 63 + 1 * 2 ^ 64)%Z by lia.
    rewrite Z_mod_plus_full, Z.mod_small by lia. lia.
  - generalize (TwoLevelCache.milliseconds cache_cleanup_period). intros d H.
    destruct (Z.ltb_spec (TwoLevelCache.last_cache_cleanup_timestamp_ c + d) now);
      [lia | reflexivity].
  - generalize (TwoLevelCache.milliseconds cache_cleanup_period). intros d H.
    destruct (Z.ltb_spec (TwoLevelCache.last_cache_cleanup_timestamp_ c + d) now); [| lia].
    split; [reflexivity |]. intros later Hlater. cbn.
    destruct (Z.ltb_spec (now + d + d) later); [lia | reflexivity].
Qed.

Lemma CheckCacheForExpiredTokens_period_witness :
  TwoLevelCache.CheckCacheForExpiredTokens 2500%Z 1000%Z
    (TwoLevelCache.CheckCacheForExpiredTokens 1500%Z 1000%Z Examples.expired_cache) =
  TwoLevelCache.CheckCacheForExpiredTokens 1500%Z 1000%Z Examples.expired_cache /\
  TwoLevelCache.CheckCacheForExpiredTokens 0%Z (2 ^ 64 - 1)%Z Examples.expired_cache =
  TwoLevelCache.mkCache
    (TwoLevelCache.cache_ (TwoLevelCache.RemoveExpiredEntriesFromCache 0%Z Examples.expired_cache))
    (-1)%Z.
Proof.
  split.
  - destruct (CheckCacheForExpiredTokens_period string 1500%Z 1000%Z Examples.expired_cache)
      as (_ & _ & _ & Hclean); [lia |].
    destruct Hclean as (_ & Hlater); [vm_compute; reflexivity |].
    apply Hlater. vm_compute. discriminate.
  - destruct (CheckCacheForExpiredTokens_period string 0%Z (2 ^ 64 - 1)%Z Examples.expired_cache)
      as (_ & Hwraps & _ & Hclean); [lia |].
    destruct Hclean as (Hcleaned & _); [vm_compute; reflexivity |].
    rewrite Hcleaned, Hwraps by lia. f_equal.
Defined.

(** ** In-memory KMS: key lists and wrapping *)

Section KeyListFacts.

Import InMemoryKms.

Variable IsWhitespace : ascii -> bool.
Variable base64_decode : string -> string.

#[local] Abbreviation key_name_of entry :=
  (TrimString IsWhitespace (nth 0 (SplitString entry ":") EmptyString)).
#[local] Abbreviation key_bytes_of entry :=
  (base64_decode (TrimString IsWhitespace (nth 1 (SplitString entry ":") EmptyString))).

Lemma ParseKeyList_loop_Ok (master_keys : list string) : forall key_map,
  is_Ok (ParseKeyList_loop IsWhitespace base64_decode master_keys key_map) = true <->
  Forall (fun entry => List.length (SplitString entry ":") = 2%nat) master_keys.
Proof.
  induction master_keys as [|entry rest IH]; intros key_map; cbn [ParseKeyList_loop].
  - split; [constructor | reflexivity].
  - destruct (Nat.eqb_spec (List.length (SplitString entry ":")) 2) as [E | E]; cbn [negb].
    + rewrite IH. split; [now constructor | now inversion 1].
    + split; [discriminate | now inversion 1].
Qed.

Lemma ParseKeyList_loop_lookup (master_keys : list string) : forall key_map m,
  ParseKeyList_loop IsWhitespace base64_decode master_keys key_map = Ok m ->
  forall name,
    m !! name =
    match key_map !! name with
    | Some key => Some key
    | None =>
        (fun entry => key_bytes_of entry) <$>
        List.find (fun entry => String.eqb (key_name_of entry) name) master_keys
    end.
Proof.
  induction master_keys as [|entry rest IH]; intros key_map m; cbn [ParseKeyList_loop].
  - intros [= <-] name. cbn. now destruct (key_map !! name).
  - destruct (Nat.eqb (List.length (SplitString entry ":")) 2); cbn [negb]; [| discriminate].
    intros Hrest name. rewrite (IH _ _ Hrest name). unfold map_insert. cbn [List.find].
    destruct (String.eqb_spec (key_name_of entry) name) as [-> | Hne].
    + destruct (key_map !! _) eqn:Hk; [now rewrite Hk |]. now rewrite lookup_insert_eq.
    + destruct (key_map !! key_name_of entry) eqn:Hk; [reflexivity |].
      now rewrite lookup_insert_ne.
Qed.

End KeyListFacts.

(** [ParseKeyList] accepts a key list exactly when every entry has one
    colon.  In the map it returns, a key name stands for the key of the first
    entry with that name: [std::map::insert] does not replace it. *)
Theorem ParseKeyList_first_entry_wins (IsWhitespace : ascii -> bool)
    (base64_decode : string -> string) (master_keys : list string) :
  (is_Ok (InMemoryKms.ParseKeyList IsWhitespace base64_decode master_keys) = true <->
   Forall (fun entry => List.length (SplitString entry ":") = 2%nat) master_keys) /\
  (forall key_map name,
     InMemoryKms.ParseKeyList IsWhitespace base64_decode master_keys = Ok key_map ->
     key_map !! name =
     (fun entry =>
        base64_decode (TrimString IsWhitespace (nth 1 (SplitString entry ":") EmptyString))) <$>
     List.find
       (fun entry =>
          String.eqb (TrimString IsWhitespace (nth 0 (SplitString entry ":") EmptyString)) name)
       master_keys).
Proof.
  split.
  - apply ParseKeyList_loop_Ok.
  - intros key_map name H.
    now rewrite (ParseKeyList_loop_lookup _ _ _ _ _ H name), lookup_empty.
Qed.

Lemma ParseKeyList_first_entry_wins_witness :
  exists key_map,
    InMemoryKms.ParseKeyList IsWhitespace_arrow Examples.raw_key_bytes
      ["k1: 0123456789012345"; "k2:abc"; " k1 :5432109876543210"] = Ok key_map /\
    key_map !! "k1" = Some "0123456789012345".
Proof.
  eexists. split; [vm_compute; reflexivity |].
  destruct (ParseKeyList_first_entry_wins IsWhitespace_arrow Examples.raw_key_bytes
              ["k1: 0123456789012345"; "k2:abc"; " k1 :5432109876543210"]) as (_ & Hfirst).
  rewrite (Hfirst _ "k1"); [reflexivity | vm_compute; reflexivity].
Defined.

(** A key wrapped before a rotation is still unwrapped after
    [StartKeyRotation], and after [FinishKeyRotation], when the staged key
    list gives its identifier the master key it was wrapped with (and the
    cipher decrypts what it encrypted). *)
Theorem UnwrapKeyInServer_after_rotation_with_same_master_key
    (IsWhitespace : ascii -> bool) (base64_decode : string -> string)
    (EncryptKeyLocally : string -> string -> string -> string)
    (DecryptKeyLocally : string -> string -> string -> Result string)
    (new_master_keys : list string) (st st' : InMemoryKms.state)
    (key_bytes master_key_identifier master_key : string) :
  InMemoryKms.new_master_key_map_ st !! master_key_identifier = Some master_key ->
  InMemoryKms.StartKeyRotation IsWhitespace base64_decode new_master_keys st = Ok st' ->
  InMemoryKms.new_master_key_map_ st' !! master_key_identifier = Some master_key ->
  DecryptKeyLocally (EncryptKeyLocally key_bytes master_key master_key_identifier) master_key
    master_key_identifier = Ok key_bytes ->
  exists wrapped,
    InMemoryKms.WrapKeyInServer EncryptKeyLocally st key_bytes master_key_identifier =
      Ok wrapped /\
    InMemoryKms.UnwrapKeyInServer DecryptKeyLocally st wrapped master_key_identifier =
      Ok key_bytes /\
    InMemoryKms.UnwrapKeyInServer DecryptKeyLocally st' wrapped master_key_identifier =
      Ok key_bytes /\
    InMemoryKms.UnwrapKeyInServer DecryptKeyLocally (InMemoryKms.FinishKeyRotation st') wrapped
      master_key_identifier = Ok key_bytes.
Proof.
  intros Hold _ Hnew Hcipher. eexists.
  unfold InMemoryKms.WrapKeyInServer, InMemoryKms.UnwrapKeyInServer,
    InMemoryKms.FinishKeyRotation.
  cbn. rewrite Hold, Hnew. repeat split; assumption.
Qed.

Lemma UnwrapKeyInServer_after_rotation_with_same_master_key_witness :
  InMemoryKms.UnwrapKeyInServer Examples.toy_DecryptKeyLocally
    (InMemoryKms.mkState {[ "k1" := "0123456789012345" ]}
       {[ "k1" := "0123456789012345"; "k2" := "5432109876543210" ]})
    "0123456789012345/k1/dek-bytes" "k1" = Ok "dek-bytes".
Proof.
  destruct (UnwrapKeyInServer_after_rotation_with_same_master_key IsWhitespace_arrow
              Examples.raw_key_bytes Examples.toy_EncryptKeyLocally
              Examples.toy_DecryptKeyLocally
              ["k2:5432109876543210"; "k1:0123456789012345"]
              (InMemoryKms.mkState {[ "k1" := "0123456789012345" ]}
                 {[ "k1" := "0123456789012345" ]})
              (InMemoryKms.mkState {[ "k1" := "0123456789012345" ]}
                 {[ "k1" := "0123456789012345"; "k2" := "5432109876543210" ]})
              "dek-bytes" "k1" "0123456789012345")
    as (wrapped & Hwrap & _ & Hunwrap & _); [vm_compute; reflexivity .. |].
  injection Hwrap as <-. exact Hunwrap.
Defined.

(** ** Writer versions *)

Section VersionFacts.

Import ApplicationVersion.

Lemma VersionLt_spec (a b : ApplicationVersion) :
  VersionLt a b = true <->
  application_ a = application_ b /\
  ((major (version a) < major (version b)) \/
   (major (version a) = major (version b) /\ minor (version a) < minor (version b)) \/
   (major (version a) = major (version b) /\ minor (version a) = minor (version b) /\
    patch (version a) < patch (version b)))%Z.
Proof.
  unfold VersionLt. rewrite !Z.gtb_ltb.
  destruct (String.eqb_spec (application_ a) (application_ b)) as [E | E]; cbn [negb].
  - destruct (Z.ltb_spec (major (version a)) (major (version b)));
      [split; [intros _; split; [exact E | lia] | reflexivity] |].
    destruct (Z.ltb_spec (major (version b)) (major (version a)));
      [split; [discriminate | intros (_ & H'); lia] |].
    destruct (Z.ltb_spec (minor (version a)) (minor (version b)));
      [split; [intros _; split; [exact E | lia] | reflexivity] |].
    destruct (Z.ltb_spec (minor (version b)) (minor (version a)));
      [split; [discriminate | intros (_ & H'); lia] |].
    destruct (Z.ltb_spec (patch (version a)) (patch (version b)));
      [split; [intros _; split; [exact E | lia] | reflexivity] |].
    split; [discriminate | intros (_ & H'); lia].
  - split; [discriminate | intros (H' & _); contradiction].
Qed.

Lemma VersionLt_false (a b : ApplicationVersion) :
  VersionLt a b = false <-> ~ (VersionLt a b = true).
Proof. destruct (VersionLt a b); split; congruence. Qed.

Lemma VersionEq_spec (a b : ApplicationVersion) :
  VersionEq a b = true <->
  application_ a = application_ b /\ major (version a) = major (version b) /\
  minor (version a) = minor (version b) /\ patch (version a) = patch (version b).
Proof.
  unfold VersionEq. rewrite !andb_true_iff, !Z.eqb_eq, String.eqb_eq. tauto.
Qed.

(** A version before the PARQUET-251 fix is before the fix of the
    statistics of parquet-mr. *)
Lemma before_251_before_fixed_stats (v : ApplicationVersion) :
  VersionLt v PARQUET_251_FIXED_VERSION = true ->
  VersionLt v PARQUET_MR_FIXED_STATS_VERSION = true.
Proof.
  rewrite !VersionLt_spec. cbn. intros (E & H). split; [exact E | lia].
Qed.

End VersionFacts.

(** [VersionLt] is a strict order on the versions of one application, and
    never holds between two applications: it is irreflexive, asymmetric and
    transitive, and of two versions of one application exactly one is before
    the other unless [VersionEq] holds, which looks at the application and the
    three numbers only. *)
Theorem VersionLt_strict_order (a b c : ApplicationVersion.ApplicationVersion) :
  ApplicationVersion.VersionLt a a = false /\
  (ApplicationVersion.VersionLt a b = true -> ApplicationVersion.VersionLt b a = false) /\
  (ApplicationVersion.VersionLt a b = true -> ApplicationVersion.VersionLt b c = true ->
   ApplicationVersion.VersionLt a c = true) /\
  (ApplicationVersion.VersionLt a b = true -> ApplicationVersion.VersionEq a b = false) /\
  (ApplicationVersion.VersionLt a b || ApplicationVersion.VersionEq a b ||
   ApplicationVersion.VersionLt b a =
   String.eqb (ApplicationVersion.application_ a) (ApplicationVersion.application_ b)).
Proof.
  repeat split.
  - apply VersionLt_false. rewrite VersionLt_spec. lia.
  - intros H. apply VersionLt_false. rewrite VersionLt_spec in *. lia.
  - rewrite !VersionLt_spec. intros (E1 & H1) (E2 & H2). split; [congruence | lia].
  - intros H. destruct (ApplicationVersion.VersionEq a b) eqn:E; [| reflexivity].
    rewrite VersionLt_spec in H. rewrite VersionEq_spec in E. lia.
  - destruct (String.eqb_spec (ApplicationVersion.application_ a)
                (ApplicationVersion.application_ b)) as [E | E].
    + destruct (ApplicationVersion.VersionLt a b) eqn:H1; [reflexivity |].
      destruct (ApplicationVersion.VersionEq a b) eqn:H2; [reflexivity |].
      cbn. rewrite VersionLt_spec. split; [congruence |].
      apply VersionLt_false in H1. rewrite VersionLt_spec in H1.
      assert (H2' : ~ (ApplicationVersion.VersionEq a b = true)) by congruence.
      rewrite VersionEq_spec in H2'.
      assert (H1' := fun H => H1 (conj E H)). assert (H2'' := fun H => H2' (conj E H)).
      clear H1 H2'. lia.
    + destruct (ApplicationVersion.VersionLt a b) eqn:H1;
        [rewrite VersionLt_spec in H1; tauto |].
      destruct (ApplicationVersion.VersionEq a b) eqn:H2;
        [rewrite VersionEq_spec in H2; tauto |].
      cbn. apply VersionLt_false. rewrite VersionLt_spec. intros (E' & _). congruence.
Qed.

Lemma VersionLt_strict_order_witness :
  ApplicationVersion.VersionLt ApplicationVersion.PARQUET_816_FIXED_VERSION
    ApplicationVersion.PARQUET_MR_FIXED_STATS_VERSION = true.
Proof.
  destruct (VersionLt_strict_order ApplicationVersion.PARQUET_816_FIXED_VERSION
              ApplicationVersion.PARQUET_251_FIXED_VERSION
              ApplicationVersion.PARQUET_MR_FIXED_STATS_VERSION) as (_ & _ & Htrans & _).
  apply Htrans; reflexivity.
Defined.

(** With the sort order [SIGNED], [HasCorrectStatistics] refuses the
    statistics of exactly the [BYTE_ARRAY] and [FIXED_LEN_BYTE_ARRAY] columns
    that parquet-mr wrote before version 1.8.0 (PARQUET-251), whatever the
    statistics are. *)
Theorem HasCorrectStatistics_signed (v : ApplicationVersion.ApplicationVersion)
    (col_type : ApplicationVersion.PhysicalType)
    (statistics : ApplicationVersion.EncodedStatistics) :
  ApplicationVersion.HasCorrectStatistics v col_type statistics ApplicationVersion.SIGNED =
  negb (String.eqb (ApplicationVersion.application_ v) "parquet-mr" &&
        ApplicationVersion.VersionLt v ApplicationVersion.PARQUET_251_FIXED_VERSION &&
        ApplicationVersion.is_byte_array col_type).
Proof.
  unfold ApplicationVersion.HasCorrectStatistics. cbn [ApplicationVersion.is_SIGNED
    ApplicationVersion.is_UNKNOWN negb andb].
  destruct (ApplicationVersion.VersionLt v ApplicationVersion.PARQUET_251_FIXED_VERSION) eqn:H251.
  - pose proof (before_251_before_fixed_stats v H251) as Hmr.
    assert (Happ : ApplicationVersion.application_ v = "parquet-mr")
      by (apply VersionLt_spec in H251; tauto).
    rewrite Hmr, Happ. cbn. now destruct (ApplicationVersion.is_byte_array col_type).
  - rewrite andb_false_r. cbn [andb negb].
    repeat match goal with |- context [if ?b then _ else _] => destruct b end; reflexivity.
Qed.

(** For a writer that is not older than the versions with fixed statistics
    (parquet-cpp 1.3.0, parquet-mr 1.10.0), [HasCorrectStatistics] depends on
    the sort order alone: the statistics are accepted unless the order is
    [UNKNOWN], and always when the application is ["unknown"]. *)
Theorem HasCorrectStatistics_fixed_versions (v : ApplicationVersion.ApplicationVersion)
    (col_type : ApplicationVersion.PhysicalType)
    (statistics : ApplicationVersion.EncodedStatistics)
    (sort_order : ApplicationVersion.SortOrder) :
  ApplicationVersion.VersionLt v ApplicationVersion.PARQUET_CPP_FIXED_STATS_VERSION = false ->
  ApplicationVersion.VersionLt v ApplicationVersion.PARQUET_MR_FIXED_STATS_VERSION = false ->
  ApplicationVersion.HasCorrectStatistics v col_type statistics sort_order =
  (String.eqb (ApplicationVersion.application_ v) "unknown" ||
   negb (ApplicationVersion.is_UNKNOWN sort_order)).
Proof.
  intros Hcpp Hmr. unfold ApplicationVersion.HasCorrectStatistics.
  rewrite Hcpp, Hmr, !andb_false_r. cbn [orb].
  destruct (ApplicationVersion.VersionLt v ApplicationVersion.PARQUET_251_FIXED_VERSION) eqn:H251;
    [apply before_251_before_fixed_stats in H251; congruence |].
  destruct (String.eqb _ "unknown"), (ApplicationVersion.is_UNKNOWN sort_order); reflexivity.
Qed.

Lemma HasCorrectStatistics_fixed_versions_witness :
  ApplicationVersion.HasCorrectStatistics (ApplicationVersion.make "parquet-mr" 1 10 1)
    ApplicationVersion.BYTE_ARRAY
    (ApplicationVersion.mkEncodedStatistics "b" "a" true true) ApplicationVersion.UNSIGNED =
  true.
Proof.
  rewrite (HasCorrectStatistics_fixed_versions (ApplicationVersion.make "parquet-mr" 1 10 1));
    reflexivity.
Defined.

(** ** Internal file encryptor: the cached AES encryptors *)

Section EncryptorFacts.

Import Encryption InternalFileEncryptor.

Lemma GetMetaAesEncryptor_again (e e' : InternalFileEncryptor) (algorithm algorithm' : ParquetCipher)
    (key_size : Z) (enc : AesEncryptor) :
  GetMetaAesEncryptor e algorithm key_size = (e', Ok enc) ->
  GetMetaAesEncryptor e' algorithm' key_size = (e', Ok enc).
Proof.
  unfold GetMetaAesEncryptor.
  destruct (Mem.int32 key_size =? 16)%Z;
    [| destruct (Mem.int32 key_size =? 24)%Z; [| destruct (Mem.int32 key_size =? 32)%Z]];
    intros [= <- <-]; reflexivity.
Qed.

Lemma GetDataAesEncryptor_again (e e' : InternalFileEncryptor) (algorithm algorithm' : ParquetCipher)
    (key_size : Z) (enc : AesEncryptor) :
  GetDataAesEncryptor e algorithm key_size = (e', Ok enc) ->
  GetDataAesEncryptor e' algorithm' key_size = (e', Ok enc).
Proof.
  unfold GetDataAesEncryptor.
  destruct (Mem.int32 key_size =? 16)%Z;
    [| destruct (Mem.int32 key_size =? 24)%Z; [| destruct (Mem.int32 key_size =? 32)%Z]];
    intros [= <- <-]; reflexivity.
Qed.

Lemma slot_holds_default (key_len : Z) (metadata : bool) (algorithm : ParquetCipher)
    (slot : option AesEncryptor) :
  slot_holds key_len metadata slot ->
  aes_key_len (default (mkAesEncryptor algorithm key_len metadata) slot) = key_len /\
  aes_metadata (default (mkAesEncryptor algorithm key_len metadata) slot) = metadata.
Proof. destruct slot as [enc |]; cbn; [intros H; now apply H | now split]. Qed.

Lemma slot_holds_Some (key_len : Z) (metadata : bool) (enc : AesEncryptor) :
  aes_key_len enc = key_len /\ aes_metadata enc = metadata ->
  slot_holds key_len metadata (Some enc).
Proof. intros H enc' [= <-]. exact H. Qed.

Lemma GetMetaAesEncryptor_consistent (e : InternalFileEncryptor) (algorithm : ParquetCipher)
    (key_size : Z) :
  slots_consistent e ->
  slots_consistent (fst (GetMetaAesEncryptor e algorithm key_size)) /\
  forall enc, snd (GetMetaAesEncryptor e algorithm key_size) = Ok enc ->
    aes_key_len enc = Mem.int32 key_size /\ aes_metadata enc = true.
Proof.
  intros (H1 & H2 & H3 & H4 & H5 & H6). unfold GetMetaAesEncryptor.
  destruct (Z.eqb_spec (Mem.int32 key_size) 16) as [-> |];
    [| destruct (Z.eqb_spec (Mem.int32 key_size) 24) as [-> |];
       [| destruct (Z.eqb_spec (Mem.int32 key_size) 32) as [-> |]]]; cbn [fst snd].
  - pose proof (slot_holds_default 16 true algorithm _ H1) as Hd.
    split; [| now intros enc [= <-]].
    unfold slots_consistent; cbn; repeat match goal with |- _ /\ _ => split end;
      try assumption; now apply slot_holds_Some.
  - pose proof (slot_holds_default 24 true algorithm _ H2) as Hd.
    split; [| now intros enc [= <-]].
    unfold slots_consistent; cbn; repeat match goal with |- _ /\ _ => split end;
      try assumption; now apply slot_holds_Some.
  - pose proof (slot_holds_default 32 true algorithm _ H3) as Hd.
    split; [| now intros enc [= <-]].
    unfold slots_consistent; cbn; repeat match goal with |- _ /\ _ => split end;
      try assumption; now apply slot_holds_Some.
  - split; [unfold slots_consistent; tauto | discriminate].
Qed.

Lemma GetDataAesEncryptor_consistent (e : InternalFileEncryptor) (algorithm : ParquetCipher)
    (key_size : Z) :
  slots_consistent e ->
  slots_consistent (fst (GetDataAesEncryptor e algorithm key_size)) /\
  forall enc, snd (GetDataAesEncryptor e algorithm key_size) = Ok enc ->
    aes_key_len enc = Mem.int32 key_size /\ aes_metadata enc = false.
Proof.
  intros (H1 & H2 & H3 & H4 & H5 & H6). unfold GetDataAesEncryptor.
  destruct (Z.eqb_spec (Mem.int32 key_size) 16) as [-> |];
    [| destruct (Z.eqb_spec (Mem.int32 key_size) 24) as [-> |];
       [| destruct (Z.eqb_spec (Mem.int32 key_size) 32) as [-> |]]]; cbn [fst snd].
  - pose proof (slot_holds_default 16 false algorithm _ H4) as Hd.
    split; [| now intros enc [= <-]].
    unfold slots_consistent; cbn; repeat match goal with |- _ /\ _ => split end;
      try assumption; now apply slot_holds_Some.
  - pose proof (slot_holds_default 24 false algorithm _ H5) as Hd.
    split; [| now intros enc [= <-]].
    unfold slots_consistent; cbn; repeat match goal with |- _ /\ _ => split end;
      try assumption; now apply slot_holds_Some.
  - pose proof (slot_holds_default 32 false algorithm _ H6) as Hd.
    split; [| now intros enc [= <-]].
    unfold slots_consistent; cbn; repeat match goal with |- _ /\ _ => split end;
      try assumption; now apply slot_holds_Some.
  - split; [unfold slots_consistent; tauto | discriminate].
Qed.

Lemma slots_consistent_null :
  slots_consistent (mkInternalFileEncryptor None None None None None None).
Proof. repeat split; discriminate. Qed.

End EncryptorFacts.

(** An AES encryptor is created once per key length and kind: after
    [GetMetaAesEncryptor] (or [GetDataAesEncryptor]) has handed one out, the
    same call for the same key size returns that encryptor and leaves the
    cache as it is, whatever algorithm it is asked with. *)
Theorem AesEncryptor_is_created_once (e e' : InternalFileEncryptor.InternalFileEncryptor)
    (algorithm algorithm' : Encryption.ParquetCipher) (key_size : Z)
    (enc : InternalFileEncryptor.AesEncryptor) :
  (InternalFileEncryptor.GetMetaAesEncryptor e algorithm key_size = (e', Ok enc) ->
   InternalFileEncryptor.GetMetaAesEncryptor e' algorithm' key_size = (e', Ok enc)) /\
  (InternalFileEncryptor.GetDataAesEncryptor e algorithm key_size = (e', Ok enc) ->
   InternalFileEncryptor.GetDataAesEncryptor e' algorithm' key_size = (e', Ok enc)).
Proof.
  split; [apply GetMetaAesEncryptor_again | apply GetDataAesEncryptor_again].
Qed.

Lemma AesEncryptor_is_created_once_witness :
  snd (InternalFileEncryptor.GetMetaAesEncryptor
         (fst (InternalFileEncryptor.GetMetaAesEncryptor Examples.no_encryptors
                 Encryption.AES_GCM_V1 16))
         Encryption.AES_GCM_CTR_V1 16) =
  Ok (InternalFileEncryptor.mkAesEncryptor Encryption.AES_GCM_V1 16 true).
Proof.
  destruct (AesEncryptor_is_created_once Examples.no_encryptors
              (fst (InternalFileEncryptor.GetMetaAesEncryptor Examples.no_encryptors
                      Encryption.AES_GCM_V1 16))
              Encryption.AES_GCM_V1 Encryption.AES_GCM_CTR_V1 16
              (InternalFileEncryptor.mkAesEncryptor Encryption.AES_GCM_V1 16 true))
    as (Hmeta & _).
  rewrite Hmeta; reflexivity.
Defined.

(** Starting from a cache whose encryptors match their slots (as the empty
    cache does), [GetColumnEncryptor] keeps it so, and the encryptor it hands
    out for a column pairs the key it chose (the footer key of the file for a
    column encrypted with the footer key, the column's own key otherwise) with
    an AES encryptor of that key's length and of the kind asked for; its AAD
    is empty. *)
Theorem GetColumnEncryptor_matches_key
    (properties_ : InternalFileEncryptor.FileEncryptionProperties)
    (e e' : InternalFileEncryptor.InternalFileEncryptor) (column_path : Encryption.ColumnPath)
    (metadata : bool) (column_prop : Encryption.ColumnEncryptionProperties)
    (enc : InternalFileEncryptor.Encryptor) :
  InternalFileEncryptor.slots_consistent e ->
  InternalFileEncryptor.getColumnProperties properties_ column_path = Some column_prop ->
  InternalFileEncryptor.GetColumnEncryptor properties_ e column_path metadata =
    (e', Ok (Some enc)) ->
  InternalFileEncryptor.slots_consistent e' /\
  InternalFileEncryptor.key_ enc =
    (if Encryption.isEncryptedWithFooterKey column_prop then
       if InternalFileEncryptor.encryptedFooter properties_
       then InternalFileEncryptor.getFooterEncryptionKey properties_
       else InternalFileEncryptor.getFooterSigningKey properties_
     else Encryption.getKey column_prop) /\
  InternalFileEncryptor.aes_key_len (InternalFileEncryptor.aes_encryptor_ enc) =
    Mem.int32 (Mem.size (InternalFileEncryptor.key_ enc)) /\
  InternalFileEncryptor.aes_metadata (InternalFileEncryptor.aes_encryptor_ enc) = metadata /\
  InternalFileEncryptor.file_aad_ enc = InternalFileEncryptor.getFileAAD properties_ /\
  InternalFileEncryptor.aad_ enc = EmptyString.
Proof.
  intros Hwf Hprop. unfold InternalFileEncryptor.GetColumnEncryptor. rewrite Hprop.
  set (key := if Encryption.isEncryptedWithFooterKey column_prop then _ else _).
  destruct metadata.
  - destruct (GetMetaAesEncryptor_consistent e
                (Encryption.algorithm (InternalFileEncryptor.getAlgorithm properties_))
                (Mem.size key) Hwf) as (Hwf' & Henc).
    destruct (InternalFileEncryptor.GetMetaAesEncryptor _ _ _) as [e1 [aes | ex]];
      [| discriminate].
    intros [= <- <-]. destruct (Henc aes eq_refl) as (Hlen & Hflag). cbn. tauto.
  - destruct (GetDataAesEncryptor_consistent e
                (Encryption.algorithm (InternalFileEncryptor.getAlgorithm properties_))
                (Mem.size key) Hwf) as (Hwf' & Henc).
    destruct (InternalFileEncryptor.GetDataAesEncryptor _ _ _) as [e1 [aes | ex]];
      [| discriminate].
    intros [= <- <-]. destruct (Henc aes eq_refl) as (Hlen & Hflag). cbn. tauto.
Qed.

Lemma GetColumnEncryptor_matches_key_witness :
  InternalFileEncryptor.key_
    (InternalFileEncryptor.mkEncryptor
       (InternalFileEncryptor.mkAesEncryptor Encryption.AES_GCM_V1 16 false)
       "0123456789012345" "unique" EmptyString) = "0123456789012345" /\
  InternalFileEncryptor.slots_consistent
    (InternalFileEncryptor.mkInternalFileEncryptor None None None
       (Some (InternalFileEncryptor.mkAesEncryptor Encryption.AES_GCM_V1 16 false)) None None).
Proof.
  destruct (GetColumnEncryptor_matches_key Examples.writer_properties Examples.no_encryptors
              (InternalFileEncryptor.mkInternalFileEncryptor None None None
                 (Some (InternalFileEncryptor.mkAesEncryptor Encryption.AES_GCM_V1 16 false))
                 None None)
              ["b"] false
              (Encryption.mkColumnEncryptionProperties "b" true false "0123456789012345"
                 "k1-metadata")
              (InternalFileEncryptor.mkEncryptor
                 (InternalFileEncryptor.mkAesEncryptor Encryption.AES_GCM_V1 16 false)
                 "0123456789012345" "unique" EmptyString))
    as (Hwf & Hkey & _).
  - apply slots_consistent_null.
  - reflexivity.
  - reflexivity.
  - split; [exact Hkey | exact Hwf].
Defined.

(** ** The configuration builder of the older crypto factory *)

Section BuilderFacts.

Import EncryptionConfigurationBuilder.

Lemma do_call_keeps_exclusion (c : call) (b b' : Builder) :
  (uniform_encryption_ b = true -> column_keys_ b = EmptyString) ->
  do_call c b = Ok b' ->
  uniform_encryption_ b' = true -> column_keys_ b' = EmptyString.
Proof.
  intros Hinv. destruct c; cbn [do_call].
  - destruct (empty column_keys0); [discriminate |].
    destruct (uniform_encryption_ b) eqn:Hu; [discriminate |].
    intros [= <-]. cbn. congruence.
  - destruct (empty (column_keys_ b)) eqn:He; cbn [negb]; [| discriminate].
    intros [= <-] _. cbn. now apply empty_true.
  - intros [= <-]. exact Hinv.
  - intros [= <-]. exact Hinv.
  - intros [= <-]. exact Hinv.
  - intros [= <-]. exact Hinv.
  - intros [= <-]. exact Hinv.
  - intros [= <-]. exact Hinv.
  - intros [= <-]. exact Hinv.
Qed.

Lemma do_calls_keep_exclusion (cs : list call) : forall b b',
  (uniform_encryption_ b = true -> column_keys_ b = EmptyString) ->
  do_calls cs b = Ok b' ->
  uniform_encryption_ b' = true -> column_keys_ b' = EmptyString.
Proof.
  induction cs as [|c cs IH]; intros b b' Hinv; cbn [do_calls].
  - intros [= <-]. exact Hinv.
  - destruct (do_call c b) as [b1 | ex] eqn:Hc; cbn; [| discriminate].
    apply IH. now apply (do_call_keeps_exclusion c b).
Qed.

End BuilderFacts.

(** A configuration that [EncryptionConfiguration::Builder] builds has
    column keys or uniform encryption, and never both: whatever calls are
    chained on a builder that does not have both, if none throws and
    [build()] returns, then [uniform_encryption] holds exactly when
    [column_keys] is empty. *)
Theorem built_configuration_has_one_of_column_keys_and_uniform_encryption
    (calls : list EncryptionConfigurationBuilder.call)
    (b b' : EncryptionConfigurationBuilder.Builder)
    (cfg : EncryptionConfigurationBuilder.EncryptionConfiguration) :
  (EncryptionConfigurationBuilder.uniform_encryption_ b = true ->
   EncryptionConfigurationBuilder.column_keys_ b = EmptyString) ->
  EncryptionConfigurationBuilder.do_calls calls b = Ok b' ->
  EncryptionConfigurationBuilder.build b' = Ok cfg ->
  (EncryptionConfigurationBuilder.uniform_encryption cfg = true <->
   EncryptionConfigurationBuilder.column_keys cfg = EmptyString).
Proof.
  intros Hinv Hcalls. pose proof (do_calls_keep_exclusion calls b b' Hinv Hcalls) as Hinv'.
  unfold EncryptionConfigurationBuilder.build.
  destruct (EncryptionConfigurationBuilder.uniform_encryption_ b') eqn:Hu; cbn [negb andb].
  - intros [= <-]. cbn. split; [intros _; now apply Hinv' | reflexivity].
  - destruct (empty (EncryptionConfigurationBuilder.column_keys_ b')) eqn:He; [discriminate |].
    intros [= <-]. cbn. split; [discriminate |].
    intros H. apply empty_true in H. congruence.
Qed.

Lemma built_configuration_has_one_of_column_keys_and_uniform_encryption_witness :
  EncryptionConfigurationBuilder.uniform_encryption
    (EncryptionConfigurationBuilder.mkEncryptionConfiguration "kf" "k1:a" Encryption.AES_GCM_V1
       true false false 600 true false 128) = true <->
  "k1:a" = EmptyString.
Proof.
  apply (built_configuration_has_one_of_column_keys_and_uniform_encryption
           [EncryptionConfigurationBuilder.call_plaintext_footer true;
            EncryptionConfigurationBuilder.call_column_keys "k1:a"]
           Examples.new_builder
           (EncryptionConfigurationBuilder.mkBuilder "kf" "k1:a" Encryption.AES_GCM_V1
              true false false 600 true false 128)).
  - intros _. reflexivity.
  - reflexivity.
  - reflexivity.
Defined.

(** ** File reader: the footer *)

Section TailFacts.

Import FileReader.

Variable source : string.
Hypothesis Hsize : (FOOTER_SIZE <= Mem.size source)%Z.

#[local] Abbreviation footer_read_size := (Z.min (Mem.size source) DEFAULT_FOOTER_READ_SIZE).
#[local] Abbreviation footer_buffer :=
  (Mem.ReadAt (Mem.size source - Z.min (Mem.size source) DEFAULT_FOOTER_READ_SIZE)
     (Z.min (Mem.size source) DEFAULT_FOOTER_READ_SIZE) source).

Lemma tail_buffer_eq :
  footer_buffer = drop (Z.to_nat (Mem.size source - footer_read_size)) source.
Proof. unfold FOOTER_SIZE, DEFAULT_FOOTER_READ_SIZE in *. apply ReadAt_tail. lia. Qed.

Lemma tail_buffer_size : Mem.size footer_buffer = footer_read_size.
Proof.
  rewrite tail_buffer_eq, size_drop. unfold FOOTER_SIZE, DEFAULT_FOOTER_READ_SIZE in *. lia.
Qed.

Lemma tail_buffer_magic :
  drop (Z.to_nat (footer_read_size - 4)) footer_buffer = Mem.last_bytes 4 source.
Proof.
  rewrite tail_buffer_eq, drop_drop. unfold Mem.last_bytes. f_equal.
  unfold FOOTER_SIZE, DEFAULT_FOOTER_READ_SIZE, Mem.size in *. lia.
Qed.

Lemma tail_buffer_length :
  Mem.load_uint32 (drop (Z.to_nat (footer_read_size - FOOTER_SIZE)) footer_buffer) =
  footer_length source.
Proof.
  rewrite tail_buffer_eq, drop_drop. unfold footer_length. do 2 f_equal.
  unfold FOOTER_SIZE, DEFAULT_FOOTER_READ_SIZE in *. lia.
Qed.

(** A stored length within 8 of [2^32]: the copy out of the footer buffer
    starts before the buffer. *)
Lemma read_metadata_buffer_wraps :
  (2 ^ 32 <= FOOTER_SIZE + footer_length source)%Z ->
  read_metadata_buffer source footer_buffer (Mem.size source) footer_read_size
    (footer_length source) =
  Throw (assertion_failure "memcpy reads out of bounds").
Proof.
  intros Hwrap. pose proof (footer_length_range source) as Hrange.
  unfold read_metadata_buffer.
  replace (Mem.uint32 (footer_length source + FOOTER_SIZE))
    with (footer_length source + FOOTER_SIZE - 2 ^ 32)%Z.
  - destruct (Z.leb_spec (footer_length source + FOOTER_SIZE - 2 ^ 32) footer_read_size);
      [| unfold FOOTER_SIZE, DEFAULT_FOOTER_READ_SIZE in *; lia].
    unfold Mem.slice.
    destruct (Z.leb_spec 0 (footer_read_size - footer_length source - FOOTER_SIZE));
      [unfold FOOTER_SIZE, DEFAULT_FOOTER_READ_SIZE in *; lia | reflexivity].
  - unfold Mem.uint32, FOOTER_SIZE in *.
    apply (Z.mod_unique_pos _ _ 1); lia.
Qed.

Lemma wrapped_length_fits :
  (2 ^ 32 <= FOOTER_SIZE + footer_length source)%Z ->
  (Mem.size source <? Mem.uint32 (FOOTER_SIZE + footer_length source))%Z = false.
Proof.
  intros Hwrap. pose proof (footer_length_range source) as Hrange.
  replace (Mem.uint32 (FOOTER_SIZE + footer_length source))
    with (FOOTER_SIZE + footer_length source - 2 ^ 32)%Z.
  - apply Z.ltb_ge. unfold FOOTER_SIZE in *. lia.
  - unfold Mem.uint32, FOOTER_SIZE in *.
    apply (Z.mod_unique_pos _ _ 1); lia.
Qed.

Lemma long_length_does_not_fit :
  (Mem.size source < FOOTER_SIZE + footer_length source < 2 ^ 32)%Z ->
  (Mem.size source <? Mem.uint32 (FOOTER_SIZE + footer_length source))%Z = true.
Proof.
  intros Hlong. pose proof (footer_length_range source) as Hrange.
  unfold Mem.uint32. rewrite Z.mod_small by (unfold FOOTER_SIZE in *; lia).
  apply Z.ltb_lt. lia.
Qed.

End TailFacts.

Section FooterBranchFacts.

Import Encryption Metadata FileReader.

Variable SerializeFileMetaData : format.FileMetaData -> string.
Variable SignedFooterEncrypt : string -> string -> string -> string -> string.
Variable createFooterAAD : string -> string.
Variable FileMetaData_Make : string -> option EncryptionProperties -> Result (FileMetaData * Z).
Variable FileCryptoMetaData_Make : string -> Result (FileCryptoMetaData * Z).

#[local] Abbreviation ParseMetaData' :=
  (ParseMetaData SerializeFileMetaData SignedFooterEncrypt createFooterAAD FileMetaData_Make
     FileCryptoMetaData_Make).

(** [ParseMetaData] on a file of 8 bytes or more: the branch its last four
    bytes choose. *)
Lemma ParseMetaData_by_magic (f : SerializedFile) :
  (FOOTER_SIZE <= Mem.size (source_ f))%Z ->
  ParseMetaData' f =
  if String.eqb (Mem.last_bytes 4 (source_ f)) PARQUET_MAGIC then
    ParseMetaData_plaintext_footer SerializeFileMetaData SignedFooterEncrypt createFooterAAD
      FileMetaData_Make f
      (Mem.ReadAt (Mem.size (source_ f) - Z.min (Mem.size (source_ f)) DEFAULT_FOOTER_READ_SIZE)
         (Z.min (Mem.size (source_ f)) DEFAULT_FOOTER_READ_SIZE) (source_ f))
      (Mem.size (source_ f)) (Z.min (Mem.size (source_ f)) DEFAULT_FOOTER_READ_SIZE)
  else if String.eqb (Mem.last_bytes 4 (source_ f)) PARQUET_EMAGIC then
    ParseMetaData_encrypted_footer createFooterAAD FileMetaData_Make FileCryptoMetaData_Make f
      (Mem.ReadAt (Mem.size (source_ f) - Z.min (Mem.size (source_ f)) DEFAULT_FOOTER_READ_SIZE)
         (Z.min (Mem.size (source_ f)) DEFAULT_FOOTER_READ_SIZE) (source_ f))
      (Mem.size (source_ f)) (Z.min (Mem.size (source_ f)) DEFAULT_FOOTER_READ_SIZE)
  else Throw (ParquetException "Invalid parquet file. Corrupt footer.").
Proof.
  intros Hsize. unfold ParseMetaData.
  destruct (Z.ltb_spec (Mem.size (source_ f)) FOOTER_SIZE); [lia |].
  rewrite (tail_buffer_size _ Hsize), Z.eqb_refl, (tail_buffer_magic _ Hsize).
  reflexivity.
Qed.

(** Both branches start with the same check of the stored length and the
    same copy of the bytes it covers. *)
Lemma ParseMetaData_length_check (f : SerializedFile) (e : exception) :
  (FOOTER_SIZE <= Mem.size (source_ f))%Z ->
  Mem.last_bytes 4 (source_ f) = PARQUET_MAGIC \/
  Mem.last_bytes 4 (source_ f) = PARQUET_EMAGIC ->
  (if (Mem.size (source_ f) <? Mem.uint32 (FOOTER_SIZE + footer_length (source_ f)))%Z
   then Throw (ParquetException "Invalid parquet file. File is less than file metadata size.")
   else read_metadata_buffer (source_ f)
          (Mem.ReadAt
             (Mem.size (source_ f) - Z.min (Mem.size (source_ f)) DEFAULT_FOOTER_READ_SIZE)
             (Z.min (Mem.size (source_ f)) DEFAULT_FOOTER_READ_SIZE) (source_ f))
          (Mem.size (source_ f)) (Z.min (Mem.size (source_ f)) DEFAULT_FOOTER_READ_SIZE)
          (footer_length (source_ f))) = Throw e ->
  ParseMetaData' f = Throw e.
Proof.
  intros Hsize Hmagic. rewrite (ParseMetaData_by_magic f Hsize).
  unfold ParseMetaData_plaintext_footer, ParseMetaData_encrypted_footer.
  rewrite (tail_buffer_length _ Hsize).
  destruct Hmagic as [-> | ->]; cbn [String.eqb Ascii.eqb Bool.eqb andb PARQUET_MAGIC PARQUET_EMAGIC];
    (destruct (Mem.size (source_ f) <? Mem.uint32 (FOOTER_SIZE + footer_length (source_ f)))%Z;
     intros H; [injection H as <-; reflexivity | now rewrite H]).
Qed.

Lemma footer_bytes_size (magic source : string) :
  ends_with magic source -> Mem.size (footer_bytes source) = footer_length source.
Proof.
  intros (_ & Hfit & _). pose proof (footer_length_range source) as Hrange.
  unfold footer_bytes. rewrite size_take, size_drop. unfold FOOTER_SIZE in *. lia.
Qed.

(** What [ParseMetaData] does with a footer that ends in [PAR1], up to the
    parsed metadata. *)
Lemma ParseMetaData_plaintext_footer_parsed (f : SerializedFile) (fm : FileMetaData)
    (read_len : Z) :
  ends_with PARQUET_MAGIC (source_ f) ->
  FileMetaData_Make (footer_bytes (source_ f)) None = Ok (fm, read_len) ->
  ParseMetaData' f =
  if is_plaintext_mode fm then
    match file_decryption (properties_ f) with
    | None => Throw (ParquetException "No decryption properties are provided")
    | Some file_decryption =>
        fileAAD ← check_algorithm_and_aad (encryption_algorithm fm) file_decryption;
        let parsed :=
          mkSerializedFile (source_ f) (Some fm) (file_crypto_metadata_ f)
            (set_fileAAD fileAAD (properties_ f)) in
        if checkFooterIntegrity file_decryption then
          if negb (Mem.uint32 (footer_length (source_ f) - read_len) =? 28)%Z then
            Throw (ParquetException "Invalid parquet file. Cannot verify plaintextmode footer.")
          else
            footer_key ←
              get_footer_key file_decryption (footer_signing_key_metadata fm)
                "Footer key unavailable. Could not verify plaintext footer metadata";
            verified ←
              verify SerializeFileMetaData SignedFooterEncrypt fm
                (mkEncryptionProperties (algorithm (encryption_algorithm fm)) footer_key
                   fileAAD (createFooterAAD fileAAD))
                (drop (Z.to_nat read_len) (footer_bytes (source_ f))) 28;
            if negb verified then
              Throw (ParquetException
                       "Invalid parquet file. Could not verify plaintext footer metadata")
            else Ok parsed
        else Ok parsed
    end
  else Ok (mkSerializedFile (source_ f) (Some fm) (file_crypto_metadata_ f) (properties_ f)).
Proof.
  intros Hlayout Hmake.
  rewrite (ParseMetaData_PAR1 _ _ _ _ _ f Hlayout). unfold ParseMetaData_plaintext_footer.
  rewrite (footer_buffer_length _ _ Hlayout), (footer_fits _ _ Hlayout),
    (read_metadata_buffer_footer_bytes _ _ Hlayout).
  cbn [mbind Result_bind]. rewrite Hmake. reflexivity.
Qed.

(** The AAD checks, when they pass: the file AAD is the prefix stored in the
    file and the file's unique part, a prefix in the properties is the stored
    one, and a file that says its prefix is to be supplied has it supplied. *)
Lemma check_algorithm_and_aad_Ok (algo : EncryptionAlgorithm) (fd : FileDecryptionProperties)
    (fileAAD : string) :
  check_algorithm_and_aad algo fd = Ok fileAAD ->
  fileAAD = aad_prefix (aad algo) +:+ aad_file_unique (aad algo) /\
  (getAADPrefix fd = EmptyString \/ getAADPrefix fd = aad_prefix (aad algo)) /\
  (supply_aad_prefix (aad algo) = true -> getAADPrefix fd <> EmptyString).
Proof.
  unfold check_algorithm_and_aad.
  destruct (algorithm algo); [| | discriminate].
  all: destruct (getAADPrefix fd) as [|c p] eqn:Hp; cbn [empty negb andb mbind Result_bind].
  all: try (destruct (supply_aad_prefix (aad algo)); [discriminate |];
            intros [= <-]; repeat split; [now left | discriminate]).
  all: destruct (String.eqb_spec (String c p) (aad_prefix (aad algo))) as [E | E];
    cbn [negb mbind Result_bind]; [| discriminate].
  all: destruct (getAADPrefixVerifier fd) as [check |];
    [destruct (check (aad_prefix (aad algo))); [| discriminate] |];
    cbn [mbind Result_bind]; rewrite andb_false_r;
    destruct (supply_aad_prefix (aad algo)); cbn [negb]; intros [= <-];
    repeat split;
    first [exact (or_intror E) | now rewrite <- E | reflexivity | intros; discriminate].
Qed.

End FooterBranchFacts.

(** [ParseMetaData] refuses a file that is shorter than the 8-byte footer, a
    file whose last four bytes are neither [PAR1] nor [PARE], and a file whose
    stored footer length does not fit in front of the footer, each with its
    own message and before anything is deserialized. *)
Theorem ParseMetaData_rejects_corrupt_footer
    (SerializeFileMetaData : format.FileMetaData -> string)
    (SignedFooterEncrypt : string -> string -> string -> string -> string)
    (createFooterAAD : string -> string)
    (FileMetaData_Make :
       string -> option Encryption.EncryptionProperties -> Result (Metadata.FileMetaData * Z))
    (FileCryptoMetaData_Make : string -> Result (FileReader.FileCryptoMetaData * Z))
    (f : FileReader.SerializedFile) :
  ((Mem.size (FileReader.source_ f) < 8)%Z ->
   FileReader.ParseMetaData SerializeFileMetaData SignedFooterEncrypt createFooterAAD
     FileMetaData_Make FileCryptoMetaData_Make f =
   Throw (ParquetException "Corrupted file, smaller than file footer")) /\
  ((8 <= Mem.size (FileReader.source_ f))%Z ->
   Mem.last_bytes 4 (FileReader.source_ f) <> "PAR1" ->
   Mem.last_bytes 4 (FileReader.source_ f) <> "PARE" ->
   FileReader.ParseMetaData SerializeFileMetaData SignedFooterEncrypt createFooterAAD
     FileMetaData_Make FileCryptoMetaData_Make f =
   Throw (ParquetException "Invalid parquet file. Corrupt footer.")) /\
  ((8 <= Mem.size (FileReader.source_ f))%Z ->
   Mem.last_bytes 4 (FileReader.source_ f) = "PAR1" \/
   Mem.last_bytes 4 (FileReader.source_ f) = "PARE" ->
   (Mem.size (FileReader.source_ f) < 8 + FileReader.footer_length (FileReader.source_ f)
    < 2 ^ 32)%Z ->
   FileReader.ParseMetaData SerializeFileMetaData SignedFooterEncrypt createFooterAAD
     FileMetaData_Make FileCryptoMetaData_Make f =
   Throw (ParquetException "Invalid parquet file. File is less than file metadata size.")).
Proof.
  repeat split.
  - intros Hsmall. unfold FileReader.ParseMetaData.
    destruct (Z.ltb_spec (Mem.size (FileReader.source_ f)) FileReader.FOOTER_SIZE);
      [reflexivity | unfold FileReader.FOOTER_SIZE in *; lia].
  - intros Hsize H1 H2. rewrite ParseMetaData_by_magic by exact Hsize.
    destruct (String.eqb_spec (Mem.last_bytes 4 (FileReader.source_ f))
                FileReader.PARQUET_MAGIC); [contradiction |].
    destruct (String.eqb_spec (Mem.last_bytes 4 (FileReader.source_ f))
                FileReader.PARQUET_EMAGIC); [contradiction | reflexivity].
  - intros Hsize Hmagic Hlong. apply ParseMetaData_length_check; [exact Hsize | exact Hmagic |].
    now rewrite long_length_does_not_fit.
Qed.

Lemma ParseMetaData_rejects_corrupt_footer_witness :
  FileReader.ParseMetaData Examples.toy_SerializeFileMetaData Examples.toy_SignedFooterEncrypt
    Examples.toy_createFooterAAD Examples.toy_FileMetaData_Make
    Examples.toy_FileCryptoMetaData_Make
    (Examples.reader ("T" +:+ Examples.le32 9 +:+ "PAR1") true) =
  Throw (ParquetException "Invalid parquet file. File is less than file metadata size.").
Proof.
  destruct (ParseMetaData_rejects_corrupt_footer Examples.toy_SerializeFileMetaData
              Examples.toy_SignedFooterEncrypt Examples.toy_createFooterAAD
              Examples.toy_FileMetaData_Make Examples.toy_FileCryptoMetaData_Make
              (Examples.reader ("T" +:+ Examples.le32 9 +:+ "PAR1") true)) as (_ & _ & Hlong).
  apply Hlong.
  - vm_compute. congruence.
  - left. reflexivity.
  - vm_compute. split; reflexivity.
Defined.

(** The check of the stored footer length adds 8 to it in 32 bits.  When the
    stored length is within 8 of [2^32] the sum wraps around, the file passes
    the check, and [ParseMetaData] goes on to copy the metadata from an
    address before the footer buffer, whatever the file's size and the reader's
    properties. *)
Theorem ParseMetaData_length_check_wraps_around
    (SerializeFileMetaData : format.FileMetaData -> string)
    (SignedFooterEncrypt : string -> string -> string -> string -> string)
    (createFooterAAD : string -> string)
    (FileMetaData_Make :
       string -> option Encryption.EncryptionProperties -> Result (Metadata.FileMetaData * Z))
    (FileCryptoMetaData_Make : string -> Result (FileReader.FileCryptoMetaData * Z))
    (f : FileReader.SerializedFile) :
  (8 <= Mem.size (FileReader.source_ f))%Z ->
  Mem.last_bytes 4 (FileReader.source_ f) = "PAR1" \/
  Mem.last_bytes 4 (FileReader.source_ f) = "PARE" ->
  (2 ^ 32 <= 8 + FileReader.footer_length (FileReader.source_ f))%Z ->
  FileReader.ParseMetaData SerializeFileMetaData SignedFooterEncrypt createFooterAAD
    FileMetaData_Make FileCryptoMetaData_Make f =
  Throw (assertion_failure "memcpy reads out of bounds").
Proof.
  intros Hsize Hmagic Hwrap. apply ParseMetaData_length_check; [exact Hsize | exact Hmagic |].
  rewrite wrapped_length_fits by assumption. now apply read_metadata_buffer_wraps.
Qed.

Lemma ParseMetaData_length_check_wraps_around_witness :
  FileReader.ParseMetaData Examples.toy_SerializeFileMetaData Examples.toy_SignedFooterEncrypt
    Examples.toy_createFooterAAD Examples.toy_FileMetaData_Make
    Examples.toy_FileCryptoMetaData_Make (Examples.reader Examples.wrapping_length_file true) =
  Throw (assertion_failure "memcpy reads out of bounds").
Proof.
  apply (ParseMetaData_length_check_wraps_around Examples.toy_SerializeFileMetaData
           Examples.toy_SignedFooterEncrypt Examples.toy_createFooterAAD
           Examples.toy_FileMetaData_Make Examples.toy_FileCryptoMetaData_Make
           (Examples.reader Examples.wrapping_length_file true)).
  - vm_compute. congruence.
  - left. reflexivity.
  - vm_compute. congruence.
Defined.

(** Decryption properties are needed for encrypted files only.  A file that
    ends in [PAR1] and whose metadata has no encryption algorithm is read
    whatever the reader's properties are, and they are left as they were; a
    reader without decryption properties refuses a plaintext-mode footer and an
    encrypted footer. *)
Theorem ParseMetaData_decryption_properties_needed
    (SerializeFileMetaData : format.FileMetaData -> string)
    (SignedFooterEncrypt : string -> string -> string -> string -> string)
    (createFooterAAD : string -> string)
    (FileMetaData_Make :
       string -> option Encryption.EncryptionProperties -> Result (Metadata.FileMetaData * Z))
    (FileCryptoMetaData_Make : string -> Result (FileReader.FileCryptoMetaData * Z))
    (f : FileReader.SerializedFile) :
  (forall fm read_len,
     FileReader.ends_with FileReader.PARQUET_MAGIC (FileReader.source_ f) ->
     FileMetaData_Make (FileReader.footer_bytes (FileReader.source_ f)) None =
       Ok (fm, read_len) ->
     Metadata.is_plaintext_mode fm = false ->
     FileReader.ParseMetaData SerializeFileMetaData SignedFooterEncrypt createFooterAAD
       FileMetaData_Make FileCryptoMetaData_Make f =
     Ok (FileReader.mkSerializedFile (FileReader.source_ f) (Some fm)
           (FileReader.file_crypto_metadata_ f) (FileReader.properties_ f))) /\
  (forall fm read_len,
     FileReader.ends_with FileReader.PARQUET_MAGIC (FileReader.source_ f) ->
     FileMetaData_Make (FileReader.footer_bytes (FileReader.source_ f)) None =
       Ok (fm, read_len) ->
     Metadata.is_plaintext_mode fm = true ->
     FileReader.file_decryption (FileReader.properties_ f) = None ->
     FileReader.ParseMetaData SerializeFileMetaData SignedFooterEncrypt createFooterAAD
       FileMetaData_Make FileCryptoMetaData_Make f =
     Throw (ParquetException "No decryption properties are provided")) /\
  (FileReader.ends_with FileReader.PARQUET_EMAGIC (FileReader.source_ f) ->
   FileReader.file_decryption (FileReader.properties_ f) = None ->
   FileReader.ParseMetaData SerializeFileMetaData SignedFooterEncrypt createFooterAAD
     FileMetaData_Make FileCryptoMetaData_Make f =
   Throw (ParquetException
            "No decryption properties are provided. Could not read encrypted footer metadata")).
Proof.
  repeat split.
  - intros fm read_len Hlayout Hmake Hmode.
    rewrite (ParseMetaData_plaintext_footer_parsed _ _ _ _ _ f fm read_len Hlayout Hmake).
    now rewrite Hmode.
  - intros fm read_len Hlayout Hmake Hmode Hfd.
    rewrite (ParseMetaData_plaintext_footer_parsed _ _ _ _ _ f fm read_len Hlayout Hmake).
    now rewrite Hmode, Hfd.
  - intros Hlayout Hfd. rewrite (ParseMetaData_PARE _ _ _ _ _ f Hlayout).
    unfold FileReader.ParseMetaData_encrypted_footer.
    rewrite (footer_buffer_length _ _ Hlayout), (footer_fits _ _ Hlayout),
      (read_metadata_buffer_footer_bytes _ _ Hlayout).
    cbn [mbind Result_bind]. now rewrite Hfd.
Qed.

Lemma ParseMetaData_decryption_properties_needed_witness :
  FileReader.ParseMetaData Examples.toy_SerializeFileMetaData Examples.toy_SignedFooterEncrypt
    Examples.toy_createFooterAAD Examples.toy_FileMetaData_Make
    Examples.toy_FileCryptoMetaData_Make
    (FileReader.mkSerializedFile Examples.encrypted_footer_file None None
       (FileReader.mkReaderProperties None EmptyString None)) =
  Throw (ParquetException
           "No decryption properties are provided. Could not read encrypted footer metadata").
Proof.
  destruct (ParseMetaData_decryption_properties_needed Examples.toy_SerializeFileMetaData
              Examples.toy_SignedFooterEncrypt Examples.toy_createFooterAAD
              Examples.toy_FileMetaData_Make Examples.toy_FileCryptoMetaData_Make
              (FileReader.mkSerializedFile Examples.encrypted_footer_file None None
                 (FileReader.mkReaderProperties None EmptyString None)))
    as (_ & _ & Hencrypted).
  apply Hencrypted.
  - repeat split; vm_compute; congruence.
  - reflexivity.
Defined.

(** A signed plaintext footer, read with the footer integrity check and the
    footer key given in the properties: when the trailer after the Thrift block
    is 28 bytes long and the AAD checks pass, [ParseMetaData] accepts the file
    exactly when the last 16 bytes of the re-encrypted footer are the tag of
    the trailer; it then holds the parsed metadata and the file AAD.
    Otherwise it throws "Could not verify plaintext footer metadata". *)
Theorem ParseMetaData_signed_plaintext_footer
    (SerializeFileMetaData : format.FileMetaData -> string)
    (SignedFooterEncrypt : string -> string -> string -> string -> string)
    (createFooterAAD : string -> string)
    (FileMetaData_Make :
       string -> option Encryption.EncryptionProperties -> Result (Metadata.FileMetaData * Z))
    (FileCryptoMetaData_Make : string -> Result (FileReader.FileCryptoMetaData * Z))
    (f : FileReader.SerializedFile) (fm : Metadata.FileMetaData) (read_len : Z)
    (fd : Encryption.FileDecryptionProperties) (fileAAD : string) :
  FileReader.ends_with FileReader.PARQUET_MAGIC (FileReader.source_ f) ->
  FileMetaData_Make (FileReader.footer_bytes (FileReader.source_ f)) None = Ok (fm, read_len) ->
  Metadata.is_plaintext_mode fm = true ->
  FileReader.file_decryption (FileReader.properties_ f) = Some fd ->
  Encryption.checkFooterIntegrity fd = true ->
  FileReader.check_algorithm_and_aad (Metadata.encryption_algorithm fm) fd = Ok fileAAD ->
  (0 <= read_len)%Z ->
  (FileReader.footer_length (FileReader.source_ f) - read_len = 28)%Z ->
  Encryption.getFooterKey fd <> EmptyString ->
  (16 <= String.length
           (SignedFooterEncrypt (SerializeFileMetaData (Metadata.metadata_ fm))
              (Encryption.getFooterKey fd) (createFooterAAD fileAAD)
              (take 12 (drop (Z.to_nat read_len)
                          (FileReader.footer_bytes (FileReader.source_ f))))))%nat ->
  FileReader.ParseMetaData SerializeFileMetaData SignedFooterEncrypt createFooterAAD
    FileMetaData_Make FileCryptoMetaData_Make f =
  if String.eqb
       (Mem.last_bytes 16
          (SignedFooterEncrypt (SerializeFileMetaData (Metadata.metadata_ fm))
             (Encryption.getFooterKey fd) (createFooterAAD fileAAD)
             (take 12 (drop (Z.to_nat read_len)
                         (FileReader.footer_bytes (FileReader.source_ f))))))
       (take 16 (drop 12 (drop (Z.to_nat read_len)
                            (FileReader.footer_bytes (FileReader.source_ f)))))
  then
    Ok (FileReader.mkSerializedFile (FileReader.source_ f) (Some fm)
          (FileReader.file_crypto_metadata_ f)
          (FileReader.set_fileAAD fileAAD (FileReader.properties_ f)))
  else
    Throw (ParquetException "Invalid parquet file. Could not verify plaintext footer metadata").
Proof.
  intros Hlayout Hmake Hmode Hfd Hcheck Haad Hread Htrailer Hkey Hcipher.
  rewrite (ParseMetaData_plaintext_footer_parsed _ _ _ _ _ f fm read_len Hlayout Hmake).
  rewrite Hmode, Hfd, Haad. cbn [mbind Result_bind]. rewrite Hcheck.
  rewrite Htrailer. cbn [Mem.uint32 Z.modulo Z.div_eucl Z.pos_div_eucl Z.eqb negb].
  replace (Mem.uint32 28 =? 28)%Z with true by reflexivity. cbn [negb].
  unfold FileReader.get_footer_key.
  destruct (Encryption.getFooterKey fd) as [|c key] eqn:Hk; [congruence |].
  cbn [empty mbind Result_bind].
  rewrite verify_tag.
  - cbn [mbind Result_bind Encryption.key_bytes Encryption.aad_bytes].
    now destruct (String.eqb _ _).
  - pose proof (footer_bytes_size _ _ Hlayout) as Hsize.
    pose proof (drop_length (Z.to_nat read_len)
                  (FileReader.footer_bytes (FileReader.source_ f))) as Hdrop.
    unfold Mem.size in Hsize. lia.
  - exact Hcipher.
Qed.

Lemma ParseMetaData_signed_plaintext_footer_witness :
  FileReader.ParseMetaData Examples.toy_SerializeFileMetaData Examples.toy_SignedFooterEncrypt
    Examples.toy_createFooterAAD Examples.toy_FileMetaData_Make
    Examples.toy_FileCryptoMetaData_Make
    (Examples.reader_with_footer_key Examples.signed_plaintext_file) =
  Ok (FileReader.mkSerializedFile Examples.signed_plaintext_file
        (Some Examples.toy_file_metadata) None
        (FileReader.mkReaderProperties (Some Examples.decryption_with_footer_key) "unique" None)).
Proof.
  rewrite (ParseMetaData_signed_plaintext_footer Examples.toy_SerializeFileMetaData
             Examples.toy_SignedFooterEncrypt Examples.toy_createFooterAAD
             Examples.toy_FileMetaData_Make Examples.toy_FileCryptoMetaData_Make
             (Examples.reader_with_footer_key Examples.signed_plaintext_file)
             Examples.toy_file_metadata 1%Z Examples.decryption_with_footer_key "unique").
  - reflexivity.
  - repeat split; vm_compute; congruence.
  - reflexivity.
  - reflexivity.
  - reflexivity.
  - reflexivity.
  - reflexivity.
  - lia.
  - reflexivity.
  - discriminate.
  - vm_compute. lia.
Defined.

(** When [ParseMetaData] accepts a file with an encrypted footer, the file
    AAD it keeps is the AAD prefix stored in the file followed by the file's
    unique part; an AAD prefix given in the decryption properties is only
    compared with the stored one.  So a file whose crypto metadata says that
    the prefix is to be supplied, and stores none, is never accepted. *)
Theorem ParseMetaData_file_AAD_is_the_stored_one
    (SerializeFileMetaData : format.FileMetaData -> string)
    (SignedFooterEncrypt : string -> string -> string -> string -> string)
    (createFooterAAD : string -> string)
    (FileMetaData_Make :
       string -> option Encryption.EncryptionProperties -> Result (Metadata.FileMetaData * Z))
    (FileCryptoMetaData_Make : string -> Result (FileReader.FileCryptoMetaData * Z))
    (f f' : FileReader.SerializedFile) (fcm : FileReader.FileCryptoMetaData)
    (crypto_len : Z) :
  FileReader.ends_with FileReader.PARQUET_EMAGIC (FileReader.source_ f) ->
  FileCryptoMetaData_Make (FileReader.footer_bytes (FileReader.source_ f)) =
    Ok (fcm, crypto_len) ->
  FileReader.ParseMetaData SerializeFileMetaData SignedFooterEncrypt createFooterAAD
    FileMetaData_Make FileCryptoMetaData_Make f = Ok f' ->
  FileReader.file_crypto_metadata_ f' = Some fcm /\
  FileReader.fileAAD (FileReader.properties_ f') =
    Encryption.aad_prefix (Encryption.aad (FileReader.fc_encryption_algorithm fcm)) +:+
    Encryption.aad_file_unique (Encryption.aad (FileReader.fc_encryption_algorithm fcm)) /\
  (Encryption.supply_aad_prefix (Encryption.aad (FileReader.fc_encryption_algorithm fcm)) =
     true ->
   Encryption.aad_prefix (Encryption.aad (FileReader.fc_encryption_algorithm fcm)) <>
     EmptyString) /\
  exists fd,
    FileReader.file_decryption (FileReader.properties_ f) = Some fd /\
    (Encryption.getAADPrefix fd = EmptyString \/
     Encryption.getAADPrefix fd =
       Encryption.aad_prefix (Encryption.aad (FileReader.fc_encryption_algorithm fcm))).
Proof.
  intros Hlayout Hmake. rewrite (ParseMetaData_PARE _ _ _ _ _ f Hlayout).
  unfold FileReader.ParseMetaData_encrypted_footer.
  rewrite (footer_buffer_length _ _ Hlayout), (footer_fits _ _ Hlayout),
    (read_metadata_buffer_footer_bytes _ _ Hlayout).
  cbn [mbind Result_bind].
  destruct (FileReader.file_decryption (FileReader.properties_ f)) as [fd |] eqn:Hfd;
    [| discriminate].
  rewrite Hmake. cbn [mbind Result_bind].
  destruct (FileReader.check_algorithm_and_aad (FileReader.fc_encryption_algorithm fcm) fd)
    as [fileAAD | e] eqn:Haad; cbn [mbind Result_bind]; [| discriminate].
  destruct (check_algorithm_and_aad_Ok _ _ _ Haad) as (Hfile & Hprefix & Hsupply).
  destruct (negb _); [discriminate |].
  destruct (FileReader.get_footer_key _ _ _) as [footer_key | e]; cbn [mbind Result_bind];
    [| discriminate].
  destruct (FileMetaData_Make _ _) as [[file_metadata len] | e]; cbn [mbind Result_bind];
    [| discriminate].
  intros [= <-]. cbn. repeat split.
  - exact Hfile.
  - intros Hs E. destruct Hprefix as [Hp | Hp]; [now apply Hsupply | ].
    apply (Hsupply Hs). congruence.
  - exists fd. split; [reflexivity | exact Hprefix].
Qed.

Lemma ParseMetaData_file_AAD_is_the_stored_one_witness :
  FileReader.fileAAD
    (FileReader.properties_
       (FileReader.mkSerializedFile Examples.encrypted_footer_file
          (Some Examples.toy_file_metadata)
          (Some (FileReader.mkFileCryptoMetaData Examples.toy_algorithm "kf-metadata"))
          (FileReader.mkReaderProperties (Some Examples.decryption_with_footer_key) "unique"
             None))) =
  Encryption.aad_prefix (Encryption.aad Examples.toy_algorithm) +:+
  Encryption.aad_file_unique (Encryption.aad Examples.toy_algorithm).
Proof.
  destruct (ParseMetaData_file_AAD_is_the_stored_one Examples.toy_SerializeFileMetaData
              Examples.toy_SignedFooterEncrypt Examples.toy_createFooterAAD
              Examples.toy_FileMetaData_Make Examples.toy_FileCryptoMetaData_Make
              (Examples.reader_with_footer_key Examples.encrypted_footer_file)
              (FileReader.mkSerializedFile Examples.encrypted_footer_file
                 (Some Examples.toy_file_metadata)
                 (Some (FileReader.mkFileCryptoMetaData Examples.toy_algorithm "kf-metadata"))
                 (FileReader.mkReaderProperties (Some Examples.decryption_with_footer_key)
                    "unique" None))
              (FileReader.mkFileCryptoMetaData Examples.toy_algorithm "kf-metadata") 1%Z)
    as (_ & Haad & _).
  - repeat split; vm_compute; congruence.
  - reflexivity.
  - reflexivity.
  - exact Haad.
Defined.

(** ** Column chunks: keys, metadata and page streams *)

Section ChunkFacts.

Import Encryption Metadata.

Variable DeserializeColumnMetaData : string -> EncryptionProperties -> Result format.ColumnMetaData.
Variable createModuleAAD : string -> Z -> Z -> Z -> Z -> string.

(** The key of a column, once it is in the column map. *)
Lemma column_key_for_metadata_cached (ccmd : format.ColumnCryptoMetaData)
    (fd : FileDecryptionProperties) (m : gmap ColumnPath string) (key : string) :
  m !! format.eck_path_in_schema (format.ENCRYPTION_WITH_COLUMN_KEY ccmd) = Some key ->
  key <> EmptyString ->
  column_key_for_metadata ccmd fd (Some m) = (Some m, Ok key).
Proof.
  intros Hm Hkey. unfold column_key_for_metadata. cbv zeta. cbn [mbind option_bind].
  rewrite Hm. destruct key; [congruence | reflexivity].
Qed.

(** The key of a column, when [column_key_for_metadata] finds one: it is not
    empty and the column map holds it afterwards. *)
Lemma column_key_for_metadata_Ok (ccmd : format.ColumnCryptoMetaData)
    (fd : FileDecryptionProperties) (m : gmap ColumnPath string) (cm' : column_map_t)
    (key : string) :
  column_key_for_metadata ccmd fd (Some m) = (cm', Ok key) ->
  key <> EmptyString /\
  exists m', cm' = Some m' /\
    m' !! format.eck_path_in_schema (format.ENCRYPTION_WITH_COLUMN_KEY ccmd) = Some key.
Proof.
  unfold column_key_for_metadata. cbv zeta. cbn [mbind option_bind].
  destruct (m !! _) as [k |] eqn:Hm.
  - destruct k; [discriminate |]. intros [= <- <-].
    split; [discriminate | now exists m].
  - match goal with
    | |- context [match ?k' with Ok _ => _ | Throw _ => _ end] =>
        destruct k' as [k | e] eqn:Hk
    end; [| discriminate].
    cbn [fmap option_fmap option_map]. destruct k; [discriminate |]. intros [= <- <-].
    split; [discriminate |]. eexists. split; [reflexivity | apply lookup_insert_eq].
Qed.

End ChunkFacts.

(** The key of a column encrypted with its own key is looked for once.  When
    the constructor of [ColumnChunkMetaDataImpl] has read the metadata of such
    a column with a column map, the map holds the column's key, which is not
    empty; any later construction with that map reads the same metadata
    without asking the decryption properties or their key retriever, whatever
    they are. *)
Theorem column_key_is_retrieved_once
    (DeserializeColumnMetaData :
       string -> Encryption.EncryptionProperties -> Result format.ColumnMetaData)
    (createModuleAAD : string -> Z -> Z -> Z -> Z -> string)
    (column : format.ColumnChunk) (row_group_ordinal column_ordinal : Z)
    (fd : Encryption.FileDecryptionProperties)
    (algorithm : option Encryption.EncryptionAlgorithm) (fileAAD : string)
    (m : gmap Encryption.ColumnPath string)
    (column_map' : option (gmap Encryption.ColumnPath string))
    (metadata : Metadata.ColumnChunkMetaData) :
  format.isset_crypto_metadata column = true ->
  format.isset_ENCRYPTION_WITH_COLUMN_KEY (format.crypto_metadata column) = true ->
  Metadata.ColumnChunkMetaDataImpl DeserializeColumnMetaData createModuleAAD column
    row_group_ordinal column_ordinal (Some fd) algorithm fileAAD (Some m) =
    (column_map', Ok metadata) ->
  exists m' key,
    column_map' = Some m' /\
    m' !! format.eck_path_in_schema
            (format.ENCRYPTION_WITH_COLUMN_KEY (format.crypto_metadata column)) = Some key /\
    key <> EmptyString /\
    forall fd' : Encryption.FileDecryptionProperties,
      Metadata.ColumnChunkMetaDataImpl DeserializeColumnMetaData createModuleAAD column
        row_group_ordinal column_ordinal (Some fd') algorithm fileAAD (Some m') =
      (Some m', Ok metadata).
Proof.
  intros Hcrypto Hkeyed. unfold Metadata.ColumnChunkMetaDataImpl.
  rewrite Hcrypto, Hkeyed. cbn [andb].
  destruct (Metadata.column_key_for_metadata (format.crypto_metadata column) fd (Some m))
    as [cm1 [key | e]] eqn:Hkey; [| discriminate].
  destruct (column_key_for_metadata_Ok _ _ _ _ _ Hkey) as (Hne & m' & -> & Hm').
  destruct algorithm as [algo |]; [| discriminate].
  destruct (DeserializeColumnMetaData _ _) as [md | e] eqn:Hmd; cbn [mbind Result_bind];
    [| discriminate].
  intros [= <- <-]. exists m', key. repeat split; try assumption.
  intros fd'. rewrite (column_key_for_metadata_cached _ fd' m' key Hm' Hne).
  now rewrite Hmd.
Qed.

Lemma column_key_is_retrieved_once_witness :
  Metadata.ColumnChunkMetaDataImpl Examples.toy_DeserializeColumnMetaData
    Examples.toy_createModuleAAD Examples.readable_column 0 0
    (Some Examples.decryption_with_footer_key) (Some Examples.toy_algorithm) "unique"
    (Some {[ ["b"] := "0123456789012345" ]}) =
  (Some {[ ["b"] := "0123456789012345" ]},
   Ok (Metadata.mkColumnChunkMetaData Examples.readable_column format.ColumnMetaData_default)).
Proof.
  destruct (column_key_is_retrieved_once Examples.toy_DeserializeColumnMetaData
              Examples.toy_createModuleAAD Examples.readable_column 0 0
              (Examples.decryption true) (Some Examples.toy_algorithm) "unique" ∅
              (Some {[ ["b"] := "0123456789012345" ]})
              (Metadata.mkColumnChunkMetaData Examples.readable_column
                 format.ColumnMetaData_default))
    as (m' & key & Hm' & _ & _ & Hagain); [reflexivity .. |].
  injection Hm' as <-. apply Hagain.
Defined.

(** What [WriteTo] writes for a column encrypted with its own key, the
    constructor of [ColumnChunkMetaDataImpl] reads back: with the column's key
    given in the decryption properties, it holds the column metadata the
    builder had, statistics included, provided the deserializer decrypts what
    the writer encrypted.  The plaintext [meta_data] of the chunk is not
    used. *)
Theorem encrypted_column_metadata_is_read_back
    (SerializeColumnMetaData : format.ColumnMetaData -> string)
    (SerializeColumnChunk : format.ColumnChunk -> string)
    (Encrypt : Encryption.EncryptionProperties -> bool -> string -> string)
    (DeserializeColumnMetaData :
       string -> Encryption.EncryptionProperties -> Result format.ColumnMetaData)
    (createModuleAAD : string -> Z -> Z -> Z -> Z -> string)
    (chunk : format.ColumnChunk) (metadata : format.ColumnMetaData)
    (path : list string) (column_name key key_metadata : string)
    (footer_encryption : option Encryption.EncryptionProperties)
    (encrypt_props : Encryption.EncryptionProperties)
    (b' : Metadata.ColumnChunkMetaDataBuilder) (bytes : string)
    (fd : Encryption.FileDecryptionProperties) (algorithm : Encryption.EncryptionAlgorithm)
    (fileAAD : string) (row_group_ordinal column_ordinal : Z)
    (column_map : option (gmap Encryption.ColumnPath string)) :
  Metadata.WriteTo SerializeColumnMetaData SerializeColumnChunk Encrypt
    (Metadata.mkColumnChunkMetaDataBuilder chunk metadata path
       (Some (Encryption.mkColumnEncryptionProperties column_name true false key key_metadata))
       footer_encryption)
    (Some encrypt_props) = Ok (b', bytes) ->
  column_map ≫= (fun m => m !! path) = None ->
  Encryption.getColumnKey fd path = key ->
  key <> EmptyString ->
  DeserializeColumnMetaData (Encrypt encrypt_props true (SerializeColumnMetaData metadata))
    (Encryption.mkEncryptionProperties (Encryption.algorithm algorithm) key fileAAD
       (createModuleAAD fileAAD Metadata.ColumnMetaData_module row_group_ordinal column_ordinal
          (Mem.int16 (-1)))) = Ok metadata ->
  Metadata.ColumnChunkMetaDataImpl DeserializeColumnMetaData createModuleAAD
    (Metadata.column_chunk_ b') row_group_ordinal column_ordinal (Some fd) (Some algorithm)
    fileAAD column_map =
  ((fun m => <[path := key]> m) <$> column_map,
   Ok (Metadata.mkColumnChunkMetaData (Metadata.column_chunk_ b') metadata)).
Proof.
  intros Hwrite Hmap Hkey Hne Hcipher.
  unfold Metadata.WriteTo in Hwrite. cbn in Hwrite.
  assert (Hchunk :
    format.isset_crypto_metadata (Metadata.column_chunk_ b') = true /\
    format.crypto_metadata (Metadata.column_chunk_ b') =
      format.mkColumnCryptoMetaData (format.mkEncryptionWithColumnKey path key_metadata)
        false true /\
    format.encrypted_column_metadata (Metadata.column_chunk_ b') =
      Encrypt encrypt_props true (SerializeColumnMetaData metadata)).
  { destruct footer_encryption; cbn in Hwrite; injection Hwrite as <- _; cbn; tauto. }
  destruct Hchunk as (Hisset & Hccmd & Hblob).
  unfold Metadata.ColumnChunkMetaDataImpl. rewrite Hisset, Hccmd, Hblob. cbn [andb
    format.isset_ENCRYPTION_WITH_COLUMN_KEY].
  unfold Metadata.column_key_for_metadata. cbv zeta.
  cbn [format.ENCRYPTION_WITH_COLUMN_KEY format.eck_path_in_schema format.eck_key_metadata].
  rewrite Hmap, Hkey.
  destruct key as [|c key]; [congruence |].
  destruct (Encryption.getKeyRetriever fd); cbn [empty andb];
    rewrite Hcipher; reflexivity.
Qed.

Lemma encrypted_column_metadata_is_read_back_witness :
  exists b' bytes,
    Metadata.WriteTo Examples.toy_SerializeColumnMetaData Examples.toy_SerializeColumnChunk
      Examples.toy_Encrypt
      (Metadata.mkColumnChunkMetaDataBuilder
         (format.mkColumnChunk EmptyString 0 format.ColumnMetaData_default
            format.ColumnCryptoMetaData_default EmptyString false false false)
         Examples.column_b_metadata ["b"]
         (Some (Encryption.mkColumnEncryptionProperties "b" true false "0123456789012345"
                  "k1-metadata"))
         None)
      (Some (Encryption.mkEncryptionProperties Encryption.AES_GCM_V1 "0123456789012345"
               "unique" "unique")) = Ok (b', bytes) /\
    format.isset_statistics (format.meta_data (Metadata.column_chunk_ b')) = false /\
    Metadata.ColumnChunkMetaDataImpl Examples.toy_Deserialize_column_b
      Examples.toy_createModuleAAD (Metadata.column_chunk_ b') 0 0
      (Some Examples.decryption_with_column_key) (Some Examples.toy_algorithm) "unique" None =
    (None, Ok (Metadata.mkColumnChunkMetaData (Metadata.column_chunk_ b')
                 Examples.column_b_metadata)).
Proof.
  eexists _, _. split; [reflexivity |]. split; [reflexivity |].
  apply (encrypted_column_metadata_is_read_back Examples.toy_SerializeColumnMetaData
           Examples.toy_SerializeColumnChunk Examples.toy_Encrypt
           Examples.toy_Deserialize_column_b Examples.toy_createModuleAAD
           (format.mkColumnChunk EmptyString 0 format.ColumnMetaData_default
              format.ColumnCryptoMetaData_default EmptyString false false false)
           Examples.column_b_metadata ["b"] "b" "0123456789012345" "k1-metadata" None
           (Encryption.mkEncryptionProperties Encryption.AES_GCM_V1 "0123456789012345"
              "unique" "unique")
           _ "CC" Examples.decryption_with_column_key Examples.toy_algorithm "unique" 0 0 None).
  - reflexivity.
  - reflexivity.
  - reflexivity.
  - discriminate.
  - reflexivity.
Defined.

(** ** The signature of a plaintext footer *)

Section SignatureFacts.

Lemma take_app (a b : string) : take (String.length a) (a +:+ b) = a.
Proof. induction a as [|c a IH]; cbn; [now destruct b | now rewrite IH]. Qed.

Lemma drop_app (a b : string) : drop (String.length a) (a +:+ b) = b.
Proof. induction a as [|c a IH]; cbn; [now destruct b | exact IH]. Qed.

Lemma last_bytes_length (n : nat) (s : string) :
  String.length (Mem.last_bytes n s) = Nat.min n (String.length s).
Proof. unfold Mem.last_bytes. rewrite drop_length. lia. Qed.

Lemma slice_inside (pos len : nat) (s : string) :
  (pos + len <= String.length s)%nat ->
  Mem.slice (Z.of_nat pos) (Z.of_nat len) s = Some (take len (drop pos s)).
Proof.
  intros H. unfold Mem.slice, Mem.size.
  destruct (Z.leb_spec 0 (Z.of_nat pos)); [| lia].
  destruct (Z.leb_spec 0 (Z.of_nat len)); [| lia].
  destruct (Z.leb_spec (Z.of_nat pos + Z.of_nat len) (Z.of_nat (String.length s))); [| lia].
  cbn [andb]. now rewrite !Nat2Z.id.
Qed.

End SignatureFacts.

(** [FileMetaData::verify] accepts the signature [FileMetaData::WriteTo]
    writes.  For a footer in plaintext mode, [WriteTo] writes the serialized
    footer followed by a trailer of 28 bytes, the nonce and the tag of the
    footer's encryption under the footer AAD; [verify], given the same
    encryption properties and that trailer, answers true, provided
    [SignedFooterEncrypt] under that nonce ends in the tag [Encrypt] ended
    in. *)
Theorem FileMetaData_WriteTo_signature_verifies
    (SerializeFileMetaData : format.FileMetaData -> string)
    (SerializeFileMetaDataTo :
       format.FileMetaData -> option Encryption.EncryptionProperties -> string)
    (Encrypt : Encryption.EncryptionProperties -> bool -> string -> string)
    (SignedFooterEncrypt : string -> string -> string -> string -> string)
    (createModuleAAD : string -> Z -> Z -> Z -> Z -> string)
    (m : Metadata.FileMetaData) (encryption signing : Encryption.EncryptionProperties)
    (serialized encrypted : string) :
  signing =
    Metadata.set_aad
      (createModuleAAD (Encryption.file_aad encryption) Metadata.Footer_module
         (Mem.int16 (-1)) (Mem.int16 (-1)) (Mem.int16 (-1))) encryption ->
  serialized = SerializeFileMetaData (Metadata.metadata_ m) ->
  encrypted = Encrypt signing true serialized ->
  Metadata.is_plaintext_mode m = true ->
  (16 <= String.length encrypted)%nat ->
  Mem.last_bytes 16
    (SignedFooterEncrypt serialized (Encryption.key_bytes signing)
       (Encryption.aad_bytes signing) (take 12 (drop 4 encrypted))) =
  Mem.last_bytes 16 encrypted ->
  exists trailer,
    Metadata.FileMetaData_WriteTo SerializeFileMetaData Encrypt createModuleAAD
      SerializeFileMetaDataTo m (Some encryption) =
      (Some signing, Ok (serialized +:+ trailer)) /\
    String.length trailer = 28%nat /\
    Metadata.verify SerializeFileMetaData SignedFooterEncrypt m signing trailer 28 = Ok true.
Proof.
  intros -> -> -> Hmode Hlen Hcipher.
  set (signing := Metadata.set_aad _ encryption) in *.
  set (encrypted := Encrypt signing true _) in *.
  set (nonce := take 12 (drop 4 encrypted)) in *.
  set (tag := Mem.last_bytes 16 encrypted) in *.
  exists (nonce +:+ tag).
  assert (Hnonce : String.length nonce = 12%nat)
    by (unfold nonce; rewrite take_length, drop_length; lia).
  assert (Htag : String.length tag = 16%nat)
    by (unfold tag; rewrite last_bytes_length; lia).
  assert (Htake : take 12 (nonce +:+ tag) = nonce) by (rewrite <- Hnonce; apply take_app).
  assert (Hdrop : drop 12 (nonce +:+ tag) = tag) by (rewrite <- Hnonce; apply drop_app).
  split; [| split].
  - unfold Metadata.FileMetaData_WriteTo, Metadata.FileMetaDataImpl_WriteTo.
    rewrite Hmode. cbn [fmap option_fmap option_map].
    fold signing. fold encrypted.
    change 4%Z with (Z.of_nat 4). change 12%Z with (Z.of_nat 12).
    rewrite slice_inside by lia. fold nonce.
    replace (Mem.size encrypted - 16)%Z with (Z.of_nat (String.length encrypted - 16))
      by (unfold Mem.size; lia).
    change 16%Z with (Z.of_nat 16). rewrite slice_inside by lia.
    replace (take 16 (drop (String.length encrypted - 16) encrypted)) with tag
      by (unfold tag, Mem.last_bytes; symmetry; apply take_all; rewrite drop_length; lia).
    reflexivity.
  - rewrite append_length. lia.
  - rewrite verify_tag.
    + rewrite Htake, Hdrop, Hcipher, (take_all 16) by lia. now rewrite String.eqb_refl.
    + rewrite append_length. lia.
    + rewrite Htake.
      pose proof (last_bytes_length 16
                    (SignedFooterEncrypt (SerializeFileMetaData (Metadata.metadata_ m))
                       (Encryption.key_bytes signing) (Encryption.aad_bytes signing) nonce))
        as H.
      rewrite Hcipher, Htag in H. lia.
Qed.

Lemma FileMetaData_WriteTo_signature_verifies_witness :
  exists trailer,
    Metadata.FileMetaData_WriteTo Examples.toy_SerializeFileMetaData Examples.toy_Encrypt
      Examples.toy_createModuleAAD (fun _ _ => EmptyString) Examples.toy_file_metadata
      (Some Examples.footer_signing) =
      (Some Examples.footer_signing, Ok ("T" +:+ trailer)) /\
    String.length trailer = 28%nat /\
    Metadata.verify Examples.toy_SerializeFileMetaData Examples.toy_SignedFooterEncrypt
      Examples.toy_file_metadata Examples.footer_signing trailer 28 = Ok true.
Proof.
  apply (FileMetaData_WriteTo_signature_verifies Examples.toy_SerializeFileMetaData
           (fun _ _ => EmptyString) Examples.toy_Encrypt Examples.toy_SignedFooterEncrypt
           Examples.toy_createModuleAAD Examples.toy_file_metadata Examples.footer_signing
           Examples.footer_signing "T"
           (Examples.toy_Encrypt Examples.footer_signing true "T")).
  - reflexivity.
  - reflexivity.
  - reflexivity.
  - reflexivity.
  - vm_compute. lia.
  - reflexivity.
Defined.

(** ** The stream of a column's pages *)

(** The page reader [GetColumnPageReader] returns is opened on the metadata
    [col] that [ColumnChunk] gives for the column, and the column map is left
    as [ColumnChunk] left it.  The stream starts at the dictionary page, when
    the chunk has one before its data pages, and at the first data page
    otherwise.  Its length is the chunk's [total_compressed_size]; for a file
    whose writer is before the PARQUET-816 fix, the smaller of 100 and the
    bytes left in the file after the chunk is added to it, so that the stream
    ends at the end of the file or before it, and is shorter than
    [total_compressed_size] when the chunk is said to reach past the end of
    the file.  The offsets and the size are such that the 64-bit sums do not
    overflow. *)
Theorem GetColumnPageReader_stream
    (DeserializeColumnMetaData :
       string -> Encryption.EncryptionProperties -> Result format.ColumnMetaData)
    (createModuleAAD : string -> Z -> Z -> Z -> Z -> string)
    (VersionLt_PARQUET_816_FIXED_VERSION : string -> bool)
    (g : FileReader.SerializedRowGroup) (i : Z) (col : Metadata.ColumnChunkMetaData)
    (column_map' column_map'' : option (gmap Encryption.ColumnPath string))
    (page_reader : FileReader.PageReader) :
  Metadata.ColumnChunk DeserializeColumnMetaData createModuleAAD
    (FileReader.row_group_metadata_ g) i (FileReader.row_group_ordinal_ g)
    (FileReader.file_decryption (FileReader.rg_properties_ g))
    (Some (FileReader.column_chunk_algorithm g))
    (FileReader.fileAAD (FileReader.rg_properties_ g))
    (FileReader.column_map (FileReader.rg_properties_ g)) = (column_map', Ok col) ->
  (0 <= FileReader.col_start col)%Z ->
  (0 <= Metadata.total_compressed_size col)%Z ->
  (FileReader.col_start col + Metadata.total_compressed_size col + 100 < 2 ^ 63)%Z ->
  FileReader.GetColumnPageReader DeserializeColumnMetaData createModuleAAD
    VersionLt_PARQUET_816_FIXED_VERSION g i = (column_map'', Ok page_reader) ->
  column_map'' = column_map' /\
  FileReader.stream page_reader =
    (FileReader.col_start col,
     if VersionLt_PARQUET_816_FIXED_VERSION
          (Metadata.writer_version_ (FileReader.rg_file_metadata_ g))
     then (Metadata.total_compressed_size col +
           Z.min 100
             (Mem.size (FileReader.rg_source_ g) -
              (FileReader.col_start col + Metadata.total_compressed_size col)))%Z
     else Metadata.total_compressed_size col) /\
  FileReader.pr_num_values page_reader = Metadata.num_values col /\
  (VersionLt_PARQUET_816_FIXED_VERSION
     (Metadata.writer_version_ (FileReader.rg_file_metadata_ g)) = true ->
   (fst (FileReader.stream page_reader) + snd (FileReader.stream page_reader) <=
    Mem.size (FileReader.rg_source_ g))%Z /\
   ((Mem.size (FileReader.rg_source_ g) <
     FileReader.col_start col + Metadata.total_compressed_size col)%Z ->
    (snd (FileReader.stream page_reader) < Metadata.total_compressed_size col)%Z)).
Proof.
  intros Hcol _ _ _. unfold FileReader.GetColumnPageReader. cbv zeta.
  fold (FileReader.column_chunk_algorithm g). rewrite Hcol.
  fold (FileReader.col_start col). intros H.
  assert (Hreader :
    column_map'' = column_map' /\
    FileReader.stream page_reader =
    (FileReader.col_start col,
     if VersionLt_PARQUET_816_FIXED_VERSION
          (Metadata.writer_version_ (FileReader.rg_file_metadata_ g))
     then (Metadata.total_compressed_size col +
           Z.min 100
             (Mem.size (FileReader.rg_source_ g) -
              (FileReader.col_start col + Metadata.total_compressed_size col)))%Z
     else Metadata.total_compressed_size col) /\
    FileReader.pr_num_values page_reader = Metadata.num_values col).
  { unfold mbind, Result_bind in H.
    repeat match type of H with
           | context [match ?x with _ => _ end] => destruct x eqn:?
           end;
      try discriminate; injection H as <- <-;
      cbn [FileReader.stream FileReader.pr_num_values]; auto. }
  destruct Hreader as (Hmap & Hstream & Hvalues).
  split; [exact Hmap |]. split; [exact Hstream |]. split; [exact Hvalues |].
  intros Hold. rewrite Hstream, Hold. cbn [fst snd]. lia.
Qed.

Lemma GetColumnPageReader_stream_witness :
  FileReader.GetColumnPageReader Examples.toy_DeserializeColumnMetaData
    Examples.toy_createModuleAAD (fun _ => true) Examples.plain_row_group 0 =
    (None, Ok (FileReader.mkPageReader (4, 96)%Z 10 0 false 0 0 None)) /\
  (4 + 96 <= Mem.size (FileReader.rg_source_ Examples.plain_row_group))%Z.
Proof.
  split; [reflexivity |].
  destruct (GetColumnPageReader_stream Examples.toy_DeserializeColumnMetaData
              Examples.toy_createModuleAAD (fun _ => true) Examples.plain_row_group 0
              (Metadata.mkColumnChunkMetaData Examples.plain_column
                 (format.meta_data Examples.plain_column))
              None None
              (FileReader.mkPageReader (4, 96)%Z 10 0 false 0 0 None))
    as (_ & _ & _ & Hinside).
  - reflexivity.
  - vm_compute. discriminate.
  - vm_compute. discriminate.
  - vm_compute. reflexivity.
  - reflexivity.
  - exact (proj1 (Hinside eq_refl)).
Defined.

(** ** Crypto factory: what a column-keys property yields *)

Section FactoryResultFacts.

Import Encryption CryptoFactory.

Variable IsWhitespace : ascii -> bool.
Variable KmsConnectionConfig : Type.
Variable World : Type.
Variable RandBytes : nat -> World -> string * World.
Variable GetEncryptionKeyMetadata :
  FileKeyWrapper KmsConnectionConfig -> string -> string -> bool -> World -> Result string * World.

#[local] Abbreviation Trim := (StringUtil.TrimString IsWhitespace).
#[local] Abbreviation CNL :=
  (column_names_loop IsWhitespace KmsConnectionConfig World RandBytes GetEncryptionKeyMetadata).
#[local] Abbreviation KCL :=
  (key_to_columns_loop IsWhitespace KmsConnectionConfig World RandBytes GetEncryptionKeyMetadata).
#[local] Abbreviation GCEP :=
  (GetColumnEncryptionProperties IsWhitespace KmsConnectionConfig World RandBytes
     GetEncryptionKeyMetadata).
#[local] Abbreviation GFEP :=
  (GetFileEncryptionProperties IsWhitespace KmsConnectionConfig World RandBytes
     GetEncryptionKeyMetadata).

(** The columns one mapping names, and the key it names them under. *)
#[local] Abbreviation names_under mapping key c :=
  (exists key_part columns_part,
     SplitString (Trim mapping) ":" = [key_part; columns_part] /\
     Trim key_part = key /\
     c ∈ map Trim (SplitString (Trim columns_part) ",")).

(** What the factory builds for a column under a key: the builder is given
    the column's name, a key drawn from the random generator and the key
    metadata the key wrapper returned for that key under the master key. *)
#[local] Abbreviation fresh dek kw key c p :=
  (c <> EmptyString /\ (0 <= dek)%Z /\ cep_column_name p = c /\
   exists w1 w2,
     cep_key p = fst (RandBytes (Z.to_nat dek) w1) /\
     GetEncryptionKeyMetadata kw (cep_key p) key false (snd (RandBytes (Z.to_nat dek) w1)) =
       (Ok (cep_key_metadata p), w2)).

Ltac next_name :=
  cbn [column_names_loop];
  match goal with
  | |- context [empty (Trim ?n)] => destruct (empty (Trim n)) eqn:?
  end;
  [| case_bool_decide;
     [| match goal with
        | |- context [(?dek <? 0)%Z] => destruct (Z.ltb_spec dek 0)
        end;
        [| match goal with
           | |- context [RandBytes ?k ?w] => destruct (RandBytes k w) as [?column_key ?w1] eqn:?
           end;
           match goal with
           | |- context [GetEncryptionKeyMetadata ?a ?b ?c ?d ?w] =>
               destruct (GetEncryptionKeyMetadata a b c d w) as [[?md | ?e] ?w2] eqn:?
           end ] ] ].

Ltac next_mapping :=
  cbn [key_to_columns_loop];
  match goal with
  | |- context [empty (Trim ?m)] => destruct (empty (Trim m)) eqn:?
  end;
  [| match goal with
     | |- context [Nat.eqb (List.length ?parts) 2] =>
         destruct (Nat.eqb (List.length parts) 2) eqn:?; cbn [negb]
     end;
     [ match goal with
       | |- context [empty (Trim (nth 0 ?parts ?d))] =>
           destruct (empty (Trim (nth 0 parts d))) eqn:?
       end;
       [| match goal with
          | |- context [Nat.eqb 0 (List.length ?names)] =>
              destruct (Nat.eqb 0 (List.length names)) eqn:?
          end;
          [| match goal with
             | |- context [column_names_loop ?a ?b ?c ?d ?e ?f ?g ?h ?i ?j] =>
                 destruct (column_names_loop a b c d e f g h i j) as [[?enc1 | ?e1] ?w1] eqn:?
             end ] ] | ] ].

(** An entry of the map after the loop over the names of one key was there
    before, or was built for one of the names. *)
Lemma CNL_entries column_names : forall dek kw id enc w enc' w',
  CNL dek kw id column_names enc w = (Ok enc', w') ->
  forall c p, enc' !! c = Some p ->
    enc !! c = Some p \/ (c ∈ map Trim column_names /\ fresh dek kw id c p).
Proof.
  induction column_names as [|n column_names IH]; intros dek kw id enc w enc' w'.
  - cbn. intros [= <- <-]. auto.
  - next_name; try discriminate.
    intros Hloop c p Hp. cbn [map].
    destruct (IH _ _ _ _ _ _ _ Hloop c p Hp) as [Hold | (Hin & Hfresh)].
    + apply lookup_insert_Some in Hold as [[<- <-] | [_ Hold]]; [| now left].
      right. split; [apply elem_of_cons; now left |]. cbn.
      split; [| split; [assumption | split; [reflexivity |]]].
      * intros E. match goal with Hn : empty (Trim n) = false |- _ =>
          rewrite E in Hn; discriminate end.
      * match goal with
        | Hr : RandBytes _ ?w0 = _, Hk : GetEncryptionKeyMetadata _ _ _ _ _ = (Ok _, ?w2) |- _ =>
            exists w0, w2; rewrite Hr; cbn [fst snd]; split; [reflexivity | exact Hk]
        end.
    + right. split; [apply elem_of_cons; now right | exact Hfresh].
Qed.

(** An entry of the map after the loop over the mappings was there before,
    or was built for a column of one of the mappings, under its key. *)
Lemma KCL_entries segs : forall dek kw enc w enc' w',
  KCL dek kw segs enc w = (Ok enc', w') ->
  forall c p, enc' !! c = Some p ->
    enc !! c = Some p \/
    exists mapping key, mapping ∈ segs /\ names_under mapping key c /\ fresh dek kw key c p.
Proof.
  induction segs as [|m segs IH]; intros dek kw enc w enc' w'.
  - cbn. intros [= <- <-]. auto.
  - next_mapping; try discriminate.
    + intros Hrest c p Hp.
      destruct (IH _ _ _ _ _ _ Hrest c p Hp) as [Hold | (mapping & key & Hin & H)]; [now left |].
      right. exists mapping, key. split; [apply elem_of_cons; now right | exact H].
    + match goal with
      | H : Nat.eqb (List.length _) 2 = true |- _ => apply two_parts in H; rename H into Hparts
      end.
      match goal with
      | H : column_names_loop _ _ _ _ _ _ _ _ _ _ _ = (Ok _, _) |- _ => rename H into Hnames
      end.
      intros Hrest c p Hp.
      destruct (IH _ _ _ _ _ _ Hrest c p Hp) as [Hold | (mapping & key & Hin & H)].
      * destruct (CNL_entries _ _ _ _ _ _ _ _ Hnames c p Hold) as [Holder | (Hc & Hfresh)];
          [now left |].
        right. eexists m, _. split; [apply elem_of_cons; now left |].
        split; [| exact Hfresh]. eexists _, _. split; [exact Hparts |]. split; [reflexivity |].
        exact Hc.
      * right. exists mapping, key. split; [apply elem_of_cons; now right | exact H].
Qed.

Lemma GCEP_columns dek column_keys kw w m w' :
  GCEP dek column_keys kw w = (Ok m, w') ->
  m <> ∅ /\
  (0 <= dek)%Z /\
  (forall c, is_Some (m !! c) <-> exists key, mentions IsWhitespace column_keys key c) /\
  (forall c p, m !! c = Some p ->
     c <> EmptyString /\ cep_column_name p = c /\
     exists key w1 w2,
       mentions IsWhitespace column_keys key c /\
       cep_key p = fst (RandBytes (Z.to_nat dek) w1) /\
       GetEncryptionKeyMetadata kw (cep_key p) key false (snd (RandBytes (Z.to_nat dek) w1)) =
         (Ok (cep_key_metadata p), w2)) /\
  (forall c key1 key2,
     mentions IsWhitespace column_keys key1 c -> mentions IsWhitespace column_keys key2 c ->
     key1 = key2).
Proof.
  intros Hresult. pose proof Hresult as Hcall. revert Hresult.
  unfold GetColumnEncryptionProperties.
  destruct (KCL dek kw (SplitString column_keys ";") ∅ w) as [[enc | e] w1] eqn:Hloop;
    [| discriminate].
  case_bool_decide as Hne; [discriminate |]. intros [= <- <-].
  assert (Hentries : forall c p, enc !! c = Some p ->
            c <> EmptyString /\ (0 <= dek)%Z /\ cep_column_name p = c /\
            exists key w1 w2,
              mentions IsWhitespace column_keys key c /\
              cep_key p = fst (RandBytes (Z.to_nat dek) w1) /\
              GetEncryptionKeyMetadata kw (cep_key p) key false
                (snd (RandBytes (Z.to_nat dek) w1)) = (Ok (cep_key_metadata p), w2)).
  { intros c p Hp.
    destruct (KCL_entries _ _ _ _ _ _ _ Hloop c p Hp)
      as [Hold | (mapping & key & Hin & (kp & cp & Hsplit & Hkey & Hc) & Hfresh)].
    - now rewrite lookup_empty in Hold.
    - destruct Hfresh as (Hc0 & Hdek & Hname & w0 & w2 & Hk & Hmd).
      repeat split; try assumption.
      exists key, w0, w2. split; [| split; assumption].
      exists mapping, kp, cp. repeat split; assumption. }
  split; [assumption |]. split; [| split; [| split]].
  - apply map_choose in Hne as (c & p & Hp). now destruct (Hentries c p Hp) as (_ & H & _).
  - intros c. rewrite (KCL_columns _ _ _ _ _ _ _ _ _ _ _ _ Hloop c). unfold mentions.
    rewrite lookup_empty. split.
    + intros [[? [=]] | (mapping & Hin & kp & cp & Hsplit & Hc)]. eauto 10.
    + intros (key & mapping & kp & cp & Hin & Hsplit & _ & Hc). right. eauto 10.
  - intros c p Hp. destruct (Hentries c p Hp) as (H1 & _ & H2 & H3). auto.
  - intros c key1 key2 H1 H2. destruct (decide (key1 = key2)) as [E | E]; [exact E |].
    exfalso.
    destruct (GCEP_ill_formed IsWhitespace KmsConnectionConfig World RandBytes
                GetEncryptionKeyMetadata dek column_keys kw w) as (e & He & _).
    { left. exists c, key1, key2. auto. }
    rewrite Hcall in He. discriminate.
Qed.

(** A mapping that is not blank and does not have exactly one colon. *)
Lemma KCL_malformed l1 m l2 dek kw enc w :
  Trim m <> EmptyString -> List.length (SplitString (Trim m) ":") <> 2%nat ->
  exists e w', KCL dek kw (l1 ++ m :: l2)%list enc w = (Throw e, w').
Proof.
  intros Hne Hparts. eapply KCL_throws_at. intros enc1 w1.
  next_mapping; eauto; exfalso.
  all: try (match goal with
            | H : empty (Trim _) = true |- _ => apply empty_true in H; contradiction
            end).
  all: match goal with
       | H : Nat.eqb _ 2 = true |- _ => apply Nat.eqb_eq in H; contradiction
       end.
Qed.

Lemma GFEP_Ok kms cfg w props w' :
  GFEP kms (Some cfg) w = (Ok (Some props), w') ->
  internal_key_material cfg = true /\
  (uniform_encryption cfg = true <-> column_keys cfg = EmptyString) /\
  (uniform_encryption cfg = true <-> fep_encrypted_columns props = ∅) /\
  fep_plaintext_footer props = plaintext_footer cfg && negb (uniform_encryption cfg) /\
  fep_algorithm props = encryption_algorithm cfg /\
  fep_footer_key props = fst (RandBytes (Z.to_nat (data_key_length_bits cfg ÷ 8)) w).
Proof.
  unfold GetFileEncryptionProperties.
  destruct (uniform_encryption cfg) eqn:Hu, (column_keys cfg) as [|c ck] eqn:Hck;
    cbn [negb andb empty]; try discriminate.
  all: destruct (internal_key_material cfg); cbn [negb]; [| discriminate].
  all: destruct (negb (ValidateKeyLength _)); [discriminate |].
  all: destruct (RandBytes _ w) as [footer_key w1] eqn:Hrand.
  all: destruct (GetEncryptionKeyMetadata _ _ _ _ _) as [[md | e] w2]; [| discriminate].
  - intros [= <- <-]. cbn. rewrite andb_false_r. repeat split; auto.
  - destruct (GetColumnEncryptionProperties _ _ _ _ _ _ _ _ _) as [[enc | e] w3] eqn:Hcols;
      [| discriminate].
    intros [= <- <-]. cbn. rewrite andb_true_r.
    destruct (GCEP_columns _ _ _ _ _ _ Hcols) as (Hne & _).
    repeat split; auto; try discriminate; intros E; contradiction.
Qed.

End FactoryResultFacts.

(** When [GetColumnEncryptionProperties] returns, the key length was not
    negative and the columns it encrypts are exactly the columns that the
    column-keys property names under some key; there is at least one, and each
    is named under one key only.  For each, under its trimmed, non-empty name,
    [ColumnEncryptionProperties::Builder] was given that name, a key of
    [dek_length] bytes drawn from the random generator, and the key metadata
    that the key wrapper returned for this key and the master key the property
    names for the column, asked as for a column key. *)
Theorem GetColumnEncryptionProperties_columns
    (IsWhitespace : ascii -> bool) (KmsConnectionConfig World : Type)
    (RandBytes : nat -> World -> string * World)
    (GetEncryptionKeyMetadata :
       CryptoFactory.FileKeyWrapper KmsConnectionConfig -> string -> string -> bool -> World ->
       Result string * World)
    (dek_length : Z) (column_keys : string)
    (key_wrapper : CryptoFactory.FileKeyWrapper KmsConnectionConfig) (w w' : World)
    (encrypted_columns : gmap string CryptoFactory.ColumnEncryptionProperties) :
  CryptoFactory.GetColumnEncryptionProperties IsWhitespace KmsConnectionConfig World RandBytes
    GetEncryptionKeyMetadata dek_length column_keys key_wrapper w =
    (Ok encrypted_columns, w') ->
  encrypted_columns <> ∅ /\
  (0 <= dek_length)%Z /\
  (forall column,
     is_Some (encrypted_columns !! column) <->
     exists key, CryptoFactory.mentions IsWhitespace column_keys key column) /\
  (forall column props,
     encrypted_columns !! column = Some props ->
     column <> EmptyString /\
     CryptoFactory.cep_column_name props = column /\
     exists key w1 w2,
       CryptoFactory.mentions IsWhitespace column_keys key column /\
       CryptoFactory.cep_key props = fst (RandBytes (Z.to_nat dek_length) w1) /\
       GetEncryptionKeyMetadata key_wrapper (CryptoFactory.cep_key props) key false
         (snd (RandBytes (Z.to_nat dek_length) w1)) =
         (Ok (CryptoFactory.cep_key_metadata props), w2)) /\
  (forall column key1 key2,
     CryptoFactory.mentions IsWhitespace column_keys key1 column ->
     CryptoFactory.mentions IsWhitespace column_keys key2 column ->
     key1 = key2).
Proof. apply GCEP_columns. Qed.

Lemma GetColumnEncryptionProperties_columns_witness :
  exists (encrypted_columns : gmap string CryptoFactory.ColumnEncryptionProperties) (w' : nat),
    CryptoFactory.GetColumnEncryptionProperties IsWhitespace_arrow unit nat
      Examples.toy_RandBytes Examples.toy_GetEncryptionKeyMetadata 16 "k1: a, b; k2: c"
      Examples.toy_key_wrapper 0%nat = (Ok encrypted_columns, w') /\
    is_Some (encrypted_columns !! "b") /\ encrypted_columns <> ∅.
Proof.
  eexists _, _. split; [vm_compute; reflexivity |].
  match goal with
  | |- is_Some (?m !! _) /\ _ =>
      destruct (GetColumnEncryptionProperties_columns IsWhitespace_arrow unit nat
                  Examples.toy_RandBytes Examples.toy_GetEncryptionKeyMetadata 16
                  "k1: a, b; k2: c" Examples.toy_key_wrapper 0%nat 6%nat m)
        as (Hne & _ & Hcolumns & _)
  end.
  - vm_compute. reflexivity.
  - split; [| exact Hne].
    apply Hcolumns. exists "k1", "k1: a, b", "k1", " a, b".
    repeat split; try (vm_compute; reflexivity); apply list_elem_of_In; vm_compute; tauto.
Defined.

(** A mapping of the column-keys property that is not blank and does not
    have exactly one colon makes [GetColumnEncryptionProperties] throw: the
    "Incorrect key to columns mapping" error, unless an earlier mapping makes
    it throw first: a configuration error, what the key wrapper threw, or,
    when the key length is negative, the [std::length_error] of building a
    column's key. *)
Theorem GetColumnEncryptionProperties_malformed_mapping
    (IsWhitespace : ascii -> bool) (KmsConnectionConfig World : Type)
    (RandBytes : nat -> World -> string * World)
    (GetEncryptionKeyMetadata :
       CryptoFactory.FileKeyWrapper KmsConnectionConfig -> string -> string -> bool -> World ->
       Result string * World)
    (dek_length : Z) (column_keys mapping : string)
    (key_wrapper : CryptoFactory.FileKeyWrapper KmsConnectionConfig) (w : World) :
  mapping ∈ SplitString column_keys ";" ->
  TrimString IsWhitespace mapping <> EmptyString ->
  List.length (SplitString (TrimString IsWhitespace mapping) ":") <> 2%nat ->
  exists e,
    fst (CryptoFactory.GetColumnEncryptionProperties IsWhitespace KmsConnectionConfig World
           RandBytes GetEncryptionKeyMetadata dek_length column_keys key_wrapper w) = Throw e /\
    (CryptoFactory.ConfigError e \/
     CryptoFactory.raised_by_key_wrapper KmsConnectionConfig World GetEncryptionKeyMetadata e \/
     ((dek_length < 0)%Z /\ exists what, e = std_length_error what)).
Proof.
  intros Hin Hne Hparts. apply list_elem_of_split in Hin as (l1 & l2 & Hsegs).
  destruct (KCL_malformed IsWhitespace KmsConnectionConfig World RandBytes
              GetEncryptionKeyMetadata l1 mapping l2 dek_length key_wrapper ∅ w Hne Hparts)
    as (e & w' & Hthrow).
  exists e.
  assert (H : CryptoFactory.GetColumnEncryptionProperties IsWhitespace KmsConnectionConfig
                World RandBytes GetEncryptionKeyMetadata dek_length column_keys key_wrapper w =
              (Throw e, w')).
  { unfold CryptoFactory.GetColumnEncryptionProperties. now rewrite Hsegs, Hthrow. }
  rewrite H. split; [reflexivity |]. eapply GCEP_throw_raised. exact H.
Qed.

Lemma GetColumnEncryptionProperties_malformed_mapping_witness :
  (exists e,
     fst (CryptoFactory.GetColumnEncryptionProperties IsWhitespace_arrow unit nat
            Examples.toy_RandBytes Examples.toy_GetEncryptionKeyMetadata 16 "k1: a; k2: b: c"
            Examples.toy_key_wrapper 0%nat) = Throw e /\
     CryptoFactory.ConfigError e) /\
  (exists e,
     fst (CryptoFactory.GetColumnEncryptionProperties IsWhitespace_arrow unit nat
            Examples.toy_RandBytes Examples.toy_GetEncryptionKeyMetadata (-1) "k1: a; k2: b: c"
            Examples.toy_key_wrapper 0%nat) = Throw e /\
     exists what, e = std_length_error what).
Proof.
  split.
  - destruct (GetColumnEncryptionProperties_malformed_mapping IsWhitespace_arrow unit nat
                Examples.toy_RandBytes Examples.toy_GetEncryptionKeyMetadata 16
                "k1: a; k2: b: c" " k2: b: c" Examples.toy_key_wrapper 0%nat)
      as (e & He & Hraised).
    + apply list_elem_of_In. vm_compute. tauto.
    + vm_compute. discriminate.
    + vm_compute. discriminate.
    + exists e. split; [exact He |].
      destruct Hraised as [Hconfig | [(kw & key & id & is_footer & w0 & Hthrow) | (Hneg & _)]];
        [exact Hconfig | discriminate Hthrow | discriminate Hneg].
  - destruct (GetColumnEncryptionProperties_malformed_mapping IsWhitespace_arrow unit nat
                Examples.toy_RandBytes Examples.toy_GetEncryptionKeyMetadata (-1)
                "k1: a; k2: b: c" " k2: b: c" Examples.toy_key_wrapper 0%nat)
      as (e & He & Hraised).
    + apply list_elem_of_In. vm_compute. tauto.
    + vm_compute. discriminate.
    + vm_compute. discriminate.
    + exists e. split; [exact He |].
      vm_compute in He. injection He as <-. eauto.
Defined.

(** The file encryption properties [GetFileEncryptionProperties] returns for
    a configuration: the key material is internal, the configuration has
    column keys or uniform encryption and not both, and columns are encrypted
    with keys of their own exactly when encryption is not uniform.  The footer
    is in plaintext only when the configuration asks for it and encryption is
    not uniform: with uniform encryption the [plaintext_footer] setting is
    ignored.  The footer key is the first key drawn from the random
    generator. *)
Theorem GetFileEncryptionProperties_result
    (IsWhitespace : ascii -> bool) (KmsConnectionConfig World : Type)
    (RandBytes : nat -> World -> string * World)
    (GetEncryptionKeyMetadata :
       CryptoFactory.FileKeyWrapper KmsConnectionConfig -> string -> string -> bool -> World ->
       Result string * World)
    (kms : KmsConnectionConfig) (cfg : CryptoFactory.EncryptionConfiguration) (w w' : World)
    (props : CryptoFactory.FileEncryptionProperties) :
  CryptoFactory.GetFileEncryptionProperties IsWhitespace KmsConnectionConfig World RandBytes
    GetEncryptionKeyMetadata kms (Some cfg) w = (Ok (Some props), w') ->
  CryptoFactory.internal_key_material cfg = true /\
  (CryptoFactory.uniform_encryption cfg = true <->
   CryptoFactory.column_keys cfg = EmptyString) /\
  (CryptoFactory.uniform_encryption cfg = true <->
   CryptoFactory.fep_encrypted_columns props = ∅) /\
  CryptoFactory.fep_plaintext_footer props =
    CryptoFactory.plaintext_footer cfg && negb (CryptoFactory.uniform_encryption cfg) /\
  CryptoFactory.fep_algorithm props = CryptoFactory.encryption_algorithm cfg /\
  CryptoFactory.fep_footer_key props =
    fst (RandBytes (Z.to_nat (CryptoFactory.data_key_length_bits cfg ÷ 8)) w).
Proof. apply GFEP_Ok. Qed.

Lemma GetFileEncryptionProperties_result_witness :
  exists (props : CryptoFactory.FileEncryptionProperties) (w' : nat),
    CryptoFactory.GetFileEncryptionProperties IsWhitespace_arrow unit nat
      Examples.toy_RandBytes Examples.toy_GetEncryptionKeyMetadata tt
      (Some (CryptoFactory.mkEncryptionConfiguration "kf" EmptyString Encryption.AES_GCM_V1
               true false 600 true true 128)) 0%nat = (Ok (Some props), w') /\
    CryptoFactory.fep_plaintext_footer props = false /\
    CryptoFactory.fep_footer_key props = "AAAAAAAAAAAAAAAA".
Proof.
  eexists _, _. split; [vm_compute; reflexivity |].
  match goal with
  | |- CryptoFactory.fep_plaintext_footer ?p = _ /\ _ =>
      destruct (GetFileEncryptionProperties_result IsWhitespace_arrow unit nat
                  Examples.toy_RandBytes Examples.toy_GetEncryptionKeyMetadata tt
                  (CryptoFactory.mkEncryptionConfiguration "kf" EmptyString
                     Encryption.AES_GCM_V1 true false 600 true true 128) 0%nat 2%nat p)
        as (_ & _ & _ & Hfooter & _ & Hkey)
  end.
  - vm_compute. reflexivity.
  - split; [exact Hfooter | exact Hkey].
Defined.
